(** * cc430-modem: UART <-> RF modem firmware (src/cc430-modem.c)

    A shallow embedding of the interrupt handlers and of the main loop of
    the Snowcap radio board firmware, and the properties of its framing,
    buffering and packet state machine.

    Conventions.
    - C integers are [Z]; a store into an [unsigned char] is [uchar]
      (reduction modulo 256), a store into a [signed char] is [schar].
    - The four global arrays are lists of bytes of fixed length.  An access
      outside an array is undefined in C: [load] and [store] check the
      bounds, and every embedded function runs in the [option] monad, [None]
      meaning that the C code left its arrays.
    - Hardware is reduced to what the firmware observes and drives: the byte
      in UCA0RXBUF, the status byte answered to a SNOP strobe, the content of
      the radio RX FIFO, the timer run bit, and two logs (bytes written to
      UCA0TXBUF, frames written to the TX FIFO). *)

From Stdlib Require Import ZArith Lia Bool.
From stdpp Require Import base option list.

Local Open Scope Z_scope.

(** ** Constants (cc430-modem.c, lines 15-46) *)

Definition PAYLOAD_LEN : Z := 32.
Definition PACKET_LEN : Z := PAYLOAD_LEN + 3.
Definition UART_BUF_LEN : Z := PAYLOAD_LEN * 3.
Definition CRC_OK : Z := 128.
Definition UART_RX_NEWDATA_TIMEOUT_MS : Z := 4.
Definition CC430_STATE_IDLE : Z := 0.
Definition CC430_STATE_MASK : Z := 112.

(** Character constants used by the code. *)
Definition ch_nl : Z := 10.     (* '\n' *)
Definition ch_sp : Z := 32.     (* ' '  *)
Definition ch_0 : Z := 48.      (* '0'  *)
Definition ch_X : Z := 88.      (* 'X'  *)
Definition ch_minus : Z := 45.  (* '-'  *)

(** ** Machine integers and arrays *)

Definition uchar (z : Z) : Z := z mod 256.

Definition schar (z : Z) : Z :=
  let u := z mod 256 in if u <? 128 then u else u - 256.

Definition load (a : list Z) (i : Z) : option Z :=
  if (0 <=? i) && (i <? Z.of_nat (length a)) then a !! Z.to_nat i else None.

Definition store (a : list Z) (i : Z) (v : Z) : option (list Z) :=
  if (0 <=? i) && (i <? Z.of_nat (length a))
  then Some (<[Z.to_nat i := v]> a) else None.

(** [for (x = x0; x < x0 + n; ++x) body], the bound being fixed on entry. *)
Fixpoint for_loop {S : Type} (n : nat) (x : Z)
    (body : Z -> S -> option S) (s : S) : option S :=
  match n with
  | O => Some s
  | S k => s' ← body x s; for_loop k (x + 1) body s'
  end.

(** ** Global state (lines 51-75) and the observed hardware *)

Record modem : Type := Modem {
  UartRxBuffer : list Z;
  UartRxBuffer_i : Z;
  UartTxBuffer : list Z;
  UartTxBuffer_i : Z;
  UartTxBufferLength : Z;
  uart_rx_timeout : Z;
  RfRxBuffer : list Z;
  RfRxBufferLength : Z;
  RfTxBuffer : list Z;
  data_to_send : Z;
  rf_error : Z;
  rf_transmitting : Z;
  rf_receiving : Z;
  TA1_running : bool;        (* timer counting with its interrupt enabled *)
  TA1CCR0 : Z;
  UCA0TXBUF_log : list Z;    (* bytes handed to the UART transmitter *)
  TXFIFO_log : list (list Z) (* frames handed to the radio, oldest first *)
}.

Definition set_UartRxBuffer v s := Modem v (UartRxBuffer_i s) (UartTxBuffer s) (UartTxBuffer_i s) (UartTxBufferLength s) (uart_rx_timeout s) (RfRxBuffer s) (RfRxBufferLength s) (RfTxBuffer s) (data_to_send s) (rf_error s) (rf_transmitting s) (rf_receiving s) (TA1_running s) (TA1CCR0 s) (UCA0TXBUF_log s) (TXFIFO_log s).
Definition set_UartRxBuffer_i v s := Modem (UartRxBuffer s) v (UartTxBuffer s) (UartTxBuffer_i s) (UartTxBufferLength s) (uart_rx_timeout s) (RfRxBuffer s) (RfRxBufferLength s) (RfTxBuffer s) (data_to_send s) (rf_error s) (rf_transmitting s) (rf_receiving s) (TA1_running s) (TA1CCR0 s) (UCA0TXBUF_log s) (TXFIFO_log s).
Definition set_UartTxBuffer v s := Modem (UartRxBuffer s) (UartRxBuffer_i s) v (UartTxBuffer_i s) (UartTxBufferLength s) (uart_rx_timeout s) (RfRxBuffer s) (RfRxBufferLength s) (RfTxBuffer s) (data_to_send s) (rf_error s) (rf_transmitting s) (rf_receiving s) (TA1_running s) (TA1CCR0 s) (UCA0TXBUF_log s) (TXFIFO_log s).
Definition set_UartTxBuffer_i v s := Modem (UartRxBuffer s) (UartRxBuffer_i s) (UartTxBuffer s) v (UartTxBufferLength s) (uart_rx_timeout s) (RfRxBuffer s) (RfRxBufferLength s) (RfTxBuffer s) (data_to_send s) (rf_error s) (rf_transmitting s) (rf_receiving s) (TA1_running s) (TA1CCR0 s) (UCA0TXBUF_log s) (TXFIFO_log s).
Definition set_UartTxBufferLength v s := Modem (UartRxBuffer s) (UartRxBuffer_i s) (UartTxBuffer s) (UartTxBuffer_i s) v (uart_rx_timeout s) (RfRxBuffer s) (RfRxBufferLength s) (RfTxBuffer s) (data_to_send s) (rf_error s) (rf_transmitting s) (rf_receiving s) (TA1_running s) (TA1CCR0 s) (UCA0TXBUF_log s) (TXFIFO_log s).
Definition set_uart_rx_timeout v s := Modem (UartRxBuffer s) (UartRxBuffer_i s) (UartTxBuffer s) (UartTxBuffer_i s) (UartTxBufferLength s) v (RfRxBuffer s) (RfRxBufferLength s) (RfTxBuffer s) (data_to_send s) (rf_error s) (rf_transmitting s) (rf_receiving s) (TA1_running s) (TA1CCR0 s) (UCA0TXBUF_log s) (TXFIFO_log s).
Definition set_RfRxBuffer v s := Modem (UartRxBuffer s) (UartRxBuffer_i s) (UartTxBuffer s) (UartTxBuffer_i s) (UartTxBufferLength s) (uart_rx_timeout s) v (RfRxBufferLength s) (RfTxBuffer s) (data_to_send s) (rf_error s) (rf_transmitting s) (rf_receiving s) (TA1_running s) (TA1CCR0 s) (UCA0TXBUF_log s) (TXFIFO_log s).
Definition set_RfRxBufferLength v s := Modem (UartRxBuffer s) (UartRxBuffer_i s) (UartTxBuffer s) (UartTxBuffer_i s) (UartTxBufferLength s) (uart_rx_timeout s) (RfRxBuffer s) v (RfTxBuffer s) (data_to_send s) (rf_error s) (rf_transmitting s) (rf_receiving s) (TA1_running s) (TA1CCR0 s) (UCA0TXBUF_log s) (TXFIFO_log s).
Definition set_RfTxBuffer v s := Modem (UartRxBuffer s) (UartRxBuffer_i s) (UartTxBuffer s) (UartTxBuffer_i s) (UartTxBufferLength s) (uart_rx_timeout s) (RfRxBuffer s) (RfRxBufferLength s) v (data_to_send s) (rf_error s) (rf_transmitting s) (rf_receiving s) (TA1_running s) (TA1CCR0 s) (UCA0TXBUF_log s) (TXFIFO_log s).
Definition set_data_to_send v s := Modem (UartRxBuffer s) (UartRxBuffer_i s) (UartTxBuffer s) (UartTxBuffer_i s) (UartTxBufferLength s) (uart_rx_timeout s) (RfRxBuffer s) (RfRxBufferLength s) (RfTxBuffer s) v (rf_error s) (rf_transmitting s) (rf_receiving s) (TA1_running s) (TA1CCR0 s) (UCA0TXBUF_log s) (TXFIFO_log s).
Definition set_rf_error v s := Modem (UartRxBuffer s) (UartRxBuffer_i s) (UartTxBuffer s) (UartTxBuffer_i s) (UartTxBufferLength s) (uart_rx_timeout s) (RfRxBuffer s) (RfRxBufferLength s) (RfTxBuffer s) (data_to_send s) v (rf_transmitting s) (rf_receiving s) (TA1_running s) (TA1CCR0 s) (UCA0TXBUF_log s) (TXFIFO_log s).
Definition set_rf_transmitting v s := Modem (UartRxBuffer s) (UartRxBuffer_i s) (UartTxBuffer s) (UartTxBuffer_i s) (UartTxBufferLength s) (uart_rx_timeout s) (RfRxBuffer s) (RfRxBufferLength s) (RfTxBuffer s) (data_to_send s) (rf_error s) v (rf_receiving s) (TA1_running s) (TA1CCR0 s) (UCA0TXBUF_log s) (TXFIFO_log s).
Definition set_rf_receiving v s := Modem (UartRxBuffer s) (UartRxBuffer_i s) (UartTxBuffer s) (UartTxBuffer_i s) (UartTxBufferLength s) (uart_rx_timeout s) (RfRxBuffer s) (RfRxBufferLength s) (RfTxBuffer s) (data_to_send s) (rf_error s) (rf_transmitting s) v (TA1_running s) (TA1CCR0 s) (UCA0TXBUF_log s) (TXFIFO_log s).
Definition set_TA1_running v s := Modem (UartRxBuffer s) (UartRxBuffer_i s) (UartTxBuffer s) (UartTxBuffer_i s) (UartTxBufferLength s) (uart_rx_timeout s) (RfRxBuffer s) (RfRxBufferLength s) (RfTxBuffer s) (data_to_send s) (rf_error s) (rf_transmitting s) (rf_receiving s) v (TA1CCR0 s) (UCA0TXBUF_log s) (TXFIFO_log s).
Definition set_TA1CCR0 v s := Modem (UartRxBuffer s) (UartRxBuffer_i s) (UartTxBuffer s) (UartTxBuffer_i s) (UartTxBufferLength s) (uart_rx_timeout s) (RfRxBuffer s) (RfRxBufferLength s) (RfTxBuffer s) (data_to_send s) (rf_error s) (rf_transmitting s) (rf_receiving s) (TA1_running s) v (UCA0TXBUF_log s) (TXFIFO_log s).
Definition put_UCA0TXBUF b s := Modem (UartRxBuffer s) (UartRxBuffer_i s) (UartTxBuffer s) (UartTxBuffer_i s) (UartTxBufferLength s) (uart_rx_timeout s) (RfRxBuffer s) (RfRxBufferLength s) (RfTxBuffer s) (data_to_send s) (rf_error s) (rf_transmitting s) (rf_receiving s) (TA1_running s) (TA1CCR0 s) (UCA0TXBUF_log s ++ [b]) (TXFIFO_log s).
Definition put_TXFIFO f s := Modem (UartRxBuffer s) (UartRxBuffer_i s) (UartTxBuffer s) (UartTxBuffer_i s) (UartTxBufferLength s) (uart_rx_timeout s) (RfRxBuffer s) (RfRxBufferLength s) (RfTxBuffer s) (data_to_send s) (rf_error s) (rf_transmitting s) (rf_receiving s) (TA1_running s) (TA1CCR0 s) (UCA0TXBUF_log s) (TXFIFO_log s ++ [f]).

(** The state after the C start-up code: zeroed arrays, the initialisers of
    lines 56-75, timer stopped. *)
Definition zeros (n : Z) : list Z := replicate (Z.to_nat n) 0.

Definition init : modem :=
  Modem (zeros UART_BUF_LEN) 0 (zeros UART_BUF_LEN) 0 0 0
        (zeros PACKET_LEN) 0 (zeros PACKET_LEN) 0 0 0 0 false 0 [] [].

(** The arrays keep their declared sizes. *)
Definition wf (s : modem) : Prop :=
  length (UartRxBuffer s) = Z.to_nat UART_BUF_LEN /\
  length (UartTxBuffer s) = Z.to_nat UART_BUF_LEN /\
  length (RfRxBuffer s) = Z.to_nat PACKET_LEN /\
  length (RfTxBuffer s) = Z.to_nat PACKET_LEN.

(** ** Flush timer (lines 722-743) *)

Definition timer_set (ms : Z) (s : modem) : modem :=
  let ms := if ms >? 195 then 195 else ms in
  set_TA1_running true (set_TA1CCR0 (Z.shiftl ms 7) s).

Definition timer_clear (s : modem) : modem :=
  set_uart_rx_timeout 0 (set_TA1_running false s).

(** ** Ingress: one byte received over the UART (lines 466-496)

    [rx] is the content of UCA0RXBUF. *)
Definition handle_uart_rx_byte (rx : Z) (s : modem) : option (Z * modem) :=
  let s := timer_clear s in
  let tmpchar := rx in
  if UartRxBuffer_i s =? UART_BUF_LEN then Some (0, s)
  else
    buf ← store (UartRxBuffer s) (UartRxBuffer_i s) tmpchar;
    let s := set_UartRxBuffer_i (uchar (UartRxBuffer_i s + 1))
               (set_UartRxBuffer buf s) in
    if tmpchar =? ch_nl
    then Some (1, set_data_to_send (UartRxBuffer_i s) s)
    else Some (0, timer_set UART_RX_NEWDATA_TIMEOUT_MS s).

(** ** Decimal formatting helper (lines 639-686)

    [str] is the offset of the destination inside the array [mem].  [int]
    is not wrapped: the definition is the code for the values of a 16-bit
    [int] other than the least one, -32768, whose negation on line 650
    overflows (the only caller passes a byte). *)
Fixpoint sc_itoa_digits (n : nat) (value : Z) (str : Z) (mem : list Z)
    : option (Z * list Z) :=
  match n with
  | O => Some (-1, mem)
  | S k =>
      let index := Z.of_nat k in
      mem ← store mem (str + index) (uchar (Z.rem value 10 + ch_0));
      if value <? 10 then Some (index, mem)
      else sc_itoa_digits k (Z.quot value 10) str mem
  end.

Definition sc_itoa (value : Z) (str : Z) (len : Z) (mem : list Z)
    : option (Z * list Z) :=
  let negative := value <? 0 in
  let value := if negative then value * -1 else value in
  '(index, mem) ← (if len <=? 0 then Some (len - 1, mem)
                   else sc_itoa_digits (Z.to_nat len) value str mem);
  if (index <? 1) || (negative && (index <? 2)) then
    mem ← store mem str 0; Some (0, mem)
  else
    mem ← (if negative then store mem str ch_minus else Some mem);
    let start := if negative then 1 else 0 in
    let extra := index in
    mem ← for_loop (Z.to_nat (len - extra)) 0
            (λ i mem, c ← load mem (str + (i + extra));
                      store mem (str + (i + start)) c) mem;
    let str_len := len - extra + start in
    mem ← store mem (str + str_len) 0;
    Some (str_len, mem).

(** ** Radio register access used by the handlers

    [ReadSingleReg(RXBYTES)] is the number of bytes waiting in the RX FIFO
    (a 64-byte queue, so the count fits the [unsigned char] it is stored in);
    [ReadBurstReg(RF_RXFIFORD, buf, n)] copies them to the start of [buf];
    [RfTransmit(buf, n)] writes the first [n] bytes of [buf] to the TX FIFO. *)
Definition RXBYTES (fifo : list Z) : Z := Z.of_nat (length fifo).

Definition ReadBurstReg (fifo : list Z) (buf : list Z) (n : Z)
    : option (list Z) :=
  if n <=? Z.of_nat (length buf)
  then Some (take (Z.to_nat n) fifo ++ drop (Z.to_nat n) buf) else None.

Definition RfTransmit (buf : list Z) (n : Z) : option (list Z) :=
  if n <=? Z.of_nat (length buf) then Some (take (Z.to_nat n) buf) else None.

(** ** Egress: a packet received over the radio (lines 549-633) *)

(** Which exit of [handle_rf_rx_packet] was taken:
    - [RxStateError]: the radio did not report IDLE (line 559, [rx_error]);
    - [RxShort]: fewer than 5 bytes in the FIFO (line 569, [rx_error]),
      the spec's MalformedFrame;
    - [RxCrcError]: CRC_OK clear in the last byte (line 577, [rx_error]),
      the spec's CrcFailure;
    - [RxNoSpace]: no room in UartTxBuffer (line 582, [failed_to_receive]);
    - [RxDelivered]: the normal return of line 625. *)
Inductive rx_outcome : Type :=
  | RxStateError | RxShort | RxCrcError | RxNoSpace | RxDelivered.

Definition failed_to_receive (s : modem) : modem := set_RfRxBufferLength 0 s.

Definition rx_error (s : modem) : modem :=
  failed_to_receive (set_rf_error 1 s).

(** The two DEBUG blocks of lines 592-620 are the same code up to the byte
    read ([value]) and the separator written after it ([sep]). *)
Definition put_decimal (value sep : Z) (s : modem) : option modem :=
  let buf := UartTxBufferLength s in
  let max_len := uchar (UART_BUF_LEN - UartTxBufferLength s) in
  '(len, tx) ← sc_itoa value buf max_len (UartTxBuffer s);
  '(len, tx) ← (if len =? 0
                then tx ← store tx (UartTxBufferLength s) ch_X;
                     Some (len + 1, tx)
                else Some (len, tx));
  tx ← store tx (UartTxBufferLength s + len) sep;
  let len := len + 1 in
  Some (set_UartTxBufferLength (uchar (UartTxBufferLength s + len))
          (set_UartTxBuffer tx s)).

(** [RxStatus] is the answer to [Strobe(RF_SNOP)], [fifo] the RX FIFO. *)
Definition handle_rf_rx_packet (RxStatus : Z) (fifo : list Z) (s : modem)
    : option (rx_outcome * modem) :=
  let s := set_rf_receiving 0 s in
  if negb (Z.land RxStatus CC430_STATE_MASK =? CC430_STATE_IDLE) then
    Some (RxStateError, rx_error (set_rf_error 1 s))
  else
    let s := set_RfRxBufferLength (RXBYTES fifo) s in
    if RfRxBufferLength s <? 5 then Some (RxShort, rx_error s)
    else
      rb ← ReadBurstReg fifo (RfRxBuffer s) (RfRxBufferLength s);
      let s := set_RfRxBuffer rb s in
      crc ← load (RfRxBuffer s) (RfRxBufferLength s - 1);
      if Z.land crc CRC_OK =? 0 then Some (RxCrcError, rx_error s)
      else if UartTxBufferLength s + (RfRxBufferLength s - 3) >? UART_BUF_LEN
      then Some (RxNoSpace, failed_to_receive s)
      else
        tx ← for_loop (Z.to_nat (RfRxBufferLength s - 3)) 0
               (λ x tx, c ← load (RfRxBuffer s) (x + 1);
                        store tx (UartTxBufferLength s + x) c)
               (UartTxBuffer s);
        let s := set_UartTxBufferLength
                   (uchar (UartTxBufferLength s + (RfRxBufferLength s - 3)))
                   (set_UartTxBuffer tx s) in
        rssi ← load (RfRxBuffer s) (RfRxBufferLength s - 2);
        s ← put_decimal rssi ch_sp s;
        lqi ← load (RfRxBuffer s) (RfRxBufferLength s - 1);
        s ← put_decimal lqi ch_nl s;
        b ← load (UartTxBuffer s) (UartTxBuffer_i s);
        Some (RxDelivered, put_UCA0TXBUF b s).

(** ** Dispatch of the next message to the radio (lines 140-205) *)

(** The scan of lines 154-159: [n] positions left, [x] the current one.
    [x] is a [signed char]; it never reaches 127, the read of cell 96
    leaving the array first. *)
Fixpoint find_newline (n : nat) (x : Z) (buf : list Z) : option Z :=
  match n with
  | O => Some (-1)
  | S k => c ← load buf x;
           if c =? ch_nl then Some (schar (x + 1))
           else find_newline k (x + 1) buf
  end.

(** Lines 148-160: the length of the message to send, [-1] if none. *)
Definition msg_len (s : modem) : option (Z * modem) :=
  if uart_rx_timeout s =? 1
  then Some (schar (UartRxBuffer_i s), set_uart_rx_timeout 0 s)
  else len ← find_newline (Z.to_nat (data_to_send s)) 0 (UartRxBuffer s);
       Some (len, s).

(** Lines 171-176: the frame is built in RfTxBuffer. *)
Definition encode (len : Z) (msg : list Z) (tx : list Z) : option (list Z) :=
  tx ← store tx 0 (uchar len);
  for_loop (Z.to_nat len) 0
    (λ x tx, c ← load msg x; store tx (x + 1) c) tx.

(** Lines 179-188: what is left in UartRxBuffer moves to its front. *)
Definition consume (len : Z) (s : modem) : option modem :=
  if negb (len =? UartRxBuffer_i s) then
    rx ← for_loop (Z.to_nat (UartRxBuffer_i s - len)) 0
           (λ x rx, c ← load rx (x + len); store rx x c) (UartRxBuffer s);
    Some (set_UartRxBuffer_i (uchar (UartRxBuffer_i s - len))
            (set_UartRxBuffer rx s))
  else Some (set_data_to_send 0 (set_UartRxBuffer_i 0 s)).

(** The result is the C return value: 1 when nothing was sent. *)
Definition send_next_msg (s : modem) : option (Z * modem) :=
  '(len, s) ← msg_len s;
  if (len =? 0) || (len =? -1) then
    Some (1, set_UartRxBuffer_i 0 (set_data_to_send 0 s))
  else
    tx ← encode len (UartRxBuffer s) (RfTxBuffer s);
    let s := set_RfTxBuffer tx s in
    s ← consume len s;
    let s := if negb (rf_receiving s =? 0)
             then set_rf_receiving 0 s else s in
    let s := set_rf_transmitting 1 s in
    n ← load (RfTxBuffer s) 0;
    frame ← RfTransmit (RfTxBuffer s) (uchar (n + 1));
    Some (0, put_TXFIFO frame s).

(** ** Interrupt service routines

    Each returns the new state and whether it executed
    [__bic_SR_register_on_exit(LPM3_bits)], which is what takes the main loop
    out of its low-power wait of line 122. *)

(** Lines 429-461; [vector] is UCA0IV, [rx] is UCA0RXBUF. *)
Definition USCI_A0_ISR (vector rx : Z) (s : modem) : option (modem * bool) :=
  if vector =? 2 then
    '(r, s) ← handle_uart_rx_byte rx s;
    Some (s, negb (r =? 0))
  else if vector =? 4 then
    if UartTxBufferLength s =? 0 then Some (s, false)
    else
      let s := set_UartTxBuffer_i (uchar (UartTxBuffer_i s + 1)) s in
      if UartTxBuffer_i s =? UartTxBufferLength s
      then Some (set_UartTxBufferLength 0 (set_UartTxBuffer_i 0 s), false)
      else b ← load (UartTxBuffer s) (UartTxBuffer_i s);
           Some (put_UCA0TXBUF b s, false)
  else Some (s, false).

(** Lines 501-542; [vector] is RF1AIV. *)
Definition CC1101_ISR (vector RxStatus : Z) (fifo : list Z) (s : modem)
    : option (modem * bool) :=
  if vector =? 20 then
    s ← (if negb (rf_receiving s =? 0)
         then snd <$> handle_rf_rx_packet RxStatus fifo s else Some s);
    let s := if negb (rf_transmitting s =? 0)
             then set_rf_transmitting 0 s else s in
    Some (s, true)
  else Some (s, true).

(** Lines 706-714. *)
Definition TIMER1_A0_ISR (s : modem) : modem * bool :=
  let s := timer_clear s in
  let s := if UartRxBuffer_i s >? 0
           then set_uart_rx_timeout 1 (set_data_to_send 1 s) else s in
  (s, false).

(** ** Main loop (lines 93-133)

    Its two guarded blocks; the reset of the radio core and the wait for
    IDLE leave the variables of the program alone. *)
Definition main_listen (s : modem) : modem :=
  if (rf_transmitting s =? 0) && (rf_receiving s =? 0) then
    let s := if negb (rf_error s =? 0) then set_rf_error 0 s else s in
    set_rf_receiving 1 s
  else s.

Definition main_dispatch (s : modem) : option modem :=
  if (rf_transmitting s =? 0) && negb (data_to_send s =? 0)
  then snd <$> send_next_msg s else Some s.

(** ** The modem as a transition system *)

Inductive event : Type :=
  | UartRx (b : Z)                        (* USCI_A0 vector 2 *)
  | UartTxReady                           (* USCI_A0 vector 4 *)
  | TimerFire                             (* TIMER1_A0, timer running *)
  | RadioIrq (RxStatus : Z) (fifo : list Z) (* CC1101 vector 20 *)
  | Listen                                (* main loop, lines 98-118 *)
  | Dispatch.                             (* main loop, lines 128-132 *)

Definition step (e : event) (s : modem) : option modem :=
  match e with
  | UartRx b => fst <$> USCI_A0_ISR 2 b s
  | UartTxReady => fst <$> USCI_A0_ISR 4 0 s
  | TimerFire => if TA1_running s then Some (fst (TIMER1_A0_ISR s)) else None
  | RadioIrq st fifo => fst <$> CC1101_ISR 20 st fifo s
  | Listen => Some (main_listen s)
  | Dispatch => main_dispatch s
  end.

Fixpoint run (es : list event) (s : modem) : option modem :=
  match es with
  | [] => Some s
  | e :: es => s' ← step e s; run es s'
  end.

(** Decimal text of a byte, most significant digit first. *)
Definition decimal (v : Z) : list Z :=
  if v <? 10 then [ch_0 + v]
  else if v <? 100 then [ch_0 + v / 10; ch_0 + v mod 10]
  else [ch_0 + v / 100; ch_0 + (v / 10) mod 10; ch_0 + v mod 10].

Definition is_byte (b : Z) : Prop := 0 <= b < 256.

(** The logical content of the two UART buffers. *)
Definition ingress (s : modem) : list Z :=
  take (Z.to_nat (UartRxBuffer_i s)) (UartRxBuffer s).

Definition egress (s : modem) : list Z :=
  take (Z.to_nat (UartTxBufferLength s)) (UartTxBuffer s).

(** What [handle_rf_rx_packet] leaves behind when it refuses a frame on
    the [rx_error] path: the error flag raised, the frame forgotten, the
    UART transmit buffer and the UART transmitter untouched. *)
Definition rejected (s s' : modem) : Prop :=
  rf_error s' = 1 /\ RfRxBufferLength s' = 0 /\
  UartTxBuffer s' = UartTxBuffer s /\
  UartTxBufferLength s' = UartTxBufferLength s /\
  UartTxBuffer_i s' = UartTxBuffer_i s /\
  UCA0TXBUF_log s' = UCA0TXBUF_log s.

(** At most one of transmission and reception is active. *)
Definition half_duplex (s : modem) : Prop :=
  rf_transmitting s = 0 \/ rf_receiving s = 0.

(** ** States used as examples *)

(** The initial state with [n] bytes waiting in the UART transmit buffer. *)
Definition egress_filled (n : Z) : modem := set_UartTxBufferLength n init.

(** The state reached from [init] once the serial byte 'A' has arrived. *)
Definition after_A : modem :=
  Eval vm_compute in default init (run [UartRx 65] init).

(** The state reached from [init] after 96 serial bytes 'A' in a row: the
    UART receive buffer is full and the flush timer is running. *)
Definition ingress_full : modem :=
  Eval vm_compute in default init (run (replicate 96 (UartRx 65)) init).

(** The state reached from [init] when the main loop has started to
    listen, "A\n" has arrived and the main loop has dispatched it. *)
Definition after_dispatch : modem :=
  Eval vm_compute in
    default init (run [Listen; UartRx 65; UartRx ch_nl; Dispatch] init).

(** The state reached from [init] when "A\nB\n" has arrived and nothing
    has been dispatched yet. *)
Definition after_AnBn : modem :=
  Eval vm_compute in
    default init
      (run [UartRx 65; UartRx ch_nl; UartRx 66; UartRx ch_nl] init).

(** ** Debug LEDs (lines 212-283)

    USE_DEBUG_LEDS is 2: LED 1 is bit 0 and LED 2 is bit 4 of the port
    register P1OUT, which the three functions read and write. *)
Definition DEBUG_LED1_BIT : Z := 1.
Definition DEBUG_LED2_BIT : Z := 16.

Definition led_toggle (led : Z) (P1OUT : Z) : Z :=
  if led =? 1 then Z.lxor P1OUT DEBUG_LED1_BIT
  else if led =? 2 then Z.lxor P1OUT DEBUG_LED2_BIT
  else P1OUT.

Definition led_off (led : Z) (P1OUT : Z) : Z :=
  if led =? 1 then Z.land P1OUT (Z.lnot DEBUG_LED1_BIT)
  else if led =? 2 then Z.land P1OUT (Z.lnot DEBUG_LED2_BIT)
  else P1OUT.

Definition led_on (led : Z) (P1OUT : Z) : Z :=
  if led =? 1 then Z.lor P1OUT DEBUG_LED1_BIT
  else if led =? 2 then Z.lor P1OUT DEBUG_LED2_BIT
  else P1OUT.

(** The bit of P1OUT that drives a LED. *)
Definition led_bit (led : Z) : Z := if led =? 1 then 0 else 4.

(** What the code of one side leaves of the other: the variables of the
    radio-to-serial path, and those of the serial-to-radio path. *)
Definition egress_side_kept (s s' : modem) : Prop :=
  UartTxBuffer s' = UartTxBuffer s /\
  UartTxBuffer_i s' = UartTxBuffer_i s /\
  UartTxBufferLength s' = UartTxBufferLength s /\
  UCA0TXBUF_log s' = UCA0TXBUF_log s /\
  RfRxBuffer s' = RfRxBuffer s /\
  RfRxBufferLength s' = RfRxBufferLength s /\
  rf_error s' = rf_error s.

Definition radio_tx_kept (s s' : modem) : Prop :=
  RfTxBuffer s' = RfTxBuffer s /\
  TXFIFO_log s' = TXFIFO_log s /\
  rf_transmitting s' = rf_transmitting s /\
  rf_receiving s' = rf_receiving s.

(** The bounds the serial receive side keeps as long as nothing is
    dispatched. *)
Definition ingress_bounded (s : modem) : Prop :=
  0 <= data_to_send s <= UartRxBuffer_i s /\
  UartRxBuffer_i s <= UART_BUF_LEN.

(** * Properties *)

(** Inversion of a computation in the [option] monad that succeeded. *)
Ltac invert_run H :=
  repeat match type of H with
    | (match ?o with _ => _ end) = Some _ =>
        let E := fresh "E" in destruct o eqn:E; try discriminate H
    | (if ?b then _ else _) = Some _ =>
        let E := fresh "E" in destruct b eqn:E; try discriminate H
    | mbind _ ?o = Some _ =>
        let E := fresh "E" in
        destruct o eqn:E; cbn [mbind option_bind] in H; try discriminate H
    | fmap _ ?o = Some _ =>
        let E := fresh "E" in
        destruct o eqn:E; cbn [fmap option_fmap option_map] in H;
        try discriminate H
    | (let '(_, _) := ?p in _) = Some _ => destruct p
    end.

(** Projections of updated states. *)
Ltac fields :=
  cbn [UartRxBuffer UartRxBuffer_i UartTxBuffer UartTxBuffer_i
       UartTxBufferLength uart_rx_timeout RfRxBuffer RfRxBufferLength
       RfTxBuffer data_to_send rf_error rf_transmitting rf_receiving
       TA1_running TA1CCR0 UCA0TXBUF_log TXFIFO_log
       set_UartRxBuffer set_UartRxBuffer_i set_UartTxBuffer
       set_UartTxBuffer_i set_UartTxBufferLength set_uart_rx_timeout
       set_RfRxBuffer set_RfRxBufferLength set_RfTxBuffer set_data_to_send
       set_rf_error set_rf_transmitting set_rf_receiving set_TA1_running
       set_TA1CCR0 put_UCA0TXBUF put_TXFIFO].

Tactic Notation "fields" "in" hyp(H) :=
  cbn [UartRxBuffer UartRxBuffer_i UartTxBuffer UartTxBuffer_i
       UartTxBufferLength uart_rx_timeout RfRxBuffer RfRxBufferLength
       RfTxBuffer data_to_send rf_error rf_transmitting rf_receiving
       TA1_running TA1CCR0 UCA0TXBUF_log TXFIFO_log
       set_UartRxBuffer set_UartRxBuffer_i set_UartTxBuffer
       set_UartTxBuffer_i set_UartTxBufferLength set_uart_rx_timeout
       set_RfRxBuffer set_RfRxBufferLength set_RfTxBuffer set_data_to_send
       set_rf_error set_rf_transmitting set_rf_receiving set_TA1_running
       set_TA1CCR0 put_UCA0TXBUF put_TXFIFO] in H.

(** ** Arrays *)

Lemma load_nat (a : list Z) (i : nat) : load a (Z.of_nat i) = a !! i.
Proof.
  unfold load. rewrite Nat2Z.id.
  destruct (Z.leb_spec 0 (Z.of_nat i)); [|lia].
  destruct (Z.ltb_spec (Z.of_nat i) (Z.of_nat (length a))); simpl; [done|].
  symmetry. apply lookup_ge_None. lia.
Qed.

Lemma load_0 (a : list Z) : load a 0 = a !! 0%nat.
Proof. exact (load_nat a 0). Qed.

Lemma store_nat (a : list Z) (i : nat) (v : Z) :
  (i < length a)%nat -> store a (Z.of_nat i) v = Some (<[i := v]> a).
Proof.
  intros Hi. unfold store. rewrite Nat2Z.id.
  destruct (Z.leb_spec 0 (Z.of_nat i)); [|lia].
  destruct (Z.ltb_spec (Z.of_nat i) (Z.of_nat (length a))); [done|lia].
Qed.

Lemma load_Z (a : list Z) (i : Z) :
  0 <= i -> load a i = a !! Z.to_nat i.
Proof. intros Hi. rewrite <- (Z2Nat.id i) at 1 by done. apply load_nat. Qed.

Lemma store_Z (a : list Z) (i v : Z) :
  0 <= i < Z.of_nat (length a) ->
  store a i v = Some (<[Z.to_nat i := v]> a).
Proof.
  intros Hi. rewrite <- (Z2Nat.id i) at 1 by lia. apply store_nat. lia.
Qed.

Lemma store_length (a a' : list Z) (i v : Z) :
  store a i v = Some a' -> length a' = length a.
Proof.
  unfold store. case_match; [|done]. intros [= <-]. apply length_insert.
Qed.

Lemma take_S_insert (l : list Z) (i : nat) (c : Z) :
  (i < length l)%nat -> take (S i) (<[i := c]> l) = take i l ++ [c].
Proof.
  intros Hi. rewrite (take_S_r _ _ c).
  - by rewrite take_insert_ge by lia.
  - by apply list_lookup_insert_eq.
Qed.

Lemma for_loop_ext {S : Type} (f g : Z -> S -> option S) n x s :
  (forall y t, f y t = g y t) -> for_loop n x f s = for_loop n x g s.
Proof.
  intros E. revert x s. induction n as [|n IH]; intros x s; simpl; [done|].
  rewrite E. destruct (g x s); simpl; [apply IH|done].
Qed.

(** Copy of [n] cells of [src], from position [x + a] on, to the cells of
    [dst] from position [x + b] on. *)
Lemma copy_loop (src : list Z) (a b : nat) (n : nat) :
  forall (x : nat) (dst : list Z),
    (x + a + n <= length src)%nat -> (x + b + n <= length dst)%nat ->
    for_loop n (Z.of_nat x)
      (λ y t, c ← load src (y + Z.of_nat a); store t (y + Z.of_nat b) c) dst
    = Some (take (x + b) dst ++ take n (drop (x + a) src)
              ++ drop (x + b + n) dst).
Proof.
  induction n as [|n IH]; intros x dst Hs Hd.
  - simpl. by rewrite Nat.add_0_r, take_drop.
  - cbn [for_loop].
    destruct (lookup_lt_is_Some_2 src (x + a)) as [c Hc]; [lia|].
    rewrite <- !Nat2Z.inj_add, load_nat, Hc. cbn [mbind option_bind].
    rewrite store_nat by lia. cbn [mbind option_bind].
    replace (Z.of_nat x + 1) with (Z.of_nat (S x)) by lia.
    rewrite IH by (rewrite ?length_insert; lia).
    f_equal. rewrite (drop_S _ _ _ Hc). cbn [take].
    replace (S x + b)%nat with (S (x + b)) by lia.
    rewrite take_S_insert by lia.
    rewrite drop_insert_lt by lia.
    rewrite <- app_assoc. cbn [app].
    do 3 f_equal; f_equal; lia.
Qed.

(** The same loop run in place: the cells of [m] from [x + a] on move down
    to [x + b], with [b < a]. *)
Lemma shift_loop (a b : nat) (n : nat) :
  (b < a)%nat ->
  forall (x : nat) (m : list Z),
    (x + a + n <= length m)%nat ->
    for_loop n (Z.of_nat x)
      (λ y t, c ← load t (y + Z.of_nat a); store t (y + Z.of_nat b) c) m
    = Some (take (x + b) m ++ take n (drop (x + a) m) ++ drop (x + b + n) m).
Proof.
  intros Hab. induction n as [|n IH]; intros x m Hm.
  - simpl. by rewrite Nat.add_0_r, take_drop.
  - cbn [for_loop].
    destruct (lookup_lt_is_Some_2 m (x + a)) as [c Hc]; [lia|].
    rewrite <- !Nat2Z.inj_add, load_nat, Hc. cbn [mbind option_bind].
    rewrite store_nat by lia. cbn [mbind option_bind].
    replace (Z.of_nat x + 1) with (Z.of_nat (S x)) by lia.
    rewrite IH by (rewrite ?length_insert; lia).
    f_equal. rewrite (drop_S _ _ _ Hc). cbn [take].
    replace (S x + b)%nat with (S (x + b)) by lia.
    rewrite take_S_insert by lia.
    rewrite !drop_insert_lt by lia.
    rewrite <- app_assoc. cbn [app].
    do 3 f_equal; f_equal; lia.
Qed.

(** ** The decimal formatting helper *)

Lemma insert_before (l rest : list Z) (i : nat) (c : Z) :
  (i < length l)%nat ->
  <[i := c]> (take (S i) l ++ rest) = take i l ++ c :: rest.
Proof.
  intros Hi. rewrite insert_app_l by (rewrite length_take; lia).
  rewrite <- take_insert_lt by lia. rewrite take_S_insert by done.
  by rewrite <- app_assoc.
Qed.

Lemma digit_byte (v : Z) :
  0 <= v -> uchar (Z.rem v 10 + ch_0) = ch_0 + v mod 10.
Proof.
  intros Hv. rewrite Z.rem_mod_nonneg by lia. unfold uchar, ch_0.
  pose proof (Z.mod_pos_bound v 10). rewrite Z.mod_small; lia.
Qed.

Lemma decimal_length (v : Z) : (1 <= length (decimal v) <= 3)%nat.
Proof. unfold decimal. repeat case_match; simpl; lia. Qed.

(** The digit loop leaves the digits right-aligned in the window of [n]
    cells, and [index] on the first of them. *)
Lemma sc_itoa_digits_spec (v : Z) (s k : nat) (mem : list Z) :
  is_byte v ->
  (s + k + length (decimal v) <= length mem)%nat ->
  sc_itoa_digits (length (decimal v) + k) v (Z.of_nat s) mem
  = Some (Z.of_nat k,
          take (s + k) mem ++ decimal v
            ++ drop (s + k + length (decimal v)) mem).
Proof.
  intros [Hv0 Hv1]. unfold decimal.
  destruct (Z.ltb_spec v 10) as [H10|H10];
    [|destruct (Z.ltb_spec v 100) as [H100|H100]];
    cbn [length Nat.add sc_itoa_digits]; intros Hlen.
  - rewrite <- Nat2Z.inj_add, store_nat by lia. cbn [mbind option_bind].
    destruct (Z.ltb_spec v 10); [|lia].
    rewrite digit_byte, Z.mod_small by lia.
    rewrite insert_take_drop by lia.
    by replace (s + k + 1)%nat with (S (s + k)) by lia.
  - rewrite <- !Nat2Z.inj_add, store_nat by lia. cbn [mbind option_bind].
    destruct (Z.ltb_spec v 10); [lia|].
    rewrite store_nat by (rewrite length_insert; lia).
    cbn [mbind option_bind].
    rewrite Z.quot_div_nonneg by lia.
    assert (0 <= v / 10 < 10) as Hq
      by (split; [apply Z.div_pos; lia | apply Z.div_lt_upper_bound; lia]).
    destruct (Z.ltb_spec (v / 10) 10); [|lia].
    rewrite !digit_byte by lia. rewrite (Z.mod_small (v / 10)) by lia.
    replace (s + S k)%nat with (S (s + k)) by lia.
    rewrite (insert_take_drop mem (S (s + k))) by lia.
    rewrite insert_before by lia.
    by replace (s + k + 2)%nat with (S (S (s + k))) by lia.
  - rewrite <- !Nat2Z.inj_add, store_nat by lia. cbn [mbind option_bind].
    destruct (Z.ltb_spec v 10); [lia|].
    rewrite store_nat by (rewrite length_insert; lia).
    cbn [mbind option_bind].
    rewrite Z.quot_div_nonneg by lia.
    assert (10 <= v / 10 < 100) as Hq
      by (split; [apply Z.div_le_lower_bound; lia
                 | apply Z.div_lt_upper_bound; lia]).
    destruct (Z.ltb_spec (v / 10) 10); [lia|].
    rewrite store_nat by (rewrite !length_insert; lia).
    cbn [mbind option_bind].
    rewrite Z.quot_div_nonneg by lia.
    rewrite Z.div_div by lia. change (10 * 10) with 100.
    assert (0 <= v / 100 < 10) as Hq'
      by (split; [apply Z.div_pos; lia | apply Z.div_lt_upper_bound; lia]).
    destruct (Z.ltb_spec (v / 100) 10); [|lia].
    rewrite !digit_byte by lia. rewrite (Z.mod_small (v / 100)) by lia.
    replace (s + S (S k))%nat with (S (S (s + k))) by lia.
    replace (s + S k)%nat with (S (s + k)) by lia.
    rewrite (insert_take_drop mem (S (S (s + k)))) by lia.
    rewrite insert_before by lia. rewrite insert_before by lia.
    by replace (s + k + 3)%nat with (S (S (S (s + k)))) by lia.
Qed.

(** With room for the digits and one more cell, [sc_itoa] returns the number
    of digits and leaves them at the start of the window. *)
Lemma sc_itoa_spec (v : Z) (s len : nat) (mem : list Z) :
  is_byte v ->
  (length (decimal v) + 1 <= len)%nat ->
  (s + len <= length mem)%nat ->
  exists mem',
    sc_itoa v (Z.of_nat s) (Z.of_nat len) mem
      = Some (Z.of_nat (length (decimal v)), mem') /\
    length mem' = length mem /\
    take (s + length (decimal v)) mem' = take s mem ++ decimal v.
Proof.
  intros Hv Hd Hlen. set (d := length (decimal v)) in *.
  destruct (Nat.le_exists_sub d len) as [k [-> _]]; [lia|].
  assert (1 <= k)%nat as Hk by lia.
  unfold sc_itoa.
  destruct (Z.ltb_spec v 0); [destruct Hv; lia|].
  destruct (Z.leb_spec (Z.of_nat (k + d)) 0); [lia|].
  rewrite Nat2Z.id, (Nat.add_comm k d). subst d.
  rewrite sc_itoa_digits_spec by (done || lia).
  set (d := length (decimal v)) in *.
  set (m1 := take (s + k) mem ++ decimal v ++ drop (s + k + d) mem).
  cbn [mbind option_bind].
  destruct (Z.ltb_spec (Z.of_nat k) 1); [lia|]. cbn [orb andb].
  cbn [mbind option_bind].
  replace (Z.to_nat (Z.of_nat (d + k) - Z.of_nat k)) with d by lia.
  assert (length m1 = length mem) as Hm1.
  { unfold m1. rewrite !length_app, length_take, length_drop. fold d. lia. }
  rewrite (for_loop_ext _
    (λ y t, c ← load t (y + Z.of_nat (s + k));
            store t (y + Z.of_nat s) c)).
  2:{ intros y t.
      replace (Z.of_nat s + (y + Z.of_nat k))
        with (y + Z.of_nat (s + k)) by lia.
      by replace (Z.of_nat s + (y + 0)) with (y + Z.of_nat s) by lia. }
  pose proof (shift_loop (s + k) s d ltac:(lia) 0%nat m1 ltac:(lia)) as Hs.
  change (Z.of_nat 0) with 0 in Hs. rewrite Hs. clear Hs.
  cbn [mbind option_bind Nat.add].
  set (m2 := take s m1 ++ take d (drop (s + k) m1) ++ drop (s + d) m1).
  assert (take s m1 = take s mem) as E1.
  { unfold m1. rewrite take_app_le by (rewrite length_take; lia).
    rewrite take_take. f_equal. lia. }
  assert (take d (drop (s + k) m1) = decimal v) as E2.
  { unfold m1. rewrite drop_app_length' by (rewrite length_take; lia).
    by apply take_app_length'. }
  assert (length m2 = length mem) as Hm2.
  { unfold m2. rewrite E1, E2.
    rewrite !length_app, length_take, length_drop. fold d. lia. }
  replace (Z.of_nat s + (Z.of_nat (d + k) - Z.of_nat k + 0))
    with (Z.of_nat (s + d)) by lia.
  replace (Z.of_nat (d + k) - Z.of_nat k + 0) with (Z.of_nat d) by lia.
  rewrite store_nat by lia. cbn [mbind option_bind].
  eexists. split; [done|]. split.
  - rewrite length_insert. done.
  - rewrite take_insert_ge by lia. unfold m2. rewrite E1, E2.
    rewrite app_assoc. apply take_app_length'.
    rewrite length_app, length_take. fold d. lia.
Qed.

(** ** The receive path *)

Lemma uchar_small (z : Z) : 0 <= z < 256 -> uchar z = z.
Proof. intros. unfold uchar. by apply Z.mod_small. Qed.

(** One DEBUG block appends the decimal text of [v] and the separator when
    they fit in what is left of UartTxBuffer. *)
Lemma put_decimal_spec (v sep : Z) (s : modem) (l : nat) (mem : list Z) :
  is_byte v ->
  UartTxBuffer s = mem ->
  UartTxBufferLength s = Z.of_nat l ->
  length mem = 96%nat ->
  (l + length (decimal v) + 1 <= 96)%nat ->
  exists tx,
    put_decimal v sep s
      = Some (set_UartTxBufferLength (Z.of_nat (l + length (decimal v) + 1))
                (set_UartTxBuffer tx s)) /\
    length tx = 96%nat /\
    take (l + length (decimal v) + 1) tx = take l mem ++ decimal v ++ [sep].
Proof.
  intros Hv Emem EL Hlen Hroom. unfold put_decimal.
  pose proof (decimal_length v) as Hd.
  set (d := length (decimal v)) in *.
  rewrite Emem, EL. unfold UART_BUF_LEN, PAYLOAD_LEN.
  rewrite uchar_small by lia.
  replace (32 * 3 - Z.of_nat l) with (Z.of_nat (96 - l)) by lia.
  destruct (sc_itoa_spec v l (96 - l) mem) as (m & -> & Hm & Ht);
    [done|fold d; lia|lia|].
  fold d in Ht |- *. cbn [mbind option_bind].
  destruct (Z.eqb_spec (Z.of_nat d) 0); [lia|]. cbn [mbind option_bind].
  replace (Z.of_nat l + Z.of_nat d) with (Z.of_nat (l + d)) by lia.
  rewrite store_nat by lia. cbn [mbind option_bind].
  rewrite uchar_small by lia.
  exists (<[(l + d)%nat := sep]> m).
  split; [do 2 f_equal; lia|]. split.
  - rewrite length_insert. lia.
  - replace (l + d + 1)%nat with (S (l + d)) by lia.
    rewrite take_S_insert by lia. rewrite Ht. by rewrite <- app_assoc.
Qed.

(** A frame is the length byte, the payload and the two status bytes the
    radio appends.  When the radio is idle, the frame fits RfRxBuffer, CRC_OK
    is set and the whole output fits UartTxBuffer, the handler appends the
    payload, the decimal text of the RSSI byte, a space, the decimal text of
    the last status byte and a newline. *)
Lemma handle_rf_rx_packet_delivered
    (RxStatus l0 rssi lqi : Z) (payload : list Z) (s : modem) :
  wf s ->
  Z.land RxStatus CC430_STATE_MASK = CC430_STATE_IDLE ->
  (2 <= length payload <= 32)%nat ->
  is_byte rssi -> is_byte lqi ->
  Z.land lqi CRC_OK <> 0 ->
  0 <= UartTxBufferLength s ->
  0 <= UartTxBuffer_i s < UART_BUF_LEN ->
  UartTxBufferLength s + Z.of_nat (length payload)
    + Z.of_nat (length (decimal rssi)) + 1
    + Z.of_nat (length (decimal lqi)) + 1 <= UART_BUF_LEN ->
  exists s',
    handle_rf_rx_packet RxStatus (l0 :: payload ++ [rssi; lqi]) s
      = Some (RxDelivered, s') /\
    egress s' = egress s ++ payload ++ decimal rssi ++ [ch_sp]
                         ++ decimal lqi ++ [ch_nl] /\
    UartTxBufferLength s'
      = UartTxBufferLength s + Z.of_nat (length payload)
        + Z.of_nat (length (decimal rssi)) + 1
        + Z.of_nat (length (decimal lqi)) + 1 /\
    rf_error s' = rf_error s /\ wf s'.
Proof.
  intros (Hrx & Htx & Hrrx & Hrtx) Hst Hp Hrssi Hlqi Hcrc HL Hi Hroom.
  unfold handle_rf_rx_packet.
  pose proof (decimal_length rssi) as Hd1.
  pose proof (decimal_length lqi) as Hd2.
  set (fifo := l0 :: payload ++ [rssi; lqi]).
  assert (length fifo = (length payload + 3)%nat) as Hn
    by (unfold fifo; cbn [length]; rewrite length_app; simpl; lia).
  rewrite Hst, Z.eqb_refl. cbn [negb].
  cbn [RfRxBufferLength set_RfRxBufferLength RfRxBuffer set_rf_receiving
       set_RfRxBuffer UartTxBufferLength UartTxBuffer set_UartTxBuffer
       set_UartTxBufferLength].
  unfold RXBYTES, ReadBurstReg. rewrite Hn, Hrrx.
  unfold PACKET_LEN, UART_BUF_LEN, PAYLOAD_LEN in *.
  destruct (Z.ltb_spec (Z.of_nat (length payload + 3)) 5); [lia|].
  destruct (Z.leb_spec (Z.of_nat (length payload + 3))
              (Z.of_nat (Z.to_nat (32 + 3)))); [|lia].
  cbn [mbind option_bind].
  rewrite Nat2Z.id, <- Hn, firstn_all. set (rb := fifo ++ _).
  cbn [RfRxBufferLength set_RfRxBufferLength RfRxBuffer set_rf_receiving
       set_RfRxBuffer UartTxBufferLength UartTxBuffer set_UartTxBuffer
       set_UartTxBufferLength].
  assert (rb !! (length payload + 2)%nat = Some lqi) as Elqi.
  { unfold rb, fifo. rewrite lookup_app_l by (simpl; rewrite length_app; simpl; lia).
    rewrite lookup_cons_ne_0 by lia.
    rewrite lookup_app_r by lia.
    by replace (Nat.pred (length payload + 2) - length payload)%nat
      with 1%nat by lia. }
  assert (rb !! (length payload + 1)%nat = Some rssi) as Erssi.
  { unfold rb, fifo. rewrite lookup_app_l by (simpl; rewrite length_app; simpl; lia).
    rewrite lookup_cons_ne_0 by lia.
    rewrite lookup_app_r by lia.
    by replace (Nat.pred (length payload + 1) - length payload)%nat
      with 0%nat by lia. }
  assert (take (length payload) (drop 1 rb) = payload) as Epl.
  { unfold rb, fifo. cbn [app drop]. rewrite <- app_assoc, drop_0.
    by rewrite take_app_length. }
  rewrite Hn.
  replace (Z.of_nat (length payload + 3) - 1)
    with (Z.of_nat (length payload + 2)) by lia.
  replace (Z.of_nat (length payload + 3) - 2)
    with (Z.of_nat (length payload + 1)) by lia.
  replace (Z.of_nat (length payload + 3) - 3)
    with (Z.of_nat (length payload)) by lia.
  rewrite !load_nat, Elqi, Erssi. cbn [mbind option_bind].
  destruct (Z.eqb_spec (Z.land lqi CRC_OK) 0); [done|].
  destruct (Z.gtb_spec (UartTxBufferLength s + Z.of_nat (length payload))
              (32 * 3)); [lia|].
  set (l := Z.to_nat (UartTxBufferLength s)).
  assert (UartTxBufferLength s = Z.of_nat l) as EL by lia.
  rewrite Nat2Z.id.
  rewrite (for_loop_ext _
    (λ y t, c ← load rb (y + Z.of_nat 1); store t (y + Z.of_nat l) c)).
  2:{ intros y t. rewrite EL.
      by replace (Z.of_nat l + y) with (y + Z.of_nat l) by lia. }
  pose proof (copy_loop rb 1 l (length payload) 0%nat (UartTxBuffer s)) as Hc.
  change (Z.of_nat 0) with 0 in Hc. rewrite Hc; clear Hc.
  2:{ unfold rb. rewrite length_app, Hn. lia. }
  2:{ lia. }
  cbn [mbind option_bind Nat.add]. rewrite Epl.
  set (tx1 := take l (UartTxBuffer s) ++ payload ++ _).
  assert (length tx1 = 96%nat) as Htx1.
  { unfold tx1. rewrite !length_app, length_take, length_drop. lia. }
  rewrite uchar_small by lia.
  set (d1 := length (decimal rssi)) in *.
  set (d2 := length (decimal lqi)) in *.
  set (s1 := set_UartTxBufferLength _ (set_UartTxBuffer tx1 _)).
  destruct (put_decimal_spec rssi ch_sp s1 (l + length payload) tx1)
    as (tx2 & -> & Htx2 & Et2);
    [done|done|unfold s1; fields; lia|done|fold d1; lia|].
  cbn [mbind option_bind]. fold d1 in Et2 |- *.
  set (s2 := set_UartTxBufferLength _ (set_UartTxBuffer tx2 _)).
  change (RfRxBuffer s2) with rb.
  change (RfRxBufferLength s2) with (Z.of_nat (length payload + 3)).
  replace (Z.of_nat (length payload + 3) - 1)
    with (Z.of_nat (length payload + 2)) by lia.
  rewrite load_nat, Elqi. cbn [mbind option_bind].
  destruct (put_decimal_spec lqi ch_nl s2 (l + length payload + d1 + 1) tx2)
    as (tx3 & -> & Htx3 & Et3); [done|done|done|done|fold d2; lia|].
  cbn [mbind option_bind]. fold d2 in Et3 |- *.
  set (s3 := set_UartTxBufferLength _ (set_UartTxBuffer tx3 _)).
  change (UartTxBuffer s3) with tx3.
  change (UartTxBuffer_i s3) with (UartTxBuffer_i s).
  destruct (lookup_lt_is_Some_2 tx3 (Z.to_nat (UartTxBuffer_i s))) as [b Hb];
    [lia|].
  rewrite load_Z, Hb by lia. cbn [mbind option_bind].
  eexists. split; [done|].
  assert (length rb = 35%nat) as Hrb.
  { unfold rb. rewrite length_app, length_drop, Hn, Hrrx. lia. }
  unfold egress, wf. subst s3 s2 s1. fields. rewrite Htx3, Hrx, Hrtx, Hrb.
  unfold PACKET_LEN, UART_BUF_LEN, PAYLOAD_LEN.
  split; [|split; [lia|split; [done|]]].
  - rewrite Nat2Z.id, Et3, Et2. fold l. unfold tx1.
    rewrite (app_assoc (take l _)).
    rewrite take_app_length' by (rewrite length_app, length_take; lia).
    by rewrite <- !app_assoc.
  - repeat split; lia.
Qed.

(** The frame is built at the start of RfTxBuffer: the length byte, then the
    message. *)
Lemma encode_spec (payload rest txbuf : list Z) :
  (length payload + 1 <= length txbuf)%nat ->
  (length payload < 256)%nat ->
  encode (Z.of_nat (length payload)) (payload ++ rest) txbuf
  = Some (Z.of_nat (length payload) :: payload
            ++ drop (length payload + 1) txbuf).
Proof.
  intros Hlen Hb. unfold encode.
  rewrite uchar_small by lia.
  rewrite (store_nat txbuf 0) by lia. cbn [mbind option_bind].
  rewrite Nat2Z.id.
  rewrite (for_loop_ext _
    (λ y t, c ← load (payload ++ rest) (y + Z.of_nat 0);
            store t (y + Z.of_nat 1) c)).
  2:{ intros y t. by rewrite Z.add_0_r. }
  set (t0 := <[0%nat := Z.of_nat (length payload)]> txbuf).
  pose proof (copy_loop (payload ++ rest) 0 1 (length payload) 0%nat t0) as Hc.
  change (Z.of_nat 0) with 0 in Hc at 1. rewrite Hc; clear Hc.
  2:{ rewrite length_app. lia. }
  2:{ unfold t0. rewrite length_insert. lia. }
  f_equal. change (0 + 0)%nat with 0%nat. change (0 + 1)%nat with 1%nat.
  rewrite drop_0, take_app_length.
  unfold t0. rewrite drop_insert_lt by lia.
  destruct txbuf as [|x txbuf]; [simpl in Hlen; lia|].
  replace (1 + length payload)%nat with (length payload + 1)%nat by lia.
  reflexivity.
Qed.

(** The last byte of a frame that fits RfRxBuffer, as line 577 reads it. *)
Lemma read_crc (fifo buf : list Z) (c : Z) :
  (1 <= length fifo)%nat ->
  fifo !! (length fifo - 1)%nat = Some c ->
  load (take (length fifo) fifo ++ drop (length fifo) buf)
       (Z.of_nat (length fifo) - 1) = Some c.
Proof.
  intros Hn Hc. rewrite firstn_all.
  replace (Z.of_nat (length fifo) - 1)
    with (Z.of_nat (length fifo - 1)) by lia.
  rewrite load_nat. by apply lookup_app_l_Some.
Qed.

(** ** C1: packet codec round trip *)

(** C1 (as stated, refuted).  The one-byte payload "\n" is encoded as the
    frame [1]['\n']; with two status bytes appended (CRC_OK set) the
    receiver sees 4 bytes, fewer than the 5 that line 569 asks for, flags a
    radio error and relays nothing. *)
Lemma C1_counterexample :
  exists tx r',
    encode 1 [ch_nl] (RfTxBuffer init) = Some tx /\
    RfTransmit tx (uchar (1 + 1)) = Some [1; ch_nl] /\
    handle_rf_rx_packet 0 ([1; ch_nl] ++ [50; 200]) init
      = Some (RxShort, r') /\
    egress r' = [] /\ rf_error r' = 1.
Proof.
  eexists. eexists. split; [vm_compute; reflexivity|].
  split; [vm_compute; reflexivity|].
  split; [vm_compute; reflexivity|].
  split; vm_compute; reflexivity.
Qed.

(** C1 (amended): for every payload of 2 to 32 bytes, the frame built by
    lines 171-176 and handed to the radio is the length byte followed by the
    payload, and receiving that frame with an RSSI byte and a CRC-valid
    status byte appended (radio idle, room in UartTxBuffer) appends the
    original payload, unchanged, at the end of the UART transmit buffer. *)
Theorem C1_round_trip
    (payload rest txbuf : list Z) (RxStatus rssi lqi : Z) (r : modem) :
  (2 <= length payload <= 32)%nat ->
  length txbuf = Z.to_nat PACKET_LEN ->
  wf r ->
  Z.land RxStatus CC430_STATE_MASK = CC430_STATE_IDLE ->
  is_byte rssi -> is_byte lqi ->
  Z.land lqi CRC_OK <> 0 ->
  0 <= UartTxBufferLength r ->
  0 <= UartTxBuffer_i r < UART_BUF_LEN ->
  UartTxBufferLength r + Z.of_nat (length payload)
    + Z.of_nat (length (decimal rssi)) + 1
    + Z.of_nat (length (decimal lqi)) + 1 <= UART_BUF_LEN ->
  exists tx frame r',
    encode (Z.of_nat (length payload)) (payload ++ rest) txbuf = Some tx /\
    RfTransmit tx (uchar (Z.of_nat (length payload) + 1)) = Some frame /\
    frame = Z.of_nat (length payload) :: payload /\
    handle_rf_rx_packet RxStatus (frame ++ [rssi; lqi]) r
      = Some (RxDelivered, r') /\
    take (length payload)
         (drop (Z.to_nat (UartTxBufferLength r)) (UartTxBuffer r'))
      = payload.
Proof.
  intros Hp Htx Hwf Hst Hrssi Hlqi Hcrc HL Hi Hroom.
  unfold PACKET_LEN, PAYLOAD_LEN in Htx.
  destruct (handle_rf_rx_packet_delivered RxStatus
              (Z.of_nat (length payload)) rssi lqi payload r)
    as (r' & Hh & He & HL' & _ & _); try done.
  eexists. exists (Z.of_nat (length payload) :: payload). exists r'.
  split; [apply encode_spec; lia|].
  split; [|split; [done|split; [apply Hh|]]].
  - unfold RfTransmit. rewrite uchar_small by lia. cbn [length].
    rewrite length_app, length_drop, Htx.
    destruct (Z.leb_spec (Z.of_nat (length payload) + 1)
      (Z.of_nat (S (length payload + (Z.to_nat (32 + 3)
                                      - (length payload + 1))))));
      [|lia].
    f_equal.
    replace (Z.to_nat (Z.of_nat (length payload) + 1))
      with (S (length payload)) by lia.
    cbn [take]. by rewrite take_app_length.
  - unfold egress in He. rewrite HL' in He.
    destruct Hwf as (_ & Hlen & _). unfold UART_BUF_LEN, PAYLOAD_LEN in *.
    set (l := Z.to_nat (UartTxBufferLength r)) in *.
    rewrite take_drop_commute.
    assert (take (l + length payload) (UartTxBuffer r')
            = take l (UartTxBuffer r) ++ payload) as E.
    { transitivity (take (l + length payload)
        (take (Z.to_nat (UartTxBufferLength r + Z.of_nat (length payload)
                 + Z.of_nat (length (decimal rssi)) + 1
                 + Z.of_nat (length (decimal lqi)) + 1))
              (UartTxBuffer r'))).
      - rewrite take_take. f_equal. lia.
      - rewrite He, app_assoc.
        apply take_app_length'. rewrite length_app, length_take. lia. }
    rewrite E. apply drop_app_length'. rewrite length_take. lia.
Qed.

Lemma C1_round_trip_witness :
  exists tx frame r',
    encode 2 [65; ch_nl] (RfTxBuffer init) = Some tx /\
    RfTransmit tx (uchar (2 + 1)) = Some frame /\
    frame = [2; 65; ch_nl] /\
    handle_rf_rx_packet 0 (frame ++ [50; 200]) init
      = Some (RxDelivered, r') /\
    take 2 (drop 0 (UartTxBuffer r')) = [65; ch_nl].
Proof.
  apply (C1_round_trip [65; ch_nl] [] (RfTxBuffer init) 0 50 200 init).
  - simpl; lia.
  - reflexivity.
  - repeat split.
  - reflexivity.
  - unfold is_byte; lia.
  - unfold is_byte; lia.
  - vm_compute; discriminate.
  - simpl; lia.
  - vm_compute; split; [discriminate|reflexivity].
  - vm_compute; discriminate.
Defined.

(** ** C2: what a decoded frame appends to the UART transmit buffer *)

(** C2 (as stated, refuted).  For the frame [2]['A','\n'] received with RSSI
    byte 50 and status byte 200 (CRC_OK set, link quality 72) the handler
    appends "A\n50 200\n": the second number is the whole status byte, not
    its low seven bits.  And with 88 bytes already waiting, the same payload
    with status bytes 200, 200 is appended as "A\n200 X\n": the text that
    does not fit is replaced by the placeholder of lines 614-617. *)
Lemma C2_counterexample :
  (exists s',
     handle_rf_rx_packet 0 [2; 65; ch_nl; 50; 200] init
       = Some (RxDelivered, s') /\
     egress s'
       = [65; ch_nl] ++ decimal 50 ++ [ch_sp] ++ decimal 200 ++ [ch_nl] /\
     egress s'
       <> [65; ch_nl] ++ decimal 50 ++ [ch_sp]
            ++ decimal (Z.land 200 127) ++ [ch_nl]) /\
  (exists s',
     handle_rf_rx_packet 0 [2; 65; ch_nl; 200; 200] (egress_filled 88)
       = Some (RxDelivered, s') /\
     drop 88 (egress s')
       = [65; ch_nl] ++ decimal 200 ++ [ch_sp] ++ [ch_X] ++ [ch_nl]).
Proof.
  split.
  - eexists. split; [vm_compute; reflexivity|].
    split; vm_compute; [reflexivity|discriminate].
  - eexists. split; vm_compute; reflexivity.
Qed.

(** C2 (amended): for every frame that is decoded (radio idle, 2 to 32
    payload bytes, CRC_OK set) and whose whole output fits what is left of
    UartTxBuffer, the bytes appended are the payload verbatim, the decimal
    text of the RSSI byte, one space, the decimal text of the whole final
    status byte (CRC_OK bit included), and a newline. *)
Theorem C2_egress_contract
    (RxStatus l0 rssi lqi : Z) (payload : list Z) (s : modem) :
  wf s ->
  Z.land RxStatus CC430_STATE_MASK = CC430_STATE_IDLE ->
  (2 <= length payload <= 32)%nat ->
  is_byte rssi -> is_byte lqi ->
  Z.land lqi CRC_OK <> 0 ->
  0 <= UartTxBufferLength s ->
  0 <= UartTxBuffer_i s < UART_BUF_LEN ->
  UartTxBufferLength s + Z.of_nat (length payload)
    + Z.of_nat (length (decimal rssi)) + 1
    + Z.of_nat (length (decimal lqi)) + 1 <= UART_BUF_LEN ->
  exists s',
    handle_rf_rx_packet RxStatus (l0 :: payload ++ [rssi; lqi]) s
      = Some (RxDelivered, s') /\
    egress s' = egress s ++ payload ++ decimal rssi ++ [ch_sp]
                         ++ decimal lqi ++ [ch_nl].
Proof.
  intros Hwf Hst Hp Hrssi Hlqi Hcrc HL Hi Hroom.
  destruct (handle_rf_rx_packet_delivered RxStatus l0 rssi lqi payload s)
    as (s' & Hh & He & _); try done.
  by exists s'.
Qed.

Lemma C2_egress_contract_witness :
  exists s',
    handle_rf_rx_packet 0 (6 :: [72; 69; 76; 76; 79; ch_nl] ++ [50; 200])
      init = Some (RxDelivered, s') /\
    egress s' = egress init ++ [72; 69; 76; 76; 79; ch_nl]
                  ++ decimal 50 ++ [ch_sp] ++ decimal 200 ++ [ch_nl].
Proof.
  apply (C2_egress_contract 0 6 50 200 [72; 69; 76; 76; 79; ch_nl] init).
  - repeat split.
  - reflexivity.
  - simpl; lia.
  - unfold is_byte; lia.
  - unfold is_byte; lia.
  - vm_compute; discriminate.
  - simpl; lia.
  - vm_compute; split; [discriminate|reflexivity].
  - vm_compute; discriminate.
Defined.

(** ** C3: a decoded frame that does not fit the UART transmit buffer *)

(** C3 (as stated, refuted).  With 88 bytes waiting in UartTxBuffer the
    frame [2]['A','\n'] with status bytes 200, 200 needs 10 more bytes
    ("A\n200 200\n"), which do not fit in 96.  Line 582 only counts the two
    payload bytes, so the frame is not dropped: the buffer grows to 96 bytes
    and ends in "A\n200 X\n". *)
Lemma C3_counterexample :
  UartTxBufferLength (egress_filled 88)
    + Z.of_nat (length ([65; ch_nl] ++ decimal 200 ++ [ch_sp]
                          ++ decimal 200 ++ [ch_nl])) > UART_BUF_LEN /\
  exists s',
    handle_rf_rx_packet 0 [2; 65; ch_nl; 200; 200] (egress_filled 88)
      = Some (RxDelivered, s') /\
    UartTxBufferLength s' = 96 /\
    UartTxBufferLength s' <> UartTxBufferLength (egress_filled 88) /\
    drop 88 (egress s') = [65; ch_nl; 50; 48; 48; ch_sp; ch_X; ch_nl].
Proof.
  split; [vm_compute; reflexivity|].
  eexists. split; [vm_compute; reflexivity|].
  split; [reflexivity|]. split; [vm_compute; discriminate|].
  vm_compute; reflexivity.
Qed.

(** C3 (amended): every decoded frame (radio idle, at least 5 bytes, within
    RfRxBuffer, CRC_OK set) whose payload alone does not fit what is left
    of UartTxBuffer is dropped as a unit: the buffer, its length and its
    read index are as before, nothing is handed to the UART, the length
    stays within the capacity if it was, and rf_error is not touched. *)
Theorem C3_overflow_drop
    (RxStatus lqi : Z) (fifo : list Z) (s : modem) :
  wf s ->
  Z.land RxStatus CC430_STATE_MASK = CC430_STATE_IDLE ->
  (5 <= length fifo)%nat ->
  Z.of_nat (length fifo) <= PACKET_LEN ->
  fifo !! (length fifo - 1)%nat = Some lqi ->
  Z.land lqi CRC_OK <> 0 ->
  UartTxBufferLength s + (Z.of_nat (length fifo) - 3) > UART_BUF_LEN ->
  exists s',
    handle_rf_rx_packet RxStatus fifo s = Some (RxNoSpace, s') /\
    UartTxBuffer s' = UartTxBuffer s /\
    UartTxBufferLength s' = UartTxBufferLength s /\
    UartTxBuffer_i s' = UartTxBuffer_i s /\
    egress s' = egress s /\
    UCA0TXBUF_log s' = UCA0TXBUF_log s /\
    (UartTxBufferLength s <= UART_BUF_LEN ->
     UartTxBufferLength s' <= UART_BUF_LEN) /\
    rf_error s' = rf_error s.
Proof.
  intros (Hrx & Htx & Hrrx & Hrtx) Hst Hn5 Hn35 Hc Hcrc Hfull.
  unfold handle_rf_rx_packet. rewrite Hst, Z.eqb_refl. cbn [negb]. fields.
  unfold RXBYTES, ReadBurstReg. rewrite Hrrx.
  destruct (Z.ltb_spec (Z.of_nat (length fifo)) 5); [lia|].
  destruct (Z.leb_spec (Z.of_nat (length fifo))
              (Z.of_nat (Z.to_nat PACKET_LEN))); [|lia].
  cbn [mbind option_bind]. fields. rewrite Nat2Z.id.
  rewrite (read_crc fifo _ lqi) by (done || lia). cbn [mbind option_bind].
  destruct (Z.eqb_spec (Z.land lqi CRC_OK) 0); [done|].
  destruct (Z.gtb_spec (UartTxBufferLength s + (Z.of_nat (length fifo) - 3))
              UART_BUF_LEN); [|lia].
  eexists. split; [done|]. unfold egress, failed_to_receive. fields.
  repeat split; done.
Qed.

Lemma C3_overflow_drop_witness :
  exists s',
    handle_rf_rx_packet 0 [2; 65; ch_nl; 50; 200] (egress_filled 95)
      = Some (RxNoSpace, s') /\
    UartTxBuffer s' = UartTxBuffer (egress_filled 95) /\
    UartTxBufferLength s' = UartTxBufferLength (egress_filled 95) /\
    UartTxBuffer_i s' = UartTxBuffer_i (egress_filled 95) /\
    egress s' = egress (egress_filled 95) /\
    UCA0TXBUF_log s' = UCA0TXBUF_log (egress_filled 95) /\
    (UartTxBufferLength (egress_filled 95) <= UART_BUF_LEN ->
     UartTxBufferLength s' <= UART_BUF_LEN) /\
    rf_error s' = rf_error (egress_filled 95).
Proof.
  apply (C3_overflow_drop 0 200 [2; 65; ch_nl; 50; 200] (egress_filled 95)).
  - repeat split.
  - reflexivity.
  - simpl; lia.
  - vm_compute; discriminate.
  - reflexivity.
  - vm_compute; discriminate.
  - vm_compute; reflexivity.
Defined.

(** ** C4: frames refused by the receive handler *)

(** A frame of fewer than 5 bytes is refused on the short-frame test
    (MalformedFrame), and a frame that fits RfRxBuffer and whose last byte
    has CRC_OK clear is refused on the CRC test (CrcFailure), these being
    the exits taken when the radio reports IDLE.  Both times, and whatever
    the radio reports, rf_error is set, RfRxBufferLength is reset to 0 and
    the UART transmit buffer, its length and the UART transmitter are left as
    they were. *)
Lemma handle_rf_rx_packet_rejects (RxStatus : Z) (fifo : list Z) (s : modem) :
  wf s ->
  ((length fifo < 5)%nat ->
   exists o s',
     handle_rf_rx_packet RxStatus fifo s = Some (o, s') /\
     rejected s s' /\
     (Z.land RxStatus CC430_STATE_MASK = CC430_STATE_IDLE -> o = RxShort)) /\
  ((5 <= length fifo)%nat -> Z.of_nat (length fifo) <= PACKET_LEN ->
   forall c, fifo !! (length fifo - 1)%nat = Some c ->
             Z.land c CRC_OK = 0 ->
   exists o s',
     handle_rf_rx_packet RxStatus fifo s = Some (o, s') /\
     rejected s s' /\
     (Z.land RxStatus CC430_STATE_MASK = CC430_STATE_IDLE ->
      o = RxCrcError)).
Proof.
  intros (Hrx & Htx & Hrrx & Hrtx).
  unfold handle_rf_rx_packet.
  destruct (Z.eqb_spec (Z.land RxStatus CC430_STATE_MASK) CC430_STATE_IDLE)
    as [Hst|Hst]; cbn [negb].
  2:{ split; intros; eexists; eexists; (split; [done|]);
        (split; [by repeat split|done]). }
  fields. unfold RXBYTES, ReadBurstReg. rewrite Hrrx. split.
  - intros Hn. destruct (Z.ltb_spec (Z.of_nat (length fifo)) 5); [|lia].
    eexists. eexists. split; [done|]. split; [by repeat split|done].
  - intros Hn5 Hn35 c Hc Hcrc.
    destruct (Z.ltb_spec (Z.of_nat (length fifo)) 5); [lia|].
    destruct (Z.leb_spec (Z.of_nat (length fifo))
                (Z.of_nat (Z.to_nat PACKET_LEN))); [|lia].
    cbn [mbind option_bind]. fields. rewrite Nat2Z.id.
    rewrite (read_crc fifo _ c) by (done || lia). cbn [mbind option_bind].
    rewrite Hcrc. cbn [Z.eqb].
    eexists. eexists. split; [done|]. split; [by repeat split|done].
Qed.

(** Lines 565-574 compare the number of bytes in the FIFO with 5 and with
    nothing else: a frame of more than PACKET_LEN bytes is copied past the
    end of RfRxBuffer before its CRC is looked at. *)
Lemma handle_rf_rx_packet_overrun
    (RxStatus : Z) (fifo : list Z) (s : modem) :
  wf s ->
  Z.land RxStatus CC430_STATE_MASK = CC430_STATE_IDLE ->
  PACKET_LEN < Z.of_nat (length fifo) ->
  handle_rf_rx_packet RxStatus fifo s = None.
Proof.
  intros (_ & _ & Hrrx & _) Hst Hlen.
  unfold PACKET_LEN, PAYLOAD_LEN in *.
  unfold handle_rf_rx_packet. rewrite Hst, Z.eqb_refl. cbn [negb].
  fields. unfold RXBYTES, ReadBurstReg. rewrite Hrrx.
  destruct (Z.ltb_spec (Z.of_nat (length fifo)) 5); [lia|].
  by destruct (Z.leb_spec (Z.of_nat (length fifo))
                 (Z.of_nat (Z.to_nat (32 + 3)))); [lia|].
Qed.

(** C4 (the code departs from the claim).  A modem of this kind sends the
    33 bytes 'A' and their terminator as a frame of 35 bytes, the length
    byte 34 first; the receiving radio appends the RSSI and the status
    byte, so 37 bytes wait in the RX FIFO.  With CRC_OK clear in the status
    byte the claim has the frame refused as CrcFailure.  The handler has
    checked the count against 5 only: the burst read of line 574 copies the
    37 bytes into the 35 cells of RfRxBuffer, and the CRC test of line 577
    reads a cell outside the array, so the call has no defined result.  The
    same holds for the shortest such frame, 36 bytes; a frame of 35 bytes
    with CRC_OK clear is refused as the claim says. *)
Theorem C4_long_frame_overruns :
  (exists s,
     run (map UartRx (replicate 33 65 ++ [ch_nl]) ++ [Dispatch]) init
       = Some s /\
     TXFIFO_log s = [34 :: replicate 33 65 ++ [ch_nl]]) /\
  length ((34 :: replicate 33 65 ++ [ch_nl]) ++ [50; 72]) = 37%nat /\
  Z.land 72 CRC_OK = 0 /\
  handle_rf_rx_packet 0 ((34 :: replicate 33 65 ++ [ch_nl]) ++ [50; 72])
    (main_listen init) = None /\
  step (RadioIrq 0 ((34 :: replicate 33 65 ++ [ch_nl]) ++ [50; 72]))
    (main_listen init) = None /\
  handle_rf_rx_packet 0 (33 :: replicate 33 65 ++ [50; 72])
    (main_listen init) = None /\
  (exists s',
     handle_rf_rx_packet 0 (32 :: replicate 32 65 ++ [50; 72])
       (main_listen init) = Some (RxCrcError, s') /\
     rejected (main_listen init) s').
Proof.
  split; [eexists; split; vm_compute; reflexivity|].
  do 5 (split; [vm_compute; reflexivity|]).
  eexists. split; [vm_compute; reflexivity|].
  repeat split.
Qed.

(** ** C5: the fill level of the UART receive buffer *)

(** A byte that finds the buffer full is dropped: buffer, fill level and
    pending mark are as before; only the timer is stopped and the timeout
    flag cleared (by the call of [timer_clear] of line 471). *)
Lemma uart_rx_full_dropped (b : Z) (s : modem) :
  UartRxBuffer_i s = UART_BUF_LEN ->
  exists s',
    handle_uart_rx_byte b s = Some (0, s') /\
    UartRxBuffer s' = UartRxBuffer s /\
    UartRxBuffer_i s' = UartRxBuffer_i s /\
    data_to_send s' = data_to_send s /\
    TA1_running s' = false /\ uart_rx_timeout s' = 0.
Proof.
  intros Hfull. unfold handle_uart_rx_byte, timer_clear. fields.
  rewrite Hfull, Z.eqb_refl. eexists. split; [done|]. by repeat split.
Qed.

(** A byte that is not a terminator and finds room is stored and rearms
    the timer. *)
Lemma uart_rx_stored (b : Z) (s : modem) :
  length (UartRxBuffer s) = 96%nat ->
  0 <= UartRxBuffer_i s < 96 ->
  b <> ch_nl ->
  handle_uart_rx_byte b s
  = Some (0, timer_set UART_RX_NEWDATA_TIMEOUT_MS
               (set_UartRxBuffer_i (UartRxBuffer_i s + 1)
                  (set_UartRxBuffer
                     (<[Z.to_nat (UartRxBuffer_i s) := b]> (UartRxBuffer s))
                     (timer_clear s)))).
Proof.
  intros Hlen Hi Hb. unfold handle_uart_rx_byte.
  change (UartRxBuffer_i (timer_clear s)) with (UartRxBuffer_i s).
  change (UartRxBuffer (timer_clear s)) with (UartRxBuffer s).
  unfold UART_BUF_LEN, PAYLOAD_LEN.
  destruct (Z.eqb_spec (UartRxBuffer_i s) (32 * 3)); [lia|].
  rewrite store_Z by lia. cbn [mbind option_bind].
  destruct (Z.eqb_spec b ch_nl); [done|].
  by rewrite uchar_small by lia.
Qed.

(** C5 (the code departs from the claim).  While "Z\n" is on the air,
    "A\nB" arrives.  At the end of the transmission the main loop sends
    "A\n" and moves 'B' to the front, but leaves data_to_send at 2.  At the
    end of that transmission the next dispatch scans two cells, finds the
    stale '\n' behind 'B', sends [2]['B','\n'] and subtracts 2 from a fill
    level of 1: UartRxBuffer_i wraps to 255, beyond the 96 cells of the
    buffer. *)
Theorem C5_fill_level_escapes :
  exists s,
    run [UartRx 90; UartRx ch_nl; Dispatch;
         UartRx 65; UartRx ch_nl; UartRx 66;
         RadioIrq 0 []; Dispatch; RadioIrq 0 []; Dispatch] init = Some s /\
    TXFIFO_log s = [[2; 90; ch_nl]; [2; 65; ch_nl]; [2; 66; ch_nl]] /\
    UartRxBuffer_i s = 255 /\
    UartRxBuffer_i s > UART_BUF_LEN.
Proof.
  eexists. split; [vm_compute; reflexivity|].
  repeat split; vm_compute; reflexivity.
Qed.

(** ** C8: which interrupts wake the main loop *)

(** A terminator stored in the receive buffer wakes the main loop. *)
Lemma USCI_A0_ISR_wakes_on_newline (s s' : modem) (wake : bool) :
  UartRxBuffer_i s <> UART_BUF_LEN ->
  USCI_A0_ISR 2 ch_nl s = Some (s', wake) -> wake = true.
Proof.
  intros Hfull. unfold USCI_A0_ISR, handle_uart_rx_byte, timer_clear.
  cbn [Z.eqb Pos.eqb]. fields.
  destruct (Z.eqb_spec (UartRxBuffer_i s) UART_BUF_LEN); [done|].
  destruct (store _ _ _); cbn [mbind option_bind]; [|done].
  by intros [= <- <-].
Qed.

(** C8 (the code departs from the claim).  The timer interrupt never
    executes [__bic_SR_register_on_exit]; fired after the byte 'A' arrived it
    records the flush request (data_to_send and uart_rx_timeout set) and
    leaves the main loop in its low-power wait. *)
Theorem C8_timer_isr_does_not_wake :
  (forall s, snd (TIMER1_A0_ISR s) = false) /\
  data_to_send (fst (TIMER1_A0_ISR after_A)) = 1 /\
  uart_rx_timeout (fst (TIMER1_A0_ISR after_A)) = 1 /\
  snd (TIMER1_A0_ISR after_A) = false.
Proof. repeat split. Qed.

(** ** C9: the flush timer and the bytes that are dropped *)

(** What one byte that is not a terminator does to the flush timer: stored
    in the receive buffer it rearms the timer; finding the buffer full it is
    dropped and leaves the timer stopped and the timeout flag cleared, the
    buffer, its fill level and the pending mark being as before. *)
Lemma handle_uart_rx_byte_timer (b : Z) (s : modem) :
  wf s -> b <> ch_nl -> 0 <= UartRxBuffer_i s <= UART_BUF_LEN ->
  exists s',
    handle_uart_rx_byte b s = Some (0, s') /\
    data_to_send s' = data_to_send s /\
    (UartRxBuffer_i s < UART_BUF_LEN ->
     TA1_running s' = true /\ ingress s' = ingress s ++ [b] /\
     UartRxBuffer_i s' = UartRxBuffer_i s + 1) /\
    (UartRxBuffer_i s = UART_BUF_LEN ->
     TA1_running s' = false /\ uart_rx_timeout s' = 0 /\
     UartRxBuffer s' = UartRxBuffer s /\
     UartRxBuffer_i s' = UartRxBuffer_i s).
Proof.
  intros (Hrx & _) Hb Hi.
  destruct (Z.eq_dec (UartRxBuffer_i s) UART_BUF_LEN) as [Hfull|Hfull].
  - destruct (uart_rx_full_dropped b s Hfull)
      as (s' & Hh & Hbuf & Hi' & Hd & Ht & Hto).
    exists s'. split; [done|]. split; [done|]. split; [lia|done].
  - unfold handle_uart_rx_byte, timer_clear, timer_set. fields.
    destruct (Z.eqb_spec (UartRxBuffer_i s) UART_BUF_LEN); [done|].
    unfold UART_BUF_LEN, PAYLOAD_LEN in *.
    rewrite store_Z by lia. cbn [mbind option_bind].
    destruct (Z.eqb_spec b ch_nl); [done|].
    eexists. split; [done|]. fields. split; [done|]. split; [|lia].
    intros _. unfold ingress. fields. rewrite uchar_small by lia.
    split; [done|]. split; [|done].
    replace (Z.to_nat (UartRxBuffer_i s + 1))
      with (S (Z.to_nat (UartRxBuffer_i s))) by lia.
    apply take_S_insert. lia.
Qed.

(** C9 (the code departs from the claim).  After 96 bytes 'A' the buffer
    is full and the flush timer runs.  The 97th byte is dropped by the
    early return of line 477, which comes after the [timer_clear] of line
    471 and before the [timer_set] of line 493: the timer is left stopped,
    where the claim has it rearmed by the discarded byte, and the buffer,
    its fill level and the pending mark are as before.  Nothing is pending,
    so the state stays as it is: every later byte, a terminator included,
    is dropped the same way, the stopped timer cannot fire, and the main
    loop finds nothing to dispatch. *)
Theorem C9_full_buffer_stops_timer :
  run (replicate 96 (UartRx 65)) init = Some ingress_full /\
  UartRxBuffer_i ingress_full = UART_BUF_LEN /\
  TA1_running ingress_full = true /\
  65 <> ch_nl /\
  exists s',
    step (UartRx 65) ingress_full = Some s' /\
    TA1_running s' = false /\
    uart_rx_timeout s' = 0 /\
    UartRxBuffer s' = UartRxBuffer ingress_full /\
    UartRxBuffer_i s' = UartRxBuffer_i ingress_full /\
    data_to_send s' = 0 /\
    (forall b, step (UartRx b) s' = Some s') /\
    step TimerFire s' = None /\
    step Dispatch s' = Some s'.
Proof.
  split; [vm_compute; reflexivity|].
  split; [reflexivity|]. split; [reflexivity|]. split; [discriminate|].
  eexists. split; [vm_compute; reflexivity|].
  do 5 (split; [reflexivity|]).
  split; [intros b; reflexivity|].
  split; reflexivity.
Qed.

(** ** C10: a flush request overtaken by the next byte *)

(** C10: let the flush timer fire on a buffer that holds at least one byte,
    the first not a terminator, and let one more non-terminator byte arrive
    before the main loop dispatches.  The byte clears uart_rx_timeout while
    data_to_send stays at 1; the dispatch then scans the first cell only,
    finds no terminator and empties the whole buffer without sending. *)
Theorem C10_flush_lost (a b : Z) (s : modem) :
  wf s ->
  0 < UartRxBuffer_i s < UART_BUF_LEN ->
  UartRxBuffer s !! 0%nat = Some a ->
  a <> ch_nl -> b <> ch_nl ->
  rf_transmitting s = 0 ->
  exists s2 s3,
    uart_rx_timeout (fst (TIMER1_A0_ISR s)) = 1 /\
    data_to_send (fst (TIMER1_A0_ISR s)) = 1 /\
    handle_uart_rx_byte b (fst (TIMER1_A0_ISR s)) = Some (0, s2) /\
    uart_rx_timeout s2 = 0 /\ data_to_send s2 = 1 /\
    ingress s2 = ingress s ++ [b] /\
    find_newline (Z.to_nat (data_to_send s2)) 0 (UartRxBuffer s2)
      = Some (-1) /\
    send_next_msg s2 = Some (1, s3) /\
    main_dispatch s2 = Some s3 /\
    UartRxBuffer_i s3 = 0 /\ data_to_send s3 = 0 /\ ingress s3 = [] /\
    TXFIFO_log s3 = TXFIFO_log s.
Proof.
  intros (Hrx & _) Hi Ha Hane Hbne Htx.
  assert (TIMER1_A0_ISR s
          = (set_uart_rx_timeout 1 (set_data_to_send 1 (timer_clear s)),
             false)) as ->.
  { unfold TIMER1_A0_ISR, timer_clear. fields.
    by destruct (Z.gtb_spec (UartRxBuffer_i s) 0); [|lia]. }
  cbn [fst].
  set (s1 := set_uart_rx_timeout 1 (set_data_to_send 1 (timer_clear s))).
  unfold UART_BUF_LEN, PAYLOAD_LEN in *.
  rewrite (uart_rx_stored b s1);
    [|exact Hrx|unfold s1, timer_clear; fields; lia|done].
  set (s2 := timer_set _ _).
  assert (uart_rx_timeout s2 = 0) as E1 by done.
  assert (data_to_send s2 = 1) as E2 by done.
  assert (UartRxBuffer s2
          = <[Z.to_nat (UartRxBuffer_i s) := b]> (UartRxBuffer s)) as E3
    by done.
  assert (UartRxBuffer_i s2 = UartRxBuffer_i s + 1) as E4 by done.
  assert (rf_transmitting s2 = 0) as E5 by done.
  assert (TXFIFO_log s2 = TXFIFO_log s) as E6 by done.
  clearbody s2.
  assert (find_newline (Z.to_nat (data_to_send s2)) 0 (UartRxBuffer s2)
          = Some (-1)) as Hscan.
  { rewrite E2, E3. change (Z.to_nat 1) with 1%nat. cbn [find_newline].
    rewrite load_0, list_lookup_insert_ne, Ha by lia.
    cbn [mbind option_bind]. by destruct (Z.eqb_spec a ch_nl). }
  assert (send_next_msg s2
          = Some (1, set_UartRxBuffer_i 0 (set_data_to_send 0 s2))) as Hsend.
  { unfold send_next_msg, msg_len. rewrite E1. cbn [Z.eqb].
    rewrite Hscan. done. }
  exists s2, (set_UartRxBuffer_i 0 (set_data_to_send 0 s2)).
  split; [done|]. split; [done|]. split; [done|].
  split; [done|]. split; [done|]. split.
  { unfold ingress. rewrite E3, E4.
    replace (Z.to_nat (UartRxBuffer_i s + 1))
      with (S (Z.to_nat (UartRxBuffer_i s))) by lia.
    apply take_S_insert. lia. }
  split; [done|]. split; [done|]. split.
  { unfold main_dispatch. rewrite E5, E2, Hsend. done. }
  by repeat split.
Qed.

Lemma C10_flush_lost_witness :
  exists s2 s3,
    uart_rx_timeout (fst (TIMER1_A0_ISR after_A)) = 1 /\
    data_to_send (fst (TIMER1_A0_ISR after_A)) = 1 /\
    handle_uart_rx_byte 66 (fst (TIMER1_A0_ISR after_A)) = Some (0, s2) /\
    uart_rx_timeout s2 = 0 /\ data_to_send s2 = 1 /\
    ingress s2 = ingress after_A ++ [66] /\
    find_newline (Z.to_nat (data_to_send s2)) 0 (UartRxBuffer s2)
      = Some (-1) /\
    send_next_msg s2 = Some (1, s3) /\
    main_dispatch s2 = Some s3 /\
    UartRxBuffer_i s3 = 0 /\ data_to_send s3 = 0 /\ ingress s3 = [] /\
    TXFIFO_log s3 = TXFIFO_log after_A.
Proof.
  apply (C10_flush_lost 65 66 after_A).
  - repeat split.
  - vm_compute; split; reflexivity.
  - reflexivity.
  - discriminate.
  - discriminate.
  - reflexivity.
Defined.

(** ** C7: half duplex *)

Lemma put_decimal_flags (v sep : Z) (s s' : modem) :
  put_decimal v sep s = Some s' ->
  rf_transmitting s' = rf_transmitting s /\ rf_receiving s' = rf_receiving s.
Proof.
  unfold put_decimal. intros H. invert_run H.
  all: by injection H as <-.
Qed.

(** The receive handler clears rf_receiving and leaves rf_transmitting. *)
Lemma handle_rf_rx_packet_flags
    (RxStatus : Z) (fifo : list Z) (s s' : modem) (o : rx_outcome) :
  handle_rf_rx_packet RxStatus fifo s = Some (o, s') ->
  rf_transmitting s' = rf_transmitting s /\ rf_receiving s' = 0.
Proof.
  unfold handle_rf_rx_packet. intros H. invert_run H.
  all: try (by injection H as <- <-).
  injection H as <- <-.
  match goal with
  | H1 : put_decimal _ _ _ = Some ?a, H2 : put_decimal _ _ ?a = Some ?b |- _ =>
      apply put_decimal_flags in H1; apply put_decimal_flags in H2;
      destruct H1 as [H1 H1']; destruct H2 as [H2 H2'];
      fields in H1; fields in H1'
  end.
  fields. split; congruence.
Qed.

(** Lines 148-160 change nothing but the timeout flag. *)
Lemma msg_len_frame (s s1 : modem) (len : Z) :
  msg_len s = Some (len, s1) -> s1 = s \/ s1 = set_uart_rx_timeout 0 s.
Proof.
  unfold msg_len. intros H. invert_run H; injection H as <- <-; auto.
Qed.

(** Dispatch either sends nothing and leaves both flags alone, or stops
    reception before it starts the transmission. *)
Lemma send_next_msg_flags (s s' : modem) (r : Z) :
  send_next_msg s = Some (r, s') ->
  (r = 1 /\ rf_transmitting s' = rf_transmitting s /\
   rf_receiving s' = rf_receiving s) \/
  (r = 0 /\ rf_transmitting s' = 1 /\ rf_receiving s' = 0).
Proof.
  unfold send_next_msg. intros H.
  destruct (msg_len s) as [[len s1]|] eqn:Hm; cbn [mbind option_bind] in H;
    [|done].
  destruct ((len =? 0) || (len =? -1)).
  - injection H as <- <-. left. fields.
    by destruct (msg_len_frame _ _ _ Hm) as [-> | ->].
  - invert_run H. injection H as <- <-. right. fields.
    split; [done|]. split; [done|].
    match goal with
    | |- rf_receiving (if negb (rf_receiving ?m =? 0) then _ else _) = 0 =>
        by destruct (Z.eqb_spec (rf_receiving m) 0)
    end.
Qed.

Lemma handle_uart_rx_byte_flags (rx : Z) (s s' : modem) (r : Z) :
  handle_uart_rx_byte rx s = Some (r, s') ->
  rf_transmitting s' = rf_transmitting s /\ rf_receiving s' = rf_receiving s.
Proof.
  unfold handle_uart_rx_byte, timer_clear, timer_set. intros H.
  invert_run H; by injection H as <- <-.
Qed.

Lemma USCI_A0_ISR_flags (vector rx : Z) (s s' : modem) (w : bool) :
  USCI_A0_ISR vector rx s = Some (s', w) ->
  rf_transmitting s' = rf_transmitting s /\ rf_receiving s' = rf_receiving s.
Proof.
  unfold USCI_A0_ISR. intros H.
  destruct (vector =? 2).
  - destruct (handle_uart_rx_byte rx s) as [[r s1]|] eqn:E;
      cbn [mbind option_bind] in H; [|done].
    injection H as <- <-. by apply handle_uart_rx_byte_flags in E.
  - invert_run H; by injection H as <- <-.
Qed.

Lemma CC1101_ISR_flags
    (vector RxStatus : Z) (fifo : list Z) (s s' : modem) (w : bool) :
  half_duplex s ->
  CC1101_ISR vector RxStatus fifo s = Some (s', w) -> half_duplex s'.
Proof.
  unfold CC1101_ISR, half_duplex. intros Hs H.
  destruct (vector =? 20); [|by injection H as <- <-].
  invert_run H. injection H as <- <-. left.
  match goal with
  | |- rf_transmitting
         (if negb (rf_transmitting ?m =? 0) then _ else _) = 0 =>
      by destruct (Z.eqb_spec (rf_transmitting m) 0)
  end.
Qed.

(** Listening is started only when neither flag is set. *)
Lemma main_listen_flags (s : modem) :
  half_duplex s -> half_duplex (main_listen s).
Proof.
  unfold main_listen, half_duplex. intros Hs.
  destruct (Z.eqb_spec (rf_transmitting s) 0) as [Ht|Ht]; cbn [andb];
    [|done].
  destruct (Z.eqb_spec (rf_receiving s) 0); cbn [andb]; [|done].
  left. by destruct (rf_error s =? 0); fields.
Qed.

Lemma step_half_duplex (e : event) (s s' : modem) :
  half_duplex s -> step e s = Some s' -> half_duplex s'.
Proof.
  unfold half_duplex. intros Hs H. destruct e as [b| | |st fifo| |];
    cbn [step] in H.
  - invert_run H. injection H as <-. destruct p as [s1 w]. cbn [fst].
    apply USCI_A0_ISR_flags in E as [-> ->]. done.
  - invert_run H. injection H as <-. destruct p as [s1 w]. cbn [fst].
    apply USCI_A0_ISR_flags in E as [-> ->]. done.
  - invert_run H. injection H as <-.
    unfold TIMER1_A0_ISR, timer_clear. cbn [fst].
    by destruct (UartRxBuffer_i _ >? 0).
  - invert_run H. injection H as <-. destruct p as [s1 w]. cbn [fst].
    by apply (CC1101_ISR_flags 20 st fifo s s1 w).
  - injection H as <-. by apply main_listen_flags.
  - unfold main_dispatch in H. invert_run H; [|by injection H as <-].
    injection H as <-. destruct p as [r s1]. cbn [snd].
    match goal with
    | E : send_next_msg _ = Some _ |- _ =>
        apply send_next_msg_flags in E as [(_ & -> & ->)|(_ & _ & ->)];
          [done|by right]
    end.
Qed.

Lemma run_half_duplex (es : list event) :
  forall s s', half_duplex s -> run es s = Some s' -> half_duplex s'.
Proof.
  induction es as [|e es IH]; intros s s' Hs H; cbn [run] in H.
  - by injection H as <-.
  - invert_run H. eauto using step_half_duplex.
Qed.

(** C7: in every state the modem reaches from its initial state through
    interrupts and main-loop steps, rf_transmitting and rf_receiving are not
    both set; a dispatch that transmits leaves rf_receiving clear, and the
    main loop turns rf_receiving on only when both flags are clear. *)
Theorem C7_half_duplex (es : list event) (s : modem) :
  run es init = Some s ->
  ~ (rf_transmitting s <> 0 /\ rf_receiving s <> 0) /\
  (forall s', send_next_msg s = Some (0, s') ->
              rf_transmitting s' = 1 /\ rf_receiving s' = 0) /\
  (rf_receiving (main_listen s) <> rf_receiving s ->
   rf_transmitting s = 0 /\ rf_receiving s = 0).
Proof.
  intros H. split; [|split].
  - intros [Ht Hr].
    destruct (run_half_duplex es init s) as [E|E]; [by left|done|done|done].
  - intros s' Hs.
    by destruct (send_next_msg_flags _ _ _ Hs) as [(? & _)|(_ & ? & ?)].
  - unfold main_listen.
    destruct (Z.eqb_spec (rf_transmitting s) 0); cbn [andb]; [|done].
    destruct (Z.eqb_spec (rf_receiving s) 0); cbn [andb]; done.
Qed.

Lemma C7_half_duplex_witness :
  ~ (rf_transmitting after_dispatch <> 0 /\
     rf_receiving after_dispatch <> 0) /\
  (forall s', send_next_msg after_dispatch = Some (0, s') ->
              rf_transmitting s' = 1 /\ rf_receiving s' = 0) /\
  (rf_receiving (main_listen after_dispatch) <> rf_receiving after_dispatch ->
   rf_transmitting after_dispatch = 0 /\ rf_receiving after_dispatch = 0).
Proof.
  apply (C7_half_duplex
           [Listen; UartRx 65; UartRx ch_nl; Dispatch] after_dispatch).
  vm_compute; reflexivity.
Defined.

(** ** C6: dispatch *)

(** The scan stops on the first terminator of its window. *)
Lemma find_newline_first (buf : list Z) (k : nat) :
  buf !! k = Some ch_nl ->
  (forall j, (j < k)%nat -> buf !! j <> Some ch_nl) ->
  (k < 127)%nat ->
  forall (n x : nat), (x <= k < x + n)%nat ->
    find_newline n (Z.of_nat x) buf = Some (Z.of_nat k + 1).
Proof.
  intros Hk Hfirst Hsmall. induction n as [|n IH]; intros x Hx; [lia|].
  cbn [find_newline]. rewrite load_nat.
  destruct (decide (x = k)) as [->|Hne].
  - rewrite Hk. cbn [mbind option_bind]. rewrite Z.eqb_refl.
    f_equal. unfold schar. rewrite Z.mod_small by lia.
    by destruct (Z.ltb_spec (Z.of_nat k + 1) 128); [|lia].
  - destruct (lookup_lt_is_Some_2 buf x) as [c Hc].
    { apply lookup_lt_Some in Hk. lia. }
    rewrite Hc. cbn [mbind option_bind].
    destruct (Z.eqb_spec c ch_nl) as [->|_].
    + exfalso. apply (Hfirst x); [lia|done].
    + replace (Z.of_nat x + 1) with (Z.of_nat (S x)) by lia.
      apply IH. lia.
Qed.

(** Lines 179-188 remove the first [len] bytes of the receive buffer and
    keep the rest in order; the pending mark is cleared only when nothing is
    left. *)
Lemma consume_spec (len : nat) (s : modem) :
  length (UartRxBuffer s) = 96%nat ->
  (0 < len)%nat -> Z.of_nat len <= UartRxBuffer_i s <= 96 ->
  exists s',
    consume (Z.of_nat len) s = Some s' /\
    ingress s' = drop len (ingress s) /\
    UartRxBuffer_i s' = UartRxBuffer_i s - Z.of_nat len /\
    (Z.of_nat len < UartRxBuffer_i s -> data_to_send s' = data_to_send s) /\
    (Z.of_nat len = UartRxBuffer_i s -> data_to_send s' = 0) /\
    RfTxBuffer s' = RfTxBuffer s /\
    rf_receiving s' = rf_receiving s /\
    TXFIFO_log s' = TXFIFO_log s.
Proof.
  intros Hlen Hpos Hi. unfold consume.
  destruct (Z.eqb_spec (Z.of_nat len) (UartRxBuffer_i s)) as [E|E];
    cbn [negb].
  - eexists. split; [done|]. unfold ingress. fields. rewrite <- E.
    rewrite Nat2Z.id. split.
    { rewrite drop_ge by (rewrite length_take; lia). done. }
    repeat split; (done || lia).
  - set (i := Z.to_nat (UartRxBuffer_i s)).
    replace (Z.to_nat (UartRxBuffer_i s - Z.of_nat len))
      with (i - len)%nat by lia.
    rewrite (for_loop_ext _
      (λ y t, c ← load t (y + Z.of_nat len); store t (y + Z.of_nat 0) c)).
    2:{ intros y t. by rewrite Z.add_0_r. }
    pose proof (shift_loop len 0 (i - len) Hpos 0%nat (UartRxBuffer s)) as Hs.
    change (Z.of_nat 0) with 0 in Hs at 1. rewrite Hs by lia. clear Hs.
    cbn [mbind option_bind]. eexists. split; [done|].
    unfold ingress. fields. rewrite uchar_small by lia.
    replace (Z.to_nat (UartRxBuffer_i s - Z.of_nat len))
      with (i - len)%nat by lia.
    fold i. split.
    { change (0 + 0)%nat with 0%nat. rewrite take_0. cbn [app].
      change (0 + len)%nat with len.
      rewrite take_app_length' by (rewrite length_take, length_drop; lia).
      rewrite take_drop_commute. do 2 f_equal. lia. }
    repeat split; (done || lia).
Qed.

(** A dispatch that found a message of [len] bytes hands the frame
    [len][message] to the radio and removes the message from the receive
    buffer. *)
Lemma send_next_msg_sends (len : nat) (s : modem) :
  wf s ->
  fst <$> msg_len s = Some (Z.of_nat len) ->
  (0 < len <= 34)%nat ->
  Z.of_nat len <= UartRxBuffer_i s <= UART_BUF_LEN ->
  exists s',
    send_next_msg s = Some (0, s') /\
    TXFIFO_log s'
      = TXFIFO_log s ++ [Z.of_nat len :: take len (ingress s)] /\
    ingress s' = drop len (ingress s) /\
    UartRxBuffer_i s' = UartRxBuffer_i s - Z.of_nat len /\
    (Z.of_nat len < UartRxBuffer_i s -> data_to_send s' = data_to_send s) /\
    (Z.of_nat len = UartRxBuffer_i s -> data_to_send s' = 0).
Proof.
  intros (Hrx & Htx & Hrrx & Hrtx) Hm Hlen Hi.
  unfold UART_BUF_LEN, PACKET_LEN, PAYLOAD_LEN in *.
  unfold send_next_msg.
  destruct (msg_len s) as [[len' s1]|] eqn:Hm1; [|done].
  injection Hm as ->. cbn [mbind option_bind].
  assert (UartRxBuffer s1 = UartRxBuffer s /\
          UartRxBuffer_i s1 = UartRxBuffer_i s /\
          RfTxBuffer s1 = RfTxBuffer s /\
          data_to_send s1 = data_to_send s /\
          TXFIFO_log s1 = TXFIFO_log s) as (B1 & B2 & B3 & B4 & B5)
    by (by destruct (msg_len_frame _ _ _ Hm1) as [-> | ->]).
  clear Hm1.
  destruct (Z.eqb_spec (Z.of_nat len) 0); [lia|].
  destruct (Z.eqb_spec (Z.of_nat len) (-1)); [lia|]. cbn [orb].
  set (msg := take len (UartRxBuffer s)).
  assert (length msg = len) as Hmsg
    by (unfold msg; rewrite length_take; lia).
  pose proof (encode_spec msg (drop len (UartRxBuffer s)) (RfTxBuffer s))
    as He.
  rewrite Hmsg in He.
  replace (msg ++ drop len (UartRxBuffer s)) with (UartRxBuffer s) in He
    by (symmetry; apply take_drop).
  rewrite B1, B3, He by lia. clear He. cbn [mbind option_bind].
  set (tx := Z.of_nat len :: msg ++ _).
  destruct (consume_spec len (set_RfTxBuffer tx s1))
    as (s2 & -> & C1 & C2 & C3 & C4 & C5 & C6 & C7).
  { fields. by rewrite B1. }
  { lia. }
  { fields. lia. }
  cbn [mbind option_bind].
  set (s3 := set_rf_transmitting 1 _).
  assert (RfTxBuffer s3 = tx) as D1.
  { unfold s3. destruct (negb (rf_receiving s2 =? 0)); fields; by rewrite C5. }
  assert (TXFIFO_log s3 = TXFIFO_log s) as D2.
  { unfold s3. destruct (negb (rf_receiving s2 =? 0)); fields;
      by rewrite C7. }
  assert (UartRxBuffer s3 = UartRxBuffer s2 /\
          UartRxBuffer_i s3 = UartRxBuffer_i s2 /\
          data_to_send s3 = data_to_send s2) as (D3 & D4 & D5).
  { unfold s3. by destruct (negb (rf_receiving s2 =? 0)). }
  clearbody s3. rewrite D1.
  rewrite load_0. change (tx !! 0%nat) with (Some (Z.of_nat len)).
  cbn [mbind option_bind].
  unfold RfTransmit. rewrite uchar_small by lia.
  assert (length tx = 35%nat) as Htxl.
  { unfold tx. cbn [length]. rewrite length_app, length_drop, Hmsg. lia. }
  rewrite Htxl.
  destruct (Z.leb_spec (Z.of_nat len + 1) (Z.of_nat 35)); [|lia].
  cbn [mbind option_bind].
  eexists. split; [done|].
  unfold ingress in *. fields. rewrite D2, D3, D4.
  fields in C1. fields in C2. fields in C3. fields in C4.
  rewrite B2 in *. rewrite B1 in *. rewrite B4 in *.
  split.
  { do 3 f_equal.
    replace (Z.to_nat (Z.of_nat len + 1)) with (S len) by lia.
    unfold tx. cbn [take]. f_equal.
    rewrite take_app_length' by done.
    unfold msg. rewrite take_take. f_equal. lia. }
  split; [done|]. split; [done|]. rewrite D5. done.
Qed.

(** C6: in a state with a well-formed receive buffer,
    - when the flush timer has fired, the message is the whole content of
      the receive buffer;
    - otherwise it ends just after the first terminator met from the start
      of the buffer (the scan covers the data_to_send first cells);
    - when bytes remain behind a message that fits the transmit frame, the
      frame [len][message] is handed to the radio, the remaining bytes move
      to the front in order, and data_to_send stays set.
    Hence "A\nB\n", received before any dispatch, leaves as the frames
    [2]['A','\n'] and [2]['B','\n'], in this order. *)
Theorem C6_dispatch :
  (forall s : modem,
     wf s -> 0 <= UartRxBuffer_i s <= UART_BUF_LEN -> data_to_send s <> 0 ->
     (uart_rx_timeout s = 1 ->
      fst <$> msg_len s = Some (UartRxBuffer_i s)) /\
     (uart_rx_timeout s <> 1 ->
      forall k : nat,
        UartRxBuffer s !! k = Some ch_nl ->
        (forall j, (j < k)%nat -> UartRxBuffer s !! j <> Some ch_nl) ->
        Z.of_nat k < data_to_send s ->
        fst <$> msg_len s = Some (Z.of_nat k + 1)) /\
     (forall len : nat,
        fst <$> msg_len s = Some (Z.of_nat len) ->
        (0 < len)%nat -> Z.of_nat len + 1 <= PACKET_LEN ->
        Z.of_nat len < UartRxBuffer_i s ->
        exists s',
          send_next_msg s = Some (0, s') /\
          TXFIFO_log s'
            = TXFIFO_log s ++ [Z.of_nat len :: take len (ingress s)] /\
          ingress s' = drop len (ingress s) /\
          data_to_send s' = data_to_send s /\ data_to_send s' <> 0)) /\
  (exists s1 s2,
     run [UartRx 65; UartRx ch_nl; UartRx 66; UartRx ch_nl] init
       = Some s1 /\
     ingress s1 = [65; ch_nl; 66; ch_nl] /\ TXFIFO_log s1 = [] /\
     run [Dispatch; RadioIrq 0 []; Dispatch] s1 = Some s2 /\
     TXFIFO_log s2 = [[2; 65; ch_nl]; [2; 66; ch_nl]] /\
     ingress s2 = []).
Proof.
  split.
  - intros s Hwf Hi Hd. split; [|split].
    + intros Ht. unfold msg_len. rewrite Ht. cbn [Z.eqb Pos.eqb fmap
        option_fmap option_map fst]. f_equal. unfold schar.
      unfold UART_BUF_LEN, PAYLOAD_LEN in Hi. rewrite Z.mod_small by lia.
      by destruct (Z.ltb_spec (UartRxBuffer_i s) 128); [|lia].
    + intros Ht k Hk Hfirst Hwin. unfold msg_len.
      destruct (Z.eqb_spec (uart_rx_timeout s) 1); [done|].
      destruct Hwf as (Hrx & _). unfold UART_BUF_LEN, PAYLOAD_LEN in Hrx.
      pose proof (lookup_lt_Some _ _ _ Hk) as Hlt.
      pose proof (find_newline_first (UartRxBuffer s) k Hk Hfirst
                    ltac:(lia) (Z.to_nat (data_to_send s)) 0%nat
                    ltac:(lia)) as Hf.
      change (Z.of_nat 0) with 0 in Hf. by rewrite Hf.
    + intros len Hm Hpos Hfit Hres.
      unfold PACKET_LEN, PAYLOAD_LEN in Hfit.
      destruct (send_next_msg_sends len s Hwf Hm)
        as (s' & Hs & Hlog & Hin & _ & Hkeep & _); [lia|lia|].
      exists s'. rewrite (Hkeep Hres). done.
  - eexists. eexists. split; [vm_compute; reflexivity|].
    split; [vm_compute; reflexivity|]. split; [reflexivity|].
    split; [vm_compute; reflexivity|].
    split; vm_compute; reflexivity.
Qed.

Lemma C6_dispatch_witness :
  fst <$> msg_len after_AnBn = Some 2 /\
  exists s',
    send_next_msg after_AnBn = Some (0, s') /\
    TXFIFO_log s' = TXFIFO_log after_AnBn ++ [2 :: take 2 (ingress after_AnBn)] /\
    ingress s' = drop 2 (ingress after_AnBn) /\
    data_to_send s' = data_to_send after_AnBn /\ data_to_send s' <> 0.
Proof.
  destruct (proj1 C6_dispatch after_AnBn) as (_ & Hscan & Hsend).
  - repeat split.
  - vm_compute; split; discriminate.
  - vm_compute; discriminate.
  - split.
    + apply (Hscan ltac:(vm_compute; discriminate) 1%nat).
      * reflexivity.
      * intros [|j] Hj; [vm_compute; discriminate|lia].
      * vm_compute; reflexivity.
    + apply (Hsend 2%nat).
      * reflexivity.
      * lia.
      * vm_compute; discriminate.
      * vm_compute; reflexivity.
Defined.

(** * Further properties of the code *)

(** ** Loops and arrays, continued *)

Lemma for_loop_invariant {S : Type} (P : S -> Prop)
    (body : Z -> S -> option S) (n : nat) :
  forall (x : Z) (s s' : S),
    (forall y t t', x <= y -> body y t = Some t' -> P t -> P t') ->
    for_loop n x body s = Some s' -> P s -> P s'.
Proof.
  induction n as [|n IH]; intros x s s' Hbody H Hs; cbn [for_loop] in H.
  - by injection H as <-.
  - destruct (body x s) as [t|] eqn:E; cbn [mbind option_bind] in H; [|done].
    apply (IH (x + 1) t s'); [|done|].
    + intros y u u' Hy. apply Hbody. lia.
    + apply (Hbody x s t); [lia|done|done].
Qed.

Lemma store_load (a a' : list Z) (i v : Z) :
  store a i v = Some a' -> load a' i = Some v.
Proof.
  unfold store, load. destruct ((0 <=? i) && (i <? Z.of_nat (length a))) eqn:E;
    [|done].
  intros [= <-]. rewrite length_insert, E.
  apply list_lookup_insert_eq.
  apply andb_true_iff in E as [E0 E]. apply Z.ltb_lt in E.
  apply Z.leb_le in E0. lia.
Qed.

Lemma store_inv (a a' : list Z) (i v : Z) :
  store a i v = Some a' ->
  0 <= i < Z.of_nat (length a) /\ a' = <[Z.to_nat i := v]> a.
Proof.
  unfold store. destruct (Z.leb_spec 0 i); cbn [andb]; [|done].
  destruct (Z.ltb_spec i (Z.of_nat (length a))); [|done].
  by intros [= <-].
Qed.

Lemma run_app (es1 es2 : list event) (s : modem) :
  run (es1 ++ es2) s = s' ← run es1 s; run es2 s'.
Proof.
  revert s. induction es1 as [|e es1 IH]; intros s; cbn [app run]; [done|].
  destruct (step e s); cbn [mbind option_bind]; [apply IH|done].
Qed.

(** ** sc_itoa: termination byte, bounds, overflow *)

Lemma sc_itoa_digits_length (n : nat) :
  forall (v str : Z) (mem mem' : list Z) (idx : Z),
    sc_itoa_digits n v str mem = Some (idx, mem') ->
    length mem' = length mem.
Proof.
  induction n as [|n IH]; intros v str mem mem' idx H;
    cbn [sc_itoa_digits] in H.
  - by injection H as _ <-.
  - destruct (store mem _ _) as [m|] eqn:E; cbn [mbind option_bind] in H;
      [|done].
    apply store_length in E. destruct (v <? 10).
    + injection H as _ <-. done.
    + apply IH in H. congruence.
Qed.

Lemma sc_itoa_length (v str len : Z) (mem mem' : list Z) (r : Z) :
  sc_itoa v str len mem = Some (r, mem') -> length mem' = length mem.
Proof.
  unfold sc_itoa. intros H.
  set (value := if v <? 0 then v * -1 else v) in H.
  assert (exists idx m1,
            (if len <=? 0 then Some (len - 1, mem)
             else sc_itoa_digits (Z.to_nat len) value str mem)
            = Some (idx, m1) /\ length m1 = length mem) as (idx & m1 & E & L1).
  { destruct (len <=? 0).
    - by eexists _, _.
    - destruct (sc_itoa_digits _ _ _ _) as [[i m]|] eqn:E; [|done].
      exists i, m. split; [done|]. by apply sc_itoa_digits_length in E. }
  rewrite E in H. cbn [mbind option_bind] in H.
  destruct ((idx <? 1) || ((v <? 0) && (idx <? 2))).
  - destruct (store m1 str 0) as [m|] eqn:E1; cbn [mbind option_bind] in H;
      [|done].
    injection H as _ <-. apply store_length in E1. congruence.
  - destruct (if v <? 0 then store m1 str ch_minus else Some m1)
      as [m2|] eqn:E2; cbn [mbind option_bind] in H; [|done].
    assert (length m2 = length m1) as L2.
    { destruct (v <? 0); [by apply store_length in E2|by injection E2 as <-]. }
    destruct (for_loop _ _ _ m2) as [m3|] eqn:E3;
      cbn [mbind option_bind] in H; [|done].
    assert (length m3 = length m2) as L3.
    { eapply (for_loop_invariant (λ m, length m = length m2));
        [|exact E3|done].
      intros y t t' _ Hb Ht. cbn beta in Hb |- *.
      destruct (load t _); cbn [mbind option_bind] in Hb; [|done].
      apply store_length in Hb. congruence. }
    destruct (store m3 _ 0) as [m4|] eqn:E4; cbn [mbind option_bind] in H;
      [|done].
    injection H as _ <-. apply store_length in E4. congruence.
Qed.

(** The text written by [sc_itoa] always ends where it says: the cell at
    the returned length holds the terminating zero, also when it reports an
    overflow by returning 0. *)
Lemma sc_itoa_terminated (v str len : Z) (mem mem' : list Z) (r : Z) :
  sc_itoa v str len mem = Some (r, mem') -> load mem' (str + r) = Some 0.
Proof.
  unfold sc_itoa. intros H.
  set (value := if v <? 0 then v * -1 else v) in H.
  destruct (if len <=? 0 then _ else _) as [[idx m1]|];
    cbn [mbind option_bind] in H; [|done].
  destruct ((idx <? 1) || ((v <? 0) && (idx <? 2))).
  - destruct (store m1 str 0) as [m|] eqn:E1; cbn [mbind option_bind] in H;
      [|done].
    injection H as <- <-. rewrite Z.add_0_r. by apply store_load in E1.
  - destruct (if v <? 0 then store _ _ _ else _) as [m2|];
      cbn [mbind option_bind] in H; [|done].
    destruct (for_loop _ _ _ m2) as [m3|]; cbn [mbind option_bind] in H;
      [|done].
    destruct (store m3 _ 0) as [m4|] eqn:E4; cbn [mbind option_bind] in H;
      [|done].
    injection H as <- <-. by apply store_load in E4.
Qed.

(** The digit loop stays inside its window of [n] cells. *)
Lemma sc_itoa_digits_frame (s : nat) (n : nat) :
  forall (v : Z) (mem : list Z),
    (s + n <= length mem)%nat ->
    exists idx mem',
      sc_itoa_digits n v (Z.of_nat s) mem = Some (idx, mem') /\
      -1 <= idx < Z.of_nat n /\
      take s mem' = take s mem /\
      drop (s + n) mem' = drop (s + n) mem.
Proof.
  induction n as [|n IH]; intros v mem Hlen; cbn [sc_itoa_digits].
  - eexists _, _. split; [done|]. split; [lia|done].
  - rewrite <- Nat2Z.inj_add, store_nat by lia. cbn [mbind option_bind].
    set (m1 := <[(s + n)%nat := _]> mem).
    assert (take s m1 = take s mem) as T1
      by (unfold m1; apply take_insert_ge; lia).
    assert (drop (s + S n) m1 = drop (s + S n) mem) as D1
      by (unfold m1; apply drop_insert_lt; lia).
    destruct (v <? 10).
    + eexists _, _. split; [done|]. split; [lia|done].
    + destruct (IH (Z.quot v 10) m1) as (idx & m' & -> & Hidx & T & D).
      { unfold m1. rewrite length_insert. lia. }
      exists idx, m'. split; [done|]. split; [lia|]. split; [congruence|].
      replace (s + S n)%nat with ((s + n) + 1)%nat in * by lia.
      rewrite <- (drop_drop m' 1 (s + n)), D, drop_drop. congruence.
Qed.

(** The move of the digits to the start of the window and the terminating
    zero (lines 677-683) stay inside the window too. *)
Lemma sc_itoa_move_frame (s len : nat) (idx st : Z) (m2 : list Z) :
  0 <= st < idx -> idx < Z.of_nat len ->
  (s + len <= length m2)%nat ->
  exists m3 m4,
    for_loop (Z.to_nat (Z.of_nat len - idx)) 0
      (λ i mem, c ← load mem (Z.of_nat s + (i + idx));
                store mem (Z.of_nat s + (i + st)) c) m2 = Some m3 /\
    store m3 (Z.of_nat s + (Z.of_nat len - idx + st)) 0 = Some m4 /\
    length m4 = length m2 /\
    take (s + Z.to_nat st) m4 = take (s + Z.to_nat st) m2 /\
    drop (s + len) m4 = drop (s + len) m2 /\
    take (len - Z.to_nat idx) (drop (s + Z.to_nat st) m4)
      = take (len - Z.to_nat idx) (drop (s + Z.to_nat idx) m2).
Proof.
  intros Hst Hidx Hlen.
  set (k := Z.to_nat idx). set (t := Z.to_nat st).
  rewrite (for_loop_ext _
    (λ y m, c ← load m (y + Z.of_nat (s + k));
            store m (y + Z.of_nat (s + t)) c)).
  2:{ intros y m.
      replace (Z.of_nat s + (y + idx)) with (y + Z.of_nat (s + k)) by lia.
      by replace (Z.of_nat s + (y + st)) with (y + Z.of_nat (s + t)) by lia. }
  replace (Z.to_nat (Z.of_nat len - idx)) with (len - k)%nat by lia.
  pose proof (shift_loop (s + k) (s + t) (len - k) ltac:(lia) 0%nat m2
                ltac:(lia)) as Hs.
  change (Z.of_nat 0) with 0 in Hs. rewrite Hs. clear Hs.
  change (0 + (s + t))%nat with (s + t)%nat.
  change (0 + (s + k))%nat with (s + k)%nat.
  set (A := take (s + t) m2).
  set (B := take (len - k) (drop (s + k) m2)).
  set (C := drop (s + t + (len - k)) m2).
  assert (length A = (s + t)%nat) as LA
    by (unfold A; rewrite length_take; lia).
  assert (length B = (len - k)%nat) as LB
    by (unfold B; rewrite length_take, length_drop; lia).
  assert (length C = (length m2 - (s + t + (len - k)))%nat) as LC
    by (unfold C; by rewrite length_drop).
  replace (Z.of_nat s + (Z.of_nat len - idx + st))
    with (Z.of_nat (s + t + (len - k))) by lia.
  exists (A ++ B ++ C), (<[(s + t + (len - k))%nat := 0]> (A ++ B ++ C)).
  split; [done|].
  split; [apply store_nat; rewrite !length_app; lia|].
  split; [rewrite length_insert, !length_app; lia|].
  split; [|split].
  - rewrite take_insert_ge by lia. by apply take_app_length'.
  - rewrite drop_insert_lt by lia.
    rewrite drop_app_ge by lia. rewrite drop_app_ge by lia.
    unfold C. rewrite drop_drop. f_equal. lia.
  - rewrite drop_insert_ge by lia.
    rewrite (drop_app_length' A) by done.
    rewrite take_insert_ge by lia.
    by apply take_app_length'.
Qed.

(** Given a window of at least one cell inside the array, the definition of
    [sc_itoa] has a result whatever the value; the result is smaller than
    the number of cells of the window, and every cell outside the window is
    as before. *)
Lemma sc_itoa_frame (v : Z) (s len : nat) (mem : list Z) :
  (1 <= len)%nat -> (s + len <= length mem)%nat ->
  exists r mem',
    sc_itoa v (Z.of_nat s) (Z.of_nat len) mem = Some (r, mem') /\
    0 <= r < Z.of_nat len /\
    length mem' = length mem /\
    take s mem' = take s mem /\
    drop (s + len) mem' = drop (s + len) mem.
Proof.
  intros Hpos Hlen. unfold sc_itoa.
  destruct (Z.leb_spec (Z.of_nat len) 0); [lia|]. rewrite Nat2Z.id.
  set (value := if v <? 0 then v * -1 else v).
  destruct (sc_itoa_digits_frame s len value mem Hlen)
    as (idx & m1 & E & Hidx & T1 & D1).
  rewrite E. cbn [mbind option_bind].
  pose proof (sc_itoa_digits_length _ _ _ _ _ _ E) as L1.
  destruct ((idx <? 1) || ((v <? 0) && (idx <? 2))) eqn:Eerr.
  - rewrite (store_nat m1 s) by lia. cbn [mbind option_bind].
    eexists _, _. split; [done|]. split; [lia|].
    split; [by rewrite length_insert|].
    split; [by rewrite take_insert_ge by lia|].
    by rewrite drop_insert_lt by lia.
  - apply orb_false_iff in Eerr as [E1 E2]. apply Z.ltb_ge in E1.
    destruct (Z.ltb_spec v 0) as [Hneg|Hneg]; cbn [andb] in E2.
    + apply Z.ltb_ge in E2.
      rewrite (store_nat m1 s) by lia. cbn [mbind option_bind].
      set (m2 := <[s := ch_minus]> m1).
      destruct (sc_itoa_move_frame s len idx 1 m2)
        as (m3 & m4 & -> & E4 & L4 & T4 & D4 & _);
        [lia|lia|unfold m2; rewrite length_insert; lia|].
      cbn [mbind option_bind]. rewrite E4. cbn [mbind option_bind].
      eexists _, _. split; [done|]. split; [lia|].
      unfold m2 in *. rewrite length_insert in L4.
      split; [congruence|]. split.
      * transitivity (take s (take (s + Z.to_nat 1) m4)).
        { rewrite take_take. f_equal. lia. }
        rewrite T4, take_take.
        replace (s `min` (s + Z.to_nat 1))%nat with s by lia.
        rewrite take_insert_ge by lia. done.
      * rewrite D4, drop_insert_lt by lia. done.
    + cbn [mbind option_bind].
      destruct (sc_itoa_move_frame s len idx 0 m1)
        as (m3 & m4 & -> & E4 & L4 & T4 & D4 & _); [lia|lia|lia|].
      cbn [mbind option_bind]. rewrite E4. cbn [mbind option_bind].
      eexists _, _. split; [done|]. split; [lia|].
      split; [congruence|]. split; [|congruence].
      change (Z.to_nat 0) with 0%nat in T4. rewrite Nat.add_0_r in T4.
      congruence.
Qed.

(** The famous off-by-one of an empty window: with [len = 0] the helper
    still writes its terminating zero at [str]. *)
Lemma sc_itoa_empty_window (v : Z) (s : nat) (mem : list Z) :
  (s < length mem)%nat ->
  sc_itoa v (Z.of_nat s) 0 mem = Some (0, <[s := 0]> mem).
Proof.
  intros Hs. unfold sc_itoa. cbn [Z.leb Z.compare mbind option_bind].
  change (0 - 1 <? 1) with true. cbn [orb].
  by rewrite store_nat.
Qed.

(** A value of more than [n] digits exhausts a window of [n] cells. *)
Lemma sc_itoa_digits_exhaust (n : nat) :
  forall (v str : Z) (mem mem' : list Z) (idx : Z),
    10 ^ Z.of_nat n <= v ->
    sc_itoa_digits n v str mem = Some (idx, mem') -> idx = -1.
Proof.
  induction n as [|n IH]; intros v str mem mem' idx Hv H;
    cbn [sc_itoa_digits] in H.
  - by injection H as <- _.
  - rewrite Nat2Z.inj_succ, Z.pow_succ_r in Hv by lia.
    assert (0 < 10 ^ Z.of_nat n) by (apply Z.pow_pos_nonneg; lia).
    destruct (store mem _ _) as [m|]; cbn [mbind option_bind] in H; [|done].
    destruct (Z.ltb_spec v 10); [lia|].
    apply IH in H; [done|].
    rewrite Z.quot_div_nonneg by lia. apply Z.div_le_lower_bound; lia.
Qed.

(** A byte whose decimal text does not leave a free cell in the window is
    reported as an overflow: the result is 0. *)
Lemma sc_itoa_overflow (v : Z) (s len : nat) (mem : list Z) :
  is_byte v ->
  (1 <= len <= length (decimal v))%nat ->
  (s + len <= length mem)%nat ->
  exists mem',
    sc_itoa v (Z.of_nat s) (Z.of_nat len) mem = Some (0, mem') /\
    length mem' = length mem /\
    take s mem' = take s mem /\
    drop (s + len) mem' = drop (s + len) mem.
Proof.
  intros Hv Hd Hlen.
  destruct (sc_itoa_frame v s len mem) as (r & mem' & E & _ & L & T & D);
    [lia|done|].
  exists mem'. split; [|done]. rewrite E. do 2 f_equal.
  unfold sc_itoa in E.
  destruct (Z.leb_spec (Z.of_nat len) 0); [lia|]. rewrite Nat2Z.id in E.
  destruct (Z.ltb_spec v 0); [destruct Hv; lia|].
  destruct (sc_itoa_digits len v (Z.of_nat s) mem) as [[idx m1]|] eqn:Ed;
    cbn [mbind option_bind] in E; [|done].
  assert (idx < 1) as Hidx.
  { destruct (decide (len = length (decimal v))) as [->|Hne].
    - pose proof (sc_itoa_digits_spec v s 0 mem Hv ltac:(lia)) as Hs.
      rewrite Nat.add_0_r in Hs. rewrite Hs in Ed. injection Ed as <- _.
      lia.
    - apply sc_itoa_digits_exhaust in Ed; [lia|].
      destruct Hv as [Hv0 Hv1]. revert Hd Hne. unfold decimal.
      destruct (Z.ltb_spec v 10); [cbn [length]; lia|].
      destruct (Z.ltb_spec v 100); cbn [length]; intros Hd Hne.
      + assert (len = 1%nat) as -> by lia. simpl. lia.
      + assert (len = 1%nat \/ len = 2%nat) as [-> | ->] by lia; simpl; lia. }
  destruct (Z.ltb_spec idx 1); [|lia]. cbn [orb] in E.
  destruct (store m1 _ 0); cbn [mbind option_bind] in E; [|done].
  by injection E as <- _.
Qed.

(** X1: whenever [sc_itoa] returns, the cell of the destination at the
    returned length holds the terminating zero; this covers the overflow
    report, where the length is 0. *)
Theorem sc_itoa_result_terminated
    (v str len : Z) (mem mem' : list Z) (r : Z) :
  sc_itoa v str len mem = Some (r, mem') -> load mem' (str + r) = Some 0.
Proof. apply sc_itoa_terminated. Qed.

Lemma sc_itoa_result_terminated_witness :
  load [49; 50; 51; 0; 50; 51] (0 + 3) = Some 0.
Proof.
  apply (sc_itoa_result_terminated 123 0 6 [7; 7; 7; 7; 7; 7]).
  vm_compute; reflexivity.
Defined.

(** X2: for every value of a 16-bit [int] other than the least one, whose
    negation on line 650 overflows, and every [int] length: given a window
    of at least one cell that lies inside the array, [sc_itoa] returns,
    reports fewer characters than the window has cells, keeps the size of
    the array and leaves every cell outside the window as it was.  With an
    empty window ([len = 0]) it still writes the terminating zero at [str],
    one cell past the window. *)
Theorem sc_itoa_stays_in_window (v : Z) (s len : nat) (mem : list Z) :
  -32768 < v < 32768 -> Z.of_nat len < 32768 ->
  ((1 <= len)%nat -> (s + len <= length mem)%nat ->
   exists r mem',
     sc_itoa v (Z.of_nat s) (Z.of_nat len) mem = Some (r, mem') /\
     0 <= r < Z.of_nat len /\
     length mem' = length mem /\
     take s mem' = take s mem /\
     drop (s + len) mem' = drop (s + len) mem) /\
  ((s < length mem)%nat ->
   sc_itoa v (Z.of_nat s) 0 mem = Some (0, <[s := 0]> mem)).
Proof.
  intros _ _. split; [apply sc_itoa_frame|apply sc_itoa_empty_window].
Qed.

Lemma sc_itoa_stays_in_window_witness :
  (exists r mem',
     sc_itoa (-45) (Z.of_nat 1) (Z.of_nat 4) [7; 7; 7; 7; 7; 7]
       = Some (r, mem') /\
     0 <= r < Z.of_nat 4 /\
     length mem' = length [7; 7; 7; 7; 7; 7] /\
     take 1 mem' = take 1 [7; 7; 7; 7; 7; 7] /\
     drop (1 + 4) mem' = drop (1 + 4) [7; 7; 7; 7; 7; 7]) /\
  sc_itoa 200 (Z.of_nat 2) 0 [7; 7; 7] = Some (0, <[2%nat := 0]> [7; 7; 7]).
Proof.
  split.
  - apply (sc_itoa_stays_in_window (-45) 1 4 [7; 7; 7; 7; 7; 7]);
      simpl; lia.
  - apply (sc_itoa_stays_in_window 200 2 0 [7; 7; 7]); simpl; lia.
Defined.

(** X3: for a byte and a window of at least one cell inside the array,
    [sc_itoa] either reports an overflow by returning 0, which it does
    exactly when the window has no more cells than the decimal text has
    digits, or returns the number of digits and leaves the decimal text at
    the start of the window. *)
Theorem sc_itoa_byte (v : Z) (s len : nat) (mem : list Z) :
  is_byte v ->
  (1 <= len)%nat -> (s + len <= length mem)%nat ->
  exists r mem',
    sc_itoa v (Z.of_nat s) (Z.of_nat len) mem = Some (r, mem') /\
    take s mem' = take s mem /\
    (((len <= length (decimal v))%nat /\ r = 0) \/
     ((length (decimal v) < len)%nat /\
      r = Z.of_nat (length (decimal v)) /\
      take (s + length (decimal v)) mem' = take s mem ++ decimal v)).
Proof.
  intros Hv Hpos Hlen.
  destruct (le_lt_dec len (length (decimal v))) as [Hle|Hgt].
  - destruct (sc_itoa_overflow v s len mem) as (mem' & E & _ & T & _);
      [done|lia|done|].
    exists 0, mem'. split; [done|]. split; [done|]. by left.
  - destruct (sc_itoa_spec v s len mem) as (mem' & E & L & T);
      [done|lia|done|].
    exists (Z.of_nat (length (decimal v))), mem'. split; [done|]. split.
    + transitivity (take s (take (s + length (decimal v)) mem')).
      { rewrite take_take. f_equal. lia. }
      rewrite T, take_app_le by (rewrite length_take; lia).
      rewrite take_take. f_equal. lia.
    + right. done.
Qed.

Lemma sc_itoa_byte_witness :
  (exists r mem',
     sc_itoa 200 (Z.of_nat 1) (Z.of_nat 3) [7; 7; 7; 7; 7] = Some (r, mem') /\
     take 1 mem' = take 1 [7; 7; 7; 7; 7] /\
     (((3 <= length (decimal 200))%nat /\ r = 0) \/
      ((length (decimal 200) < 3)%nat /\
       r = Z.of_nat (length (decimal 200)) /\
       take (1 + length (decimal 200)) mem'
         = take 1 [7; 7; 7; 7; 7] ++ decimal 200))) /\
  (exists r mem',
     sc_itoa 50 (Z.of_nat 1) (Z.of_nat 3) [7; 7; 7; 7; 7] = Some (r, mem') /\
     take 1 mem' = take 1 [7; 7; 7; 7; 7] /\
     (((3 <= length (decimal 50))%nat /\ r = 0) \/
      ((length (decimal 50) < 3)%nat /\
       r = Z.of_nat (length (decimal 50)) /\
       take (1 + length (decimal 50)) mem'
         = take 1 [7; 7; 7; 7; 7] ++ decimal 50))).
Proof.
  split.
  - apply (sc_itoa_byte 200 1 3 [7; 7; 7; 7; 7]);
      [unfold is_byte; lia|lia|simpl; lia].
  - apply (sc_itoa_byte 50 1 3 [7; 7; 7; 7; 7]);
      [unfold is_byte; lia|lia|simpl; lia].
Defined.

(** X4: a negative value whose magnitude is a byte is written as a minus
    sign followed by the decimal text of the magnitude, and the result counts
    the sign, when the window has at least two cells more than the text has
    digits; with exactly one cell more, enough for the same number without
    its sign, [sc_itoa] reports an overflow. *)
Theorem sc_itoa_negative (v : Z) (s len : nat) (mem : list Z) :
  -256 < v < 0 ->
  (length (decimal (- v)) + 1 <= len)%nat ->
  (s + len <= length mem)%nat ->
  exists r mem',
    sc_itoa v (Z.of_nat s) (Z.of_nat len) mem = Some (r, mem') /\
    ((len = length (decimal (- v)) + 1)%nat -> r = 0) /\
    ((length (decimal (- v)) + 2 <= len)%nat ->
     r = Z.of_nat (length (decimal (- v))) + 1 /\
     take (s + length (decimal (- v)) + 1) mem'
       = take s mem ++ [ch_minus] ++ decimal (- v)).
Proof.
  intros Hv Hd Hlen. pose proof (decimal_length (- v)) as Hd1.
  set (d := length (decimal (- v))) in *.
  destruct (Nat.le_exists_sub d len) as [k [-> _]]; [lia|].
  assert (is_byte (- v)) as Hb by (unfold is_byte; lia).
  unfold sc_itoa.
  destruct (Z.ltb_spec v 0); [|lia].
  destruct (Z.leb_spec (Z.of_nat (k + d)) 0); [lia|].
  rewrite Nat2Z.id, (Nat.add_comm k d).
  replace (v * -1) with (- v) by lia. subst d.
  rewrite sc_itoa_digits_spec by (done || lia).
  set (d := length (decimal (- v))) in *.
  set (m1 := take (s + k) mem ++ decimal (- v) ++ drop (s + k + d) mem).
  assert (length m1 = length mem) as Hm1.
  { unfold m1. rewrite !length_app, length_take, length_drop. fold d. lia. }
  cbn [mbind option_bind andb].
  destruct (decide (k = 1%nat)) as [->|Hk].
  - change (Z.of_nat 1 <? 1) with false. change (Z.of_nat 1 <? 2) with true.
    cbn [orb]. rewrite (store_nat m1 s) by lia. cbn [mbind option_bind].
    eexists _, _. split; [done|]. split; [done|lia].
  - destruct (Z.ltb_spec (Z.of_nat k) 1); [lia|].
    destruct (Z.ltb_spec (Z.of_nat k) 2); [lia|]. cbn [orb].
    rewrite (store_nat m1 s) by lia. cbn [mbind option_bind].
    set (m2 := <[s := ch_minus]> m1).
    destruct (sc_itoa_move_frame s (d + k) (Z.of_nat k) 1 m2)
      as (m3 & m4 & -> & E4 & L4 & T4 & _ & M4);
      [lia|lia|unfold m2; rewrite length_insert; lia|].
    cbn [mbind option_bind]. rewrite E4. cbn [mbind option_bind].
    eexists _, _. split; [done|]. split; [lia|]. intros _.
    split; [lia|].
    change (Z.to_nat 1) with 1%nat in *. rewrite Nat2Z.id in M4.
    replace (d + k - k)%nat with d in M4 by lia.
    replace (s + d + 1)%nat with ((s + 1) + d)%nat by lia.
    rewrite <- take_take_drop, T4, M4.
    unfold m2. rewrite drop_insert_lt by lia.
    replace (s + 1)%nat with (S s) by lia.
    rewrite take_S_insert by lia.
    unfold m1.
    rewrite take_app_le by (rewrite length_take; lia).
    rewrite take_take. replace (s `min` (s + k))%nat with s by lia.
    rewrite drop_app_length' by (rewrite length_take; lia).
    rewrite take_app_length' by done.
    by rewrite <- app_assoc.
Qed.

Lemma sc_itoa_negative_witness :
  exists r mem',
    sc_itoa (-45) (Z.of_nat 1) (Z.of_nat 5) [7; 7; 7; 7; 7; 7]
      = Some (r, mem') /\
    ((5 = length (decimal (- -45)) + 1)%nat -> r = 0) /\
    ((length (decimal (- -45)) + 2 <= 5)%nat ->
     r = Z.of_nat (length (decimal (- -45))) + 1 /\
     take (1 + length (decimal (- -45)) + 1) mem'
       = take 1 [7; 7; 7; 7; 7; 7] ++ [ch_minus] ++ decimal (- -45)).
Proof.
  apply (sc_itoa_negative (-45) 1 5 [7; 7; 7; 7; 7; 7]).
  - lia.
  - simpl; lia.
  - simpl; lia.
Defined.

(** ** The receive handler: what it touches *)

(** A DEBUG block changes the UART transmit buffer and its length only. *)
Lemma put_decimal_frame (v sep : Z) (s s' : modem) :
  put_decimal v sep s = Some s' ->
  exists tx L,
    s' = set_UartTxBufferLength L (set_UartTxBuffer tx s) /\
    length tx = length (UartTxBuffer s).
Proof.
  unfold put_decimal. intros H.
  destruct (sc_itoa _ _ _ _) as [[len tx]|] eqn:E;
    cbn [mbind option_bind] in H; [|done].
  apply sc_itoa_length in E.
  destruct (len =? 0).
  - destruct (store tx _ ch_X) as [tx1|] eqn:E1;
      cbn [mbind option_bind] in H; [|done].
    destruct (store tx1 _ sep) as [tx2|] eqn:E2;
      cbn [mbind option_bind] in H; [|done].
    injection H as <-. eexists _, _. split; [done|].
    apply store_length in E1, E2. congruence.
  - cbn [mbind option_bind] in H.
    destruct (store tx _ sep) as [tx2|] eqn:E2;
      cbn [mbind option_bind] in H; [|done].
    injection H as <-. eexists _, _. split; [done|].
    apply store_length in E2. congruence.
Qed.

(** With room for two cells but not for the number and its separator, a
    DEBUG block appends the placeholder and the separator. *)
Lemma put_decimal_placeholder (v sep : Z) (s : modem) (l : nat) :
  is_byte v ->
  UartTxBufferLength s = Z.of_nat l ->
  length (UartTxBuffer s) = 96%nat ->
  (l + 2 <= 96)%nat -> (96 < l + length (decimal v) + 1)%nat ->
  exists s',
    put_decimal v sep s = Some s' /\
    egress s' = egress s ++ [ch_X; sep] /\
    UartTxBufferLength s' = Z.of_nat l + 2.
Proof.
  intros Hv EL Hlen Hroom Hshort. unfold put_decimal.
  rewrite EL. unfold UART_BUF_LEN, PAYLOAD_LEN.
  rewrite uchar_small by lia.
  replace (32 * 3 - Z.of_nat l) with (Z.of_nat (96 - l)) by lia.
  destruct (sc_itoa_overflow v l (96 - l) (UartTxBuffer s))
    as (m & -> & Lm & Tm & _); [done|lia|lia|].
  cbn [mbind option_bind Z.eqb].
  rewrite (store_nat m l) by lia. cbn [mbind option_bind].
  replace (Z.of_nat l + (0 + 1)) with (Z.of_nat (S l)) by lia.
  rewrite store_nat by (rewrite length_insert; lia).
  cbn [mbind option_bind]. rewrite uchar_small by lia.
  eexists. split; [done|]. unfold egress. fields. rewrite EL, Nat2Z.id.
  split; [|lia].
  replace (Z.to_nat (Z.of_nat l + (0 + 1 + 1))) with (S (S l)) by lia.
  rewrite take_S_insert by (rewrite length_insert; lia).
  rewrite take_S_insert by lia. rewrite Tm. by rewrite <- app_assoc.
Qed.

(** X5: when the decimal text of a byte and its separator do not fit what
    is left of the UART transmit buffer, but two cells are left, the DEBUG
    block appends the placeholder 'X' and the separator instead, and the
    buffer stays within its capacity. *)
Theorem put_decimal_overflow (v sep : Z) (s : modem) :
  is_byte v ->
  length (UartTxBuffer s) = Z.to_nat UART_BUF_LEN ->
  0 <= UartTxBufferLength s ->
  UartTxBufferLength s + 2 <= UART_BUF_LEN ->
  UART_BUF_LEN
    < UartTxBufferLength s + Z.of_nat (length (decimal v)) + 1 ->
  exists s',
    put_decimal v sep s = Some s' /\
    egress s' = egress s ++ [ch_X; sep] /\
    UartTxBufferLength s' = UartTxBufferLength s + 2 /\
    UartTxBufferLength s' <= UART_BUF_LEN.
Proof.
  unfold UART_BUF_LEN, PAYLOAD_LEN. intros Hv Hlen H0 Hroom Hshort.
  destruct (put_decimal_placeholder v sep s
              (Z.to_nat (UartTxBufferLength s)))
    as (s' & E & Eg & EL); [done|lia|exact Hlen|lia|lia|].
  exists s'. split; [done|]. split; [done|]. lia.
Qed.

Lemma put_decimal_overflow_witness :
  exists s',
    put_decimal 200 ch_nl (egress_filled 94) = Some s' /\
    egress s' = egress (egress_filled 94) ++ [ch_X; ch_nl] /\
    UartTxBufferLength s' = UartTxBufferLength (egress_filled 94) + 2 /\
    UartTxBufferLength s' <= UART_BUF_LEN.
Proof.
  apply (put_decimal_overflow 200 ch_nl (egress_filled 94)).
  - unfold is_byte; lia.
  - reflexivity.
  - vm_compute; discriminate.
  - vm_compute; discriminate.
  - vm_compute; reflexivity.
Defined.

Ltac exit_case :=
  repeat match goal with
    | |- _ /\ _ => split
    | |- _ -> _ => intros ?
    | H : _ \/ _ |- _ => destruct H
    end; try done.

(** Every exit of the receive handler, with what it has and has not done. *)
Lemma handle_rf_rx_packet_inv
    (RxStatus : Z) (fifo : list Z) (s s' : modem) (o : rx_outcome) :
  handle_rf_rx_packet RxStatus fifo s = Some (o, s') ->
  (UartRxBuffer s' = UartRxBuffer s /\
   UartRxBuffer_i s' = UartRxBuffer_i s /\
   data_to_send s' = data_to_send s /\
   uart_rx_timeout s' = uart_rx_timeout s /\
   TA1_running s' = TA1_running s /\
   RfTxBuffer s' = RfTxBuffer s /\
   TXFIFO_log s' = TXFIFO_log s /\
   rf_transmitting s' = rf_transmitting s /\
   rf_receiving s' = 0 /\
   UartTxBuffer_i s' = UartTxBuffer_i s /\
   length (UartTxBuffer s') = length (UartTxBuffer s) /\
   length (RfRxBuffer s') = length (RfRxBuffer s)) /\
  (o <> RxDelivered ->
   UartTxBuffer s' = UartTxBuffer s /\
   UartTxBufferLength s' = UartTxBufferLength s /\
   UCA0TXBUF_log s' = UCA0TXBUF_log s /\
   RfRxBufferLength s' = 0) /\
  (o = RxDelivered \/ o = RxNoSpace ->
   Z.land RxStatus CC430_STATE_MASK = CC430_STATE_IDLE /\
   (5 <= length fifo)%nat /\
   (exists c, fifo !! (length fifo - 1)%nat = Some c /\
              Z.land c CRC_OK <> 0) /\
   rf_error s' = rf_error s) /\
  (o = RxDelivered ->
   exists b, UCA0TXBUF_log s' = UCA0TXBUF_log s ++ [b] /\
             load (UartTxBuffer s') (UartTxBuffer_i s) = Some b) /\
  (o = RxStateError \/ o = RxShort \/ o = RxCrcError -> rf_error s' = 1).
Proof.
  unfold handle_rf_rx_packet. intros H.
  destruct (Z.eqb_spec (Z.land RxStatus CC430_STATE_MASK) CC430_STATE_IDLE)
    as [Hst|Hst]; cbn [negb] in H.
  2:{ injection H as <- <-.
      exit_case. }
  fields in H. unfold RXBYTES in H.
  destruct (Z.ltb_spec (Z.of_nat (length fifo)) 5) as [Hn|Hn].
  { injection H as <- <-.
    exit_case. }
  unfold ReadBurstReg in H.
  destruct (Z.leb_spec (Z.of_nat (length fifo))
              (Z.of_nat (length (RfRxBuffer s)))) as [Hfit|Hfit];
    cbn [mbind option_bind] in H; [|done].
  rewrite Nat2Z.id, firstn_all in H. fields in H.
  set (rb := fifo ++ drop (length fifo) (RfRxBuffer s)) in H.
  assert (length rb = length (RfRxBuffer s)) as Lrb
    by (unfold rb; rewrite length_app, length_drop; lia).
  replace (Z.of_nat (length fifo) - 1)
    with (Z.of_nat (length fifo - 1)) in H by lia.
  rewrite load_nat in H.
  assert (rb !! (length fifo - 1)%nat = fifo !! (length fifo - 1)%nat)
    as Ecrc by (unfold rb; apply lookup_app_l; lia).
  rewrite Ecrc in H.
  destruct (fifo !! (length fifo - 1)%nat) as [c|] eqn:Ec;
    cbn [mbind option_bind] in H; [|done].
  destruct (Z.eqb_spec (Z.land c CRC_OK) 0) as [Hc|Hc].
  { injection H as <- <-.
    exit_case. }
  destruct (_ >? UART_BUF_LEN).
  { injection H as <- <-.
    exit_case; (lia || by exists c). }
  destruct (for_loop _ _ _ _) as [tx|] eqn:Etx;
    cbn [mbind option_bind] in H; [|done].
  assert (length tx = length (UartTxBuffer s)) as Ltx.
  { eapply (for_loop_invariant (λ m, length m = length (UartTxBuffer s)));
      [|exact Etx|done].
    intros y t t' _ Hb Ht. cbn beta in Hb |- *.
    destruct (load rb (y + 1)); cbn [mbind option_bind] in Hb; [|done].
    apply store_length in Hb. congruence. }
  fields in H.
  destruct (load rb (Z.of_nat (length fifo) - 2)) as [rssi|];
    cbn [mbind option_bind] in H; [|done].
  destruct (put_decimal rssi ch_sp _) as [s1|] eqn:E1;
    cbn [mbind option_bind] in H; [|done].
  apply put_decimal_frame in E1 as (tx1 & L1 & -> & Ltx1).
  fields in H. fields in Ltx1.
  replace (Z.of_nat (length fifo) - 1)
    with (Z.of_nat (length fifo - 1)) in H by lia.
  rewrite load_nat, Ecrc in H. cbn [mbind option_bind] in H.
  destruct (put_decimal c ch_nl _) as [s2|] eqn:E2;
    cbn [mbind option_bind] in H; [|done].
  apply put_decimal_frame in E2 as (tx2 & L2 & -> & Ltx2).
  fields in H. fields in Ltx2.
  destruct (load tx2 (UartTxBuffer_i s)) as [b|] eqn:Eb;
    cbn [mbind option_bind] in H; [|done].
  injection H as <- <-. fields.
  exit_case; try (congruence || lia); ((by exists c) || (by exists b)).
Qed.

(** X6: whatever the receive handler is given, it leaves the serial
    receive side (buffer, fill level, pending mark, timeout flag, timer),
    the transmit frame and rf_transmitting alone and clears rf_receiving.
    It hands a byte to the UART and changes the UART transmit buffer only
    on the exit that delivers, which it takes only when the radio is idle,
    the frame has at least 5 bytes and CRC_OK is set in its last byte; on
    the three error exits rf_error is set, on the other two it is kept. *)
Theorem handle_rf_rx_packet_exits
    (RxStatus : Z) (fifo : list Z) (s s' : modem) (o : rx_outcome) :
  handle_rf_rx_packet RxStatus fifo s = Some (o, s') ->
  (ingress s' = ingress s /\ data_to_send s' = data_to_send s /\
   uart_rx_timeout s' = uart_rx_timeout s /\
   TA1_running s' = TA1_running s /\
   RfTxBuffer s' = RfTxBuffer s /\ TXFIFO_log s' = TXFIFO_log s /\
   rf_transmitting s' = rf_transmitting s /\ rf_receiving s' = 0) /\
  (o <> RxDelivered ->
   egress s' = egress s /\ UartTxBuffer s' = UartTxBuffer s /\
   UCA0TXBUF_log s' = UCA0TXBUF_log s /\ RfRxBufferLength s' = 0) /\
  (o = RxDelivered \/ o = RxNoSpace ->
   Z.land RxStatus CC430_STATE_MASK = CC430_STATE_IDLE /\
   (5 <= length fifo)%nat /\
   (exists c, fifo !! (length fifo - 1)%nat = Some c /\
              Z.land c CRC_OK <> 0) /\
   rf_error s' = rf_error s) /\
  (o = RxStateError \/ o = RxShort \/ o = RxCrcError -> rf_error s' = 1).
Proof.
  intros H. apply handle_rf_rx_packet_inv in H
    as ((B & Bi & D & T & R & TX & LOG & F1 & F2 & _) & Hno & Hok & _ & Herr).
  split; [|split; [|split]]; try done.
  - unfold ingress. rewrite B, Bi. done.
  - intros Ho. destruct (Hno Ho) as (E1 & E2 & E3 & E4).
    unfold egress. rewrite E1, E2. done.
Qed.

Lemma handle_rf_rx_packet_exits_witness :
  exists s',
    handle_rf_rx_packet 16 [2; 65; ch_nl; 50; 200] (egress_filled 95)
      = Some (RxStateError, s') /\
    (ingress s' = ingress (egress_filled 95) /\
     data_to_send s' = data_to_send (egress_filled 95) /\
     uart_rx_timeout s' = uart_rx_timeout (egress_filled 95) /\
     TA1_running s' = TA1_running (egress_filled 95) /\
     RfTxBuffer s' = RfTxBuffer (egress_filled 95) /\
     TXFIFO_log s' = TXFIFO_log (egress_filled 95) /\
     rf_transmitting s' = rf_transmitting (egress_filled 95) /\
     rf_receiving s' = 0) /\
    (RxStateError <> RxDelivered ->
     egress s' = egress (egress_filled 95) /\
     UartTxBuffer s' = UartTxBuffer (egress_filled 95) /\
     UCA0TXBUF_log s' = UCA0TXBUF_log (egress_filled 95) /\
     RfRxBufferLength s' = 0) /\
    (RxStateError = RxDelivered \/ RxStateError = RxNoSpace ->
     Z.land 16 CC430_STATE_MASK = CC430_STATE_IDLE /\
     (5 <= 5)%nat /\
     (exists c,
        [2; 65; ch_nl; 50; 200] !! 4%nat = Some c /\
        Z.land c CRC_OK <> 0) /\
     rf_error s' = rf_error (egress_filled 95)) /\
    (RxStateError = RxStateError \/ RxStateError = RxShort
     \/ RxStateError = RxCrcError -> rf_error s' = 1).
Proof.
  eexists. split; [vm_compute; reflexivity|].
  apply (handle_rf_rx_packet_exits 16 [2; 65; ch_nl; 50; 200]
           (egress_filled 95)).
  vm_compute; reflexivity.
Defined.

(** ** The UART transmit interrupt: draining the buffer (lines 443-458) *)

(** One transmit interrupt with bytes still to send. *)
Lemma drain_step (s : modem) :
  length (UartTxBuffer s) = 96%nat ->
  0 <= UartTxBuffer_i s -> UartTxBuffer_i s + 1 < UartTxBufferLength s ->
  UartTxBufferLength s <= 96 ->
  exists b s',
    step UartTxReady s = Some s' /\
    UartTxBuffer s !! Z.to_nat (UartTxBuffer_i s + 1) = Some b /\
    UartTxBuffer s' = UartTxBuffer s /\
    UartTxBuffer_i s' = UartTxBuffer_i s + 1 /\
    UartTxBufferLength s' = UartTxBufferLength s /\
    UCA0TXBUF_log s' = UCA0TXBUF_log s ++ [b].
Proof.
  intros Hlen H0 Hi HL. cbn [step]. unfold USCI_A0_ISR. cbn [Z.eqb Pos.eqb].
  destruct (Z.eqb_spec (UartTxBufferLength s) 0); [lia|]. fields.
  rewrite uchar_small by lia.
  destruct (Z.eqb_spec (UartTxBuffer_i s + 1) (UartTxBufferLength s)); [lia|].
  destruct (lookup_lt_is_Some_2 (UartTxBuffer s)
              (Z.to_nat (UartTxBuffer_i s + 1))) as [b Hb]; [lia|].
  rewrite load_Z, Hb by lia. cbn [mbind option_bind fmap option_fmap
    option_map fst].
  by exists b; eexists.
Qed.

(** The transmit interrupt that finds nothing left resets the buffer. *)
Lemma drain_last (s : modem) :
  0 <= UartTxBuffer_i s -> UartTxBuffer_i s + 1 = UartTxBufferLength s ->
  UartTxBufferLength s <= 96 ->
  exists s',
    step UartTxReady s = Some s' /\
    UartTxBuffer_i s' = 0 /\ UartTxBufferLength s' = 0 /\
    UCA0TXBUF_log s' = UCA0TXBUF_log s.
Proof.
  intros H0 Hi HL. cbn [step]. unfold USCI_A0_ISR. cbn [Z.eqb Pos.eqb].
  destruct (Z.eqb_spec (UartTxBufferLength s) 0); [lia|]. fields.
  rewrite uchar_small by lia.
  destruct (Z.eqb_spec (UartTxBuffer_i s + 1) (UartTxBufferLength s)); [|lia].
  cbn [mbind option_bind fmap option_fmap option_map fst].
  by eexists.
Qed.

Lemma drain_run (k : nat) :
  forall s : modem,
    length (UartTxBuffer s) = 96%nat ->
    0 <= UartTxBuffer_i s ->
    UartTxBuffer_i s + Z.of_nat k < UartTxBufferLength s ->
    UartTxBufferLength s <= 96 ->
    exists s',
      run (replicate k UartTxReady) s = Some s' /\
      UartTxBuffer s' = UartTxBuffer s /\
      UartTxBuffer_i s' = UartTxBuffer_i s + Z.of_nat k /\
      UartTxBufferLength s' = UartTxBufferLength s /\
      UCA0TXBUF_log s'
        = UCA0TXBUF_log s
            ++ take k (drop (Z.to_nat (UartTxBuffer_i s) + 1)
                            (UartTxBuffer s)).
Proof.
  induction k as [|k IH]; intros s Hlen H0 Hi HL.
  - exists s. cbn [replicate run take]. rewrite app_nil_r, Z.add_0_r. done.
  - destruct (drain_step s) as (b & s1 & E & Hb & B1 & I1 & L1 & G1);
      [done|done|lia|done|].
    destruct (IH s1) as (s' & E' & B' & I' & L' & G');
      [congruence|lia|lia|lia|].
    exists s'. cbn [replicate run]. rewrite E. cbn [mbind option_bind].
    split; [done|]. split; [congruence|]. split; [lia|].
    split; [congruence|].
    rewrite G', G1, B1, I1, <- app_assoc. f_equal.
    replace (Z.to_nat (UartTxBuffer_i s + 1))
      with (Z.to_nat (UartTxBuffer_i s) + 1)%nat in * by lia.
    rewrite (drop_S _ _ _ Hb). cbn [take app]. do 3 f_equal. lia.
Qed.

(** From a cursor inside a non-empty buffer, as many transmit interrupts
    as bytes are left send the bytes behind the cursor, in order, and the
    last one resets cursor and length. *)
Lemma drain_all (s : modem) :
  length (UartTxBuffer s) = 96%nat ->
  0 <= UartTxBuffer_i s < UartTxBufferLength s ->
  UartTxBufferLength s <= 96 ->
  exists s',
    run (replicate (Z.to_nat (UartTxBufferLength s - UartTxBuffer_i s))
           UartTxReady) s = Some s' /\
    UCA0TXBUF_log s'
      = UCA0TXBUF_log s ++ drop (Z.to_nat (UartTxBuffer_i s) + 1) (egress s) /\
    UartTxBuffer_i s' = 0 /\ UartTxBufferLength s' = 0.
Proof.
  intros Hlen Hi HL.
  set (k := Z.to_nat (UartTxBufferLength s - UartTxBuffer_i s - 1)).
  replace (Z.to_nat (UartTxBufferLength s - UartTxBuffer_i s))
    with (k + 1)%nat by lia.
  rewrite replicate_add, run_app.
  destruct (drain_run k s) as (s1 & -> & B1 & I1 & L1 & G1);
    [done|lia|lia|done|].
  cbn [mbind option_bind replicate run].
  destruct (drain_last s1) as (s' & -> & I' & L' & G'); [lia|lia|lia|].
  cbn [mbind option_bind]. exists s'. split; [done|]. split; [|done].
  rewrite G', G1. f_equal. unfold egress.
  rewrite take_drop_commute. f_equal. f_equal. lia.
Qed.

(** X7: with a cursor inside a non-empty UART transmit buffer, as many
    transmit interrupts as bytes are left hand the bytes behind the cursor
    to the UART, in order and once each, then empty the buffer; a further
    transmit interrupt does nothing. *)
Theorem egress_drain (s : modem) :
  wf s ->
  0 <= UartTxBuffer_i s < UartTxBufferLength s ->
  UartTxBufferLength s <= UART_BUF_LEN ->
  exists s',
    run (replicate (Z.to_nat (UartTxBufferLength s - UartTxBuffer_i s))
           UartTxReady) s = Some s' /\
    UCA0TXBUF_log s'
      = UCA0TXBUF_log s ++ drop (Z.to_nat (UartTxBuffer_i s) + 1) (egress s) /\
    egress s' = [] /\ UartTxBuffer_i s' = 0 /\
    step UartTxReady s' = Some s'.
Proof.
  intros (_ & Htx & _) Hi HL. unfold UART_BUF_LEN, PAYLOAD_LEN in *.
  destruct (drain_all s) as (s' & E & G & I' & L'); [done|done|done|].
  exists s'. split; [done|]. split; [done|].
  split; [unfold egress; by rewrite L'|]. split; [done|].
  cbn [step]. unfold USCI_A0_ISR. cbn [Z.eqb Pos.eqb]. by rewrite L'.
Qed.

Lemma egress_drain_witness :
  exists s',
    run (replicate
           (Z.to_nat (UartTxBufferLength (egress_filled 3)
                      - UartTxBuffer_i (egress_filled 3)))
           UartTxReady) (egress_filled 3) = Some s' /\
    UCA0TXBUF_log s'
      = UCA0TXBUF_log (egress_filled 3)
          ++ drop (Z.to_nat (UartTxBuffer_i (egress_filled 3)) + 1)
                  (egress (egress_filled 3)) /\
    egress s' = [] /\ UartTxBuffer_i s' = 0 /\
    step UartTxReady s' = Some s'.
Proof.
  apply (egress_drain (egress_filled 3)).
  - repeat split.
  - vm_compute; split; [discriminate|reflexivity].
  - vm_compute; discriminate.
Defined.

(** X8: radio to serial, end to end.  The modem listens, its UART
    transmit buffer is empty, and the radio interrupt delivers a frame that
    passes the checks of the handler.  Then that interrupt followed by one
    UART transmit interrupt per byte of output puts on the serial line, in
    order and once each, the payload, the decimal text of the RSSI byte, a
    space, the decimal text of the status byte and a newline, and leaves the
    buffer empty again. *)
Theorem radio_to_serial
    (RxStatus l0 rssi lqi : Z) (payload : list Z) (s : modem) :
  wf s ->
  rf_receiving s <> 0 ->
  UartTxBufferLength s = 0 -> UartTxBuffer_i s = 0 ->
  Z.land RxStatus CC430_STATE_MASK = CC430_STATE_IDLE ->
  (2 <= length payload <= 32)%nat ->
  is_byte rssi -> is_byte lqi ->
  Z.land lqi CRC_OK <> 0 ->
  exists s',
    run (RadioIrq RxStatus (l0 :: payload ++ [rssi; lqi])
           :: replicate
                (length (payload ++ decimal rssi ++ [ch_sp]
                           ++ decimal lqi ++ [ch_nl]))
                UartTxReady) s = Some s' /\
    UCA0TXBUF_log s'
      = UCA0TXBUF_log s ++ payload ++ decimal rssi ++ [ch_sp]
          ++ decimal lqi ++ [ch_nl] /\
    egress s' = [] /\ UartTxBuffer_i s' = 0 /\
    rf_receiving s' = 0 /\ rf_transmitting s' = 0.
Proof.
  intros Hwf Hrx HL Hi Hst Hp Hrssi Hlqi Hcrc.
  pose proof (decimal_length rssi) as Hd1.
  pose proof (decimal_length lqi) as Hd2.
  set (text := payload ++ decimal rssi ++ [ch_sp] ++ decimal lqi ++ [ch_nl]).
  assert (length text = (length payload + length (decimal rssi) + 1
                         + length (decimal lqi) + 1)%nat) as Ltext.
  { unfold text. rewrite !length_app. cbn [length]. lia. }
  destruct (handle_rf_rx_packet_delivered RxStatus l0 rssi lqi payload s)
    as (s1 & Hh & He & HL1 & _ & Hwf1); try done.
  { lia. }
  { rewrite Hi. unfold UART_BUF_LEN, PAYLOAD_LEN. lia. }
  { rewrite HL. unfold UART_BUF_LEN, PAYLOAD_LEN. lia. }
  fold text in He.
  assert (egress s = []) as Es by (unfold egress; by rewrite HL).
  rewrite Es in He. cbn [app] in He.
  destruct (handle_rf_rx_packet_inv _ _ _ _ _ Hh)
    as ((_ & _ & _ & _ & _ & _ & _ & F1 & F2 & I1 & _) & _ & _ & Hb & _).
  destruct (Hb eq_refl) as (b & G1 & Eb).
  rewrite Hi, load_0 in Eb.
  assert (text = b :: drop 1 text) as Et.
  { rewrite <- He. unfold egress.
    destruct (UartTxBuffer s1) as [|x tx] eqn:Etx; [done|].
    cbn [lookup list_lookup] in Eb. injection Eb as ->.
    replace (Z.to_nat (UartTxBufferLength s1))
      with (S (Z.to_nat (UartTxBufferLength s1) - 1)) by lia.
    cbn [take drop]. by rewrite drop_0. }
  cbn [run step]. unfold CC1101_ISR. cbn [Z.eqb Pos.eqb].
  destruct (Z.eqb_spec (rf_receiving s) 0); [done|]. cbn [negb].
  rewrite Hh. cbn [fmap option_fmap option_map snd mbind option_bind fst].
  set (s2 := if negb (rf_transmitting s1 =? 0)
             then set_rf_transmitting 0 s1 else s1).
  assert (UartTxBuffer s2 = UartTxBuffer s1 /\
          UartTxBuffer_i s2 = UartTxBuffer_i s1 /\
          UartTxBufferLength s2 = UartTxBufferLength s1 /\
          UCA0TXBUF_log s2 = UCA0TXBUF_log s1 /\
          rf_receiving s2 = rf_receiving s1 /\
          rf_transmitting s2 = 0) as (B2 & I2 & L2 & G2 & R2 & T2).
  { unfold s2. by destruct (Z.eqb_spec (rf_transmitting s1) 0). }
  clearbody s2.
  destruct Hwf1 as (_ & Htx1 & _). unfold UART_BUF_LEN, PAYLOAD_LEN in Htx1.
  destruct (drain_all s2) as (s3 & E3 & G3 & I3 & L3).
  { rewrite B2. exact Htx1. }
  { rewrite I2, L2, I1, Hi, HL1, HL. lia. }
  { rewrite L2, HL1, HL. lia. }
  assert (egress s2 = text) as E2.
  { rewrite <- He. unfold egress. by rewrite B2, L2. }
  rewrite I2, L2, I1, Hi, HL1, HL, E2 in *.
  replace (Z.to_nat (0 + Z.of_nat (length payload)
                     + Z.of_nat (length (decimal rssi)) + 1
                     + Z.of_nat (length (decimal lqi)) + 1 - 0))
    with (length text) in E3 by lia.
  exists s3. split; [exact E3|]. split.
  { rewrite G3, G2, G1, <- app_assoc. f_equal. symmetry. exact Et. }
  split; [unfold egress; by rewrite L3|]. split; [done|].
  (* the flags are those of the state the drain started from *)
  clear -E3 R2 T2 F2.
  assert (forall k t t', run (replicate k UartTxReady) t = Some t' ->
            rf_receiving t' = rf_receiving t /\
            rf_transmitting t' = rf_transmitting t) as Hflags.
  { induction k as [|k IH]; intros t t' H; cbn [replicate run] in H.
    - by injection H as <-.
    - destruct (step UartTxReady t) as [u|] eqn:Eu;
        cbn [mbind option_bind] in H; [|done].
      apply IH in H as [-> ->]. cbn [step] in Eu.
      destruct (USCI_A0_ISR 4 0 t) as [[u' w]|] eqn:Ei; [|done].
      cbn [fmap option_fmap option_map fst] in Eu. injection Eu as <-.
      by apply USCI_A0_ISR_flags in Ei as [? ?]. }
  apply Hflags in E3 as [-> ->]. split; congruence.
Qed.

Lemma radio_to_serial_witness :
  exists s',
    run (RadioIrq 0 (6 :: [72; 69; 76; 76; 79; ch_nl] ++ [50; 200])
           :: replicate
                (length ([72; 69; 76; 76; 79; ch_nl] ++ decimal 50
                           ++ [ch_sp] ++ decimal 200 ++ [ch_nl]))
                UartTxReady) (main_listen init) = Some s' /\
    UCA0TXBUF_log s'
      = UCA0TXBUF_log (main_listen init) ++ [72; 69; 76; 76; 79; ch_nl]
          ++ decimal 50 ++ [ch_sp] ++ decimal 200 ++ [ch_nl] /\
    egress s' = [] /\ UartTxBuffer_i s' = 0 /\
    rf_receiving s' = 0 /\ rf_transmitting s' = 0.
Proof.
  apply (radio_to_serial 0 6 50 200 [72; 69; 76; 76; 79; ch_nl]
           (main_listen init)).
  - repeat split.
  - vm_compute; discriminate.
  - reflexivity.
  - reflexivity.
  - reflexivity.
  - simpl; lia.
  - unfold is_byte; lia.
  - unfold is_byte; lia.
  - vm_compute; discriminate.
Defined.

(** ** The sizes of the arrays *)

Lemma handle_uart_rx_byte_inv (rx : Z) (s s' : modem) (r : Z) :
  handle_uart_rx_byte rx s = Some (r, s') ->
  egress_side_kept s s' /\ radio_tx_kept s s' /\
  length (UartRxBuffer s') = length (UartRxBuffer s).
Proof.
  unfold handle_uart_rx_byte, timer_clear, timer_set. intros H. fields in H.
  destruct (UartRxBuffer_i s =? UART_BUF_LEN).
  - injection H as <- <-. by repeat split.
  - destruct (store _ _ _) as [buf|] eqn:E; cbn [mbind option_bind] in H;
      [|done].
    apply store_length in E.
    destruct (rx =? ch_nl); injection H as <- <-; by repeat split.
Qed.

Lemma encode_inv (len : Z) (msg tx tx' : list Z) :
  encode len msg tx = Some tx' ->
  length tx' = length tx /\ tx' !! 0%nat = Some (uchar len).
Proof.
  unfold encode. intros H.
  destruct (store tx 0 (uchar len)) as [t0|] eqn:E0;
    cbn [mbind option_bind] in H; [|done].
  apply store_inv in E0 as [Hb ->].
  eapply (for_loop_invariant
            (λ t, length t = length tx /\ t !! 0%nat = Some (uchar len)));
    [|exact H|].
  - intros y t t' Hy Hbody [Lt Ht]. cbn beta in Hbody.
    destruct (load msg y); cbn [mbind option_bind] in Hbody; [|done].
    apply store_inv in Hbody as [Hi ->]. rewrite length_insert.
    split; [done|]. rewrite list_lookup_insert_ne by lia. done.
  - rewrite length_insert. split; [done|].
    apply list_lookup_insert_eq. lia.
Qed.

Lemma consume_inv (len : Z) (s s' : modem) :
  consume len s = Some s' ->
  egress_side_kept s s' /\ radio_tx_kept s s' /\
  uart_rx_timeout s' = uart_rx_timeout s /\
  TA1_running s' = TA1_running s /\
  length (UartRxBuffer s') = length (UartRxBuffer s).
Proof.
  unfold consume. intros H. destruct (negb (len =? UartRxBuffer_i s)).
  - destruct (for_loop _ _ _ _) as [rx|] eqn:E;
      cbn [mbind option_bind] in H; [|done].
    injection H as <-. repeat split. fields.
    eapply (for_loop_invariant
              (λ t, length t = length (UartRxBuffer s))); [|exact E|done].
    intros y t t' _ Hb Ht. cbn beta in Hb.
    destruct (load t (y + len)); cbn [mbind option_bind] in Hb; [|done].
    apply store_length in Hb. congruence.
  - injection H as <-. by repeat split.
Qed.

Lemma schar_range (z : Z) : -128 <= schar z <= 127.
Proof.
  unfold schar. pose proof (Z.mod_pos_bound z 256).
  destruct (Z.ltb_spec (z mod 256) 128); lia.
Qed.

Lemma find_newline_range (n : nat) :
  forall (x : Z) (buf : list Z) (len : Z),
    find_newline n x buf = Some len -> -128 <= len <= 127.
Proof.
  induction n as [|n IH]; intros x buf len H; cbn [find_newline] in H.
  - injection H as <-. lia.
  - destruct (load buf x) as [c|]; cbn [mbind option_bind] in H; [|done].
    destruct (c =? ch_nl).
    + injection H as <-. apply schar_range.
    + by apply IH in H.
Qed.

Lemma msg_len_range (s s1 : modem) (len : Z) :
  msg_len s = Some (len, s1) -> -128 <= len <= 127.
Proof.
  unfold msg_len. intros H. destruct (uart_rx_timeout s =? 1).
  - injection H as <- _. apply schar_range.
  - destruct (find_newline _ _ _) as [l|] eqn:E;
      cbn [mbind option_bind] in H; [|done].
    injection H as <- _. by apply find_newline_range in E.
Qed.

Lemma uchar_negative (z : Z) : -256 <= z < 0 -> uchar z = z + 256.
Proof.
  intros Hz. unfold uchar. symmetry.
  apply (Z.mod_unique z 256 (-1)); lia.
Qed.

(** Every return of the dispatch, with what it has and has not done. *)
Lemma send_next_msg_returns (s s' : modem) (r : Z) :
  wf s ->
  send_next_msg s = Some (r, s') ->
  egress_side_kept s s' /\ wf s' /\
  ((r = 1 /\ radio_tx_kept s s' /\
    UartRxBuffer_i s' = 0 /\ data_to_send s' = 0) \/
   (r = 0 /\
    exists len : nat,
      (1 <= len <= 34)%nat /\
      TXFIFO_log s'
        = TXFIFO_log s ++ [Z.of_nat len :: take len (UartRxBuffer s)] /\
      rf_transmitting s' = 1 /\ rf_receiving s' = 0)).
Proof.
  intros (Hrx & Htx & Hrrx & Hrtx) H. unfold send_next_msg in H.
  destruct (msg_len s) as [[len s1]|] eqn:Hm; cbn [mbind option_bind] in H;
    [|done].
  pose proof (msg_len_range _ _ _ Hm) as Hrange.
  assert (egress_side_kept s s1 /\ radio_tx_kept s s1 /\
          UartRxBuffer s1 = UartRxBuffer s /\
          UartRxBuffer_i s1 = UartRxBuffer_i s /\
          data_to_send s1 = data_to_send s) as (K1 & R1 & B1 & I1 & D1)
    by (by destruct (msg_len_frame _ _ _ Hm) as [-> | ->]).
  clear Hm.
  destruct K1 as (K11 & K12 & K13 & K14 & K15 & K16 & K17).
  destruct R1 as (R11 & R12 & R13 & R14).
  destruct (Z.eqb_spec len 0) as [H0|H0]; cbn [orb] in H.
  { injection H as <- <-. unfold egress_side_kept, radio_tx_kept, wf. fields.
    split; [by repeat split|]. split; [repeat split; congruence|].
    left. by repeat split. }
  destruct (Z.eqb_spec len (-1)) as [H1|H1].
  { injection H as <- <-. unfold egress_side_kept, radio_tx_kept, wf. fields.
    split; [by repeat split|]. split; [repeat split; congruence|].
    left. by repeat split. }
  destruct (encode len (UartRxBuffer s1) (RfTxBuffer s1)) as [tx|] eqn:E1;
    cbn [mbind option_bind] in H; [|done].
  destruct (encode_inv _ _ _ _ E1) as [Ltx Htx0].
  destruct (consume len (set_RfTxBuffer tx s1)) as [s2|] eqn:E2;
    cbn [mbind option_bind] in H; [|done].
  destruct (consume_inv _ _ _ E2)
    as ((K21 & K22 & K23 & K24 & K25 & K26 & K27)
        & (R21 & R22 & R23 & R24) & T2 & A2 & L2).
  fields in K21. fields in K22. fields in K23. fields in K24. fields in K25.
  fields in K26. fields in K27. fields in R21. fields in R22. fields in L2.
  set (s3 := set_rf_transmitting 1 _) in H.
  assert (egress_side_kept s2 s3 /\ RfTxBuffer s3 = tx /\
          TXFIFO_log s3 = TXFIFO_log s /\
          UartRxBuffer s3 = UartRxBuffer s2 /\
          rf_transmitting s3 = 1 /\ rf_receiving s3 = 0)
    as ((K31 & K32 & K33 & K34 & K35 & K36 & K37) & B3 & G3 & U3 & F3 & F3').
  { unfold s3, egress_side_kept.
    destruct (Z.eqb_spec (rf_receiving s2) 0); cbn [negb]; fields;
      repeat split; congruence. }
  clearbody s3. rewrite B3, load_0, Htx0 in H. cbn [mbind option_bind] in H.
  unfold RfTransmit in H.
  destruct (Z.leb_spec (uchar (uchar len + 1)) (Z.of_nat (length tx)))
    as [Hfit|Hfit]; cbn [mbind option_bind] in H; [|done].
  injection H as <- <-.
  unfold PACKET_LEN, UART_BUF_LEN, PAYLOAD_LEN in *.
  assert (length tx = 35%nat) as Ltx' by (rewrite Ltx, R11, Hrtx; lia).
  assert (1 <= len <= 34) as Hlen.
  { destruct (Z.lt_ge_cases len 0) as [Hneg|Hpos].
    - rewrite (uchar_negative len) in Hfit by lia.
      rewrite (uchar_small (len + 256 + 1)) in Hfit by lia. lia.
    - rewrite (uchar_small len) in Hfit by lia.
      rewrite (uchar_small (len + 1)) in Hfit by lia. lia. }
  split; [|split].
  - unfold egress_side_kept. fields. repeat split; congruence.
  - unfold wf. fields. unfold PACKET_LEN, UART_BUF_LEN, PAYLOAD_LEN.
    repeat split; congruence.
  - right. split; [done|]. exists (Z.to_nat len). split; [lia|]. fields.
    rewrite F3, F3', G3. split; [|done]. do 2 f_equal.
    rewrite (uchar_small len) by lia.
    rewrite (uchar_small (len + 1)) by lia.
    set (l := Z.to_nat len).
    assert (len = Z.of_nat l) as El by lia.
    pose proof (encode_spec (take l (UartRxBuffer s))
                  (drop l (UartRxBuffer s)) (RfTxBuffer s)) as He.
    rewrite take_drop, length_take in He.
    replace (l `min` length (UartRxBuffer s))%nat with l in He by lia.
    rewrite B1, R11, El, He in E1 by lia. injection E1 as <-.
    replace (Z.to_nat (len + 1)) with (S l) by lia.
    cbn [take]. rewrite take_app_length' by (rewrite length_take; lia).
    done.
Qed.

(** X9: what a call of [send_next_msg] can have done when it returns, in a
    state whose arrays have their sizes.  Either it returns 1: nothing was
    handed to the radio, the radio flags and the transmit frame are as
    before, and the serial receive buffer and its pending mark are cleared.
    Or it returns 0: exactly one frame was handed to the radio, made of a
    length byte between 1 and 34 and that many bytes from the start of the
    receive buffer, rf_transmitting is set and rf_receiving is clear.  Both
    times the radio-to-serial side is untouched and the arrays keep their
    sizes. *)
Theorem send_next_msg_outcomes (s s' : modem) (r : Z) :
  wf s ->
  send_next_msg s = Some (r, s') ->
  egress_side_kept s s' /\ wf s' /\
  ((r = 1 /\ radio_tx_kept s s' /\
    UartRxBuffer_i s' = 0 /\ data_to_send s' = 0) \/
   (r = 0 /\
    exists len : nat,
      (1 <= len <= 34)%nat /\
      TXFIFO_log s'
        = TXFIFO_log s ++ [Z.of_nat len :: take len (UartRxBuffer s)] /\
      rf_transmitting s' = 1 /\ rf_receiving s' = 0)).
Proof. apply send_next_msg_returns. Qed.

Lemma send_next_msg_outcomes_witness :
  exists s',
    send_next_msg after_AnBn = Some (0, s') /\
    egress_side_kept after_AnBn s' /\ wf s' /\
    ((0 = 1 /\ radio_tx_kept after_AnBn s' /\
      UartRxBuffer_i s' = 0 /\ data_to_send s' = 0) \/
     (0 = 0 /\
      exists len : nat,
        (1 <= len <= 34)%nat /\
        TXFIFO_log s'
          = TXFIFO_log after_AnBn
              ++ [Z.of_nat len :: take len (UartRxBuffer after_AnBn)] /\
        rf_transmitting s' = 1 /\ rf_receiving s' = 0)).
Proof.
  eexists. split; [vm_compute; reflexivity|].
  apply (send_next_msg_outcomes after_AnBn).
  - repeat split.
  - vm_compute; reflexivity.
Defined.

Lemma wf_of_lengths (s s' : modem) :
  length (UartRxBuffer s') = length (UartRxBuffer s) ->
  length (UartTxBuffer s') = length (UartTxBuffer s) ->
  length (RfRxBuffer s') = length (RfRxBuffer s) ->
  length (RfTxBuffer s') = length (RfTxBuffer s) ->
  wf s -> wf s'.
Proof. unfold wf. intros -> -> -> ->. done. Qed.

Lemma USCI_A0_ISR_tx_inv (s s' : modem) (w : bool) :
  USCI_A0_ISR 4 0 s = Some (s', w) ->
  UartRxBuffer s' = UartRxBuffer s /\
  UartRxBuffer_i s' = UartRxBuffer_i s /\
  data_to_send s' = data_to_send s /\
  UartTxBuffer s' = UartTxBuffer s /\
  RfRxBuffer s' = RfRxBuffer s /\
  RfTxBuffer s' = RfTxBuffer s.
Proof.
  unfold USCI_A0_ISR. cbn [Z.eqb Pos.eqb]. intros H.
  invert_run H; by injection H as <- _.
Qed.

Lemma step_wf (e : event) (s s' : modem) :
  wf s -> step e s = Some s' -> wf s'.
Proof.
  intros Hwf H. destruct e as [b| | |st fifo| |]; cbn [step] in H.
  - unfold USCI_A0_ISR in H. cbn [Z.eqb Pos.eqb] in H.
    destruct (handle_uart_rx_byte b s) as [[r s1]|] eqn:E; [|done].
    cbn [mbind option_bind fmap option_fmap option_map fst] in H.
    injection H as <-.
    apply handle_uart_rx_byte_inv in E
      as ((K1 & _ & _ & _ & K5 & _) & (R1 & _) & L).
    apply (wf_of_lengths s); [done|congruence..|done].
  - destruct (USCI_A0_ISR 4 0 s) as [[s1 w]|] eqn:E; [|done].
    cbn [fmap option_fmap option_map fst] in H. injection H as <-.
    apply USCI_A0_ISR_tx_inv in E as (B & _ & _ & T & R & X).
    apply (wf_of_lengths s); [congruence..|done].
  - destruct (TA1_running s); [|done]. injection H as <-.
    unfold TIMER1_A0_ISR, timer_clear. cbn [fst].
    apply (wf_of_lengths s); [..|done];
      by destruct (UartRxBuffer_i _ >? 0).
  - unfold CC1101_ISR in H. cbn [Z.eqb Pos.eqb] in H.
    destruct (negb (rf_receiving s =? 0)).
    + destruct (handle_rf_rx_packet st fifo s) as [[o s1]|] eqn:E; [|done].
      cbn [mbind option_bind fmap option_fmap option_map fst snd] in H.
      injection H as <-.
      apply handle_rf_rx_packet_inv in E
        as ((B & _ & _ & _ & _ & X & _ & _ & _ & _ & LT & LR) & _).
      apply (wf_of_lengths s1).
      1-4: by destruct (negb (rf_transmitting s1 =? 0)).
      apply (wf_of_lengths s); [congruence..|done].
    + cbn [mbind option_bind fmap option_fmap option_map fst] in H.
      injection H as <-.
      apply (wf_of_lengths s); [..|done];
        by destruct (negb (rf_transmitting s =? 0)).
  - injection H as <-. unfold main_listen.
    apply (wf_of_lengths s); [..|done];
      destruct ((rf_transmitting s =? 0) && (rf_receiving s =? 0));
      try done; by destruct (negb (rf_error s =? 0)).
  - unfold main_dispatch in H.
    destruct ((rf_transmitting s =? 0) && negb (data_to_send s =? 0));
      [|by injection H as <-].
    destruct (send_next_msg s) as [[r s1]|] eqn:E; [|done].
    cbn [fmap option_fmap option_map snd] in H. injection H as <-.
    by apply send_next_msg_returns in E as (_ & ? & _).
Qed.

Lemma run_wf (es : list event) :
  forall s s', wf s -> run es s = Some s' -> wf s'.
Proof.
  induction es as [|e es IH]; intros s s' Hwf H; cbn [run] in H.
  - by injection H as <-.
  - destruct (step e s) as [s1|] eqn:E; cbn [mbind option_bind] in H;
      [|done].
    eauto using step_wf.
Qed.

(** ** The fill level of the receive buffer when nothing is dispatched *)

Lemma step_ingress_bounded (e : event) (s s' : modem) :
  e <> Dispatch ->
  wf s -> ingress_bounded s -> step e s = Some s' -> ingress_bounded s'.
Proof.
  unfold ingress_bounded, UART_BUF_LEN, PAYLOAD_LEN.
  intros He (Hrx & _) Hb H.
  unfold UART_BUF_LEN, PAYLOAD_LEN in Hrx.
  destruct e as [b| | |st fifo| |]; cbn [step] in H; [..|done].
  - unfold USCI_A0_ISR in H. cbn [Z.eqb Pos.eqb] in H.
    destruct (handle_uart_rx_byte b s) as [[r s1]|] eqn:E; [|done].
    cbn [mbind option_bind fmap option_fmap option_map fst] in H.
    injection H as <-.
    unfold handle_uart_rx_byte, timer_clear, timer_set in E.
    unfold UART_BUF_LEN, PAYLOAD_LEN in E. fields in E.
    destruct (Z.eqb_spec (UartRxBuffer_i s) (32 * 3)).
    + injection E as _ <-. fields. lia.
    + destruct (store _ _ _) as [buf|] eqn:Es;
        cbn [mbind option_bind] in E; [|done].
      apply store_inv in Es as [Hi _].
      destruct (b =? ch_nl); injection E as _ <-; fields;
        rewrite uchar_small by lia; lia.
  - destruct (USCI_A0_ISR 4 0 s) as [[s1 w]|] eqn:E; [|done].
    cbn [fmap option_fmap option_map fst] in H. injection H as <-.
    apply USCI_A0_ISR_tx_inv in E as (_ & -> & -> & _). done.
  - destruct (TA1_running s); [|done]. injection H as <-.
    unfold TIMER1_A0_ISR, timer_clear. cbn [fst]. fields.
    destruct (Z.gtb_spec (UartRxBuffer_i s) 0); fields; lia.
  - unfold CC1101_ISR in H. cbn [Z.eqb Pos.eqb] in H.
    destruct (negb (rf_receiving s =? 0)).
    + destruct (handle_rf_rx_packet st fifo s) as [[o s1]|] eqn:E; [|done].
      cbn [mbind option_bind fmap option_fmap option_map fst snd] in H.
      injection H as <-.
      apply handle_rf_rx_packet_inv in E as ((_ & I & D & _) & _).
      destruct (negb (rf_transmitting s1 =? 0)); fields; lia.
    + cbn [mbind option_bind fmap option_fmap option_map fst] in H.
      injection H as <-.
      destruct (negb (rf_transmitting s =? 0)); fields; lia.
  - injection H as <-. unfold main_listen.
    destruct ((rf_transmitting s =? 0) && (rf_receiving s =? 0)); [|done].
    destruct (negb (rf_error s =? 0)); fields; lia.
Qed.

(** X11: as long as the main loop dispatches nothing, the fill level of
    the serial receive buffer stays within its 96 cells and the pending mark
    stays within the fill level, for every sequence of serial bytes, timer
    expiries, UART transmit interrupts, radio interrupts and listen steps
    after which the handlers have returned. *)
Theorem ingress_bounded_without_dispatch (es : list event) (s : modem) :
  Forall (λ e, e <> Dispatch) es ->
  run es init = Some s ->
  0 <= data_to_send s <= UartRxBuffer_i s /\
  UartRxBuffer_i s <= UART_BUF_LEN.
Proof.
  intros Hes H.
  assert (wf init /\ ingress_bounded init) as Hinit
    by (split; [by repeat split|by vm_compute]).
  revert Hes H Hinit. generalize init as s0.
  induction es as [|e es IH]; intros s0 Hes H [Hwf Hb]; cbn [run] in H.
  - by injection H as <-.
  - apply Forall_cons in Hes as [He Hes].
    destruct (step e s0) as [s1|] eqn:E; cbn [mbind option_bind] in H;
      [|done].
    apply (IH s1); [done|done|].
    split; [by apply (step_wf e s0)|by apply (step_ingress_bounded e s0)].
Qed.

Lemma ingress_bounded_without_dispatch_witness :
  0 <= data_to_send ingress_full <= UartRxBuffer_i ingress_full /\
  UartRxBuffer_i ingress_full <= UART_BUF_LEN.
Proof.
  apply (ingress_bounded_without_dispatch (replicate 96 (UartRx 65))).
  - apply Forall_forall. intros e He.
    apply elem_of_replicate in He as [-> _]. discriminate.
  - vm_compute; reflexivity.
Defined.

(** ** From the serial line to the radio *)

Lemma egress_side_kept_trans (s1 s2 s3 : modem) :
  egress_side_kept s1 s2 -> egress_side_kept s2 s3 -> egress_side_kept s1 s3.
Proof. unfold egress_side_kept. intuition congruence. Qed.

Lemma radio_tx_kept_trans (s1 s2 s3 : modem) :
  radio_tx_kept s1 s2 -> radio_tx_kept s2 s3 -> radio_tx_kept s1 s3.
Proof. unfold radio_tx_kept. intuition congruence. Qed.

(** One byte that is not a terminator, seen as a step of the modem. *)
Lemma rx_byte_step (b : Z) (s : modem) :
  wf s -> 0 <= UartRxBuffer_i s < UART_BUF_LEN -> b <> ch_nl ->
  exists s',
    step (UartRx b) s = Some s' /\ wf s' /\
    ingress s' = ingress s ++ [b] /\
    UartRxBuffer_i s' = UartRxBuffer_i s + 1 /\
    data_to_send s' = data_to_send s /\
    TA1_running s' = true /\ uart_rx_timeout s' = 0 /\
    egress_side_kept s s' /\ radio_tx_kept s s'.
Proof.
  intros Hwf Hi Hb. pose proof Hwf as (Hrx & _).
  unfold UART_BUF_LEN, PAYLOAD_LEN in *.
  cbn [step]. unfold USCI_A0_ISR. cbn [Z.eqb Pos.eqb].
  destruct (handle_uart_rx_byte b s) as [[r s1]|] eqn:E.
  2:{ by rewrite uart_rx_stored in E. }
  cbn [mbind option_bind fmap option_fmap option_map fst].
  exists s1. split; [done|].
  pose proof (handle_uart_rx_byte_inv _ _ _ _ E) as (K & R & L).
  rewrite uart_rx_stored in E by done. injection E as _ <-.
  split.
  { apply (wf_of_lengths s); [exact L|..|done];
      unfold timer_set, timer_clear; fields; done. }
  unfold ingress, timer_set, timer_clear in *. fields.
  split.
  { replace (Z.to_nat (UartRxBuffer_i s + 1))
      with (S (Z.to_nat (UartRxBuffer_i s))) by lia.
    apply take_S_insert. lia. }
  by repeat split.
Qed.

(** The terminator, seen as a step of the modem. *)
Lemma rx_newline_step (s : modem) :
  wf s -> 0 <= UartRxBuffer_i s < UART_BUF_LEN ->
  exists s',
    step (UartRx ch_nl) s = Some s' /\ wf s' /\
    ingress s' = ingress s ++ [ch_nl] /\
    UartRxBuffer_i s' = UartRxBuffer_i s + 1 /\
    data_to_send s' = UartRxBuffer_i s + 1 /\
    TA1_running s' = false /\ uart_rx_timeout s' = 0 /\
    egress_side_kept s s' /\ radio_tx_kept s s'.
Proof.
  intros Hwf Hi. pose proof Hwf as (Hrx & _).
  unfold UART_BUF_LEN, PAYLOAD_LEN in *.
  cbn [step]. unfold USCI_A0_ISR. cbn [Z.eqb Pos.eqb].
  destruct (handle_uart_rx_byte ch_nl s) as [[r s1]|] eqn:E.
  - cbn [mbind option_bind fmap option_fmap option_map fst].
    exists s1. split; [done|].
    pose proof (handle_uart_rx_byte_inv _ _ _ _ E) as (K & R & L).
    split; [apply (wf_of_lengths s);
              [exact L|destruct K as (-> & _); done
              |destruct K as (_ & _ & _ & _ & -> & _); done
              |destruct R as (-> & _); done|done]|].
    unfold handle_uart_rx_byte, timer_clear in E.
    unfold UART_BUF_LEN, PAYLOAD_LEN in E. fields in E.
    destruct (Z.eqb_spec (UartRxBuffer_i s) (32 * 3)); [lia|].
    rewrite store_Z in E by lia. cbn [mbind option_bind Z.eqb Pos.eqb] in E.
    rewrite Z.eqb_refl in E. injection E as _ <-.
    unfold ingress. fields. rewrite uchar_small by lia.
    split.
    { replace (Z.to_nat (UartRxBuffer_i s + 1))
        with (S (Z.to_nat (UartRxBuffer_i s))) by lia.
      apply take_S_insert. lia. }
    by repeat split.
  - exfalso. unfold handle_uart_rx_byte, timer_clear in E.
    unfold UART_BUF_LEN, PAYLOAD_LEN in E. fields in E.
    destruct (Z.eqb_spec (UartRxBuffer_i s) (32 * 3)); [lia|].
    rewrite store_Z in E by lia. cbn [mbind option_bind] in E.
    by rewrite Z.eqb_refl in E.
Qed.

(** A run of bytes without terminator accumulates in the receive buffer. *)
Lemma rx_bytes_accumulate (msg : list Z) :
  forall s : modem,
    wf s -> 0 <= UartRxBuffer_i s ->
    UartRxBuffer_i s + Z.of_nat (length msg) <= UART_BUF_LEN ->
    Forall (λ b, b <> ch_nl) msg ->
    exists s',
      run (map UartRx msg) s = Some s' /\ wf s' /\
      ingress s' = ingress s ++ msg /\
      UartRxBuffer_i s' = UartRxBuffer_i s + Z.of_nat (length msg) /\
      data_to_send s' = data_to_send s /\
      (msg <> [] -> TA1_running s' = true /\ uart_rx_timeout s' = 0) /\
      (msg = [] -> s' = s) /\
      egress_side_kept s s' /\ radio_tx_kept s s'.
Proof.
  induction msg as [|b msg IH]; intros s Hwf H0 Hroom Hnl.
  - exists s. cbn [map run length]. rewrite app_nil_r, Z.add_0_r.
    do 5 (split; [done|]). split; [intros Hne; by destruct Hne|].
    by repeat split.
  - apply Forall_cons in Hnl as [Hb Hnl]. cbn [length] in Hroom.
    destruct (rx_byte_step b s)
      as (s1 & E1 & W1 & G1 & I1 & D1 & T1 & U1 & K1 & R1);
      [done|lia|done|].
    destruct (IH s1) as (s' & E & W & G & I & D & T & Z0 & K & R);
      [done|lia|lia|done|].
    exists s'. cbn [map run]. rewrite E1. cbn [mbind option_bind].
    split; [done|]. split; [done|].
    split; [rewrite G, G1, <- app_assoc; done|].
    split; [cbn [length]; lia|]. split; [congruence|].
    split.
    { intros _. destruct msg as [|b' msg'].
      - rewrite (Z0 eq_refl). done.
      - by apply T. }
    split; [done|].
    eauto using egress_side_kept_trans, radio_tx_kept_trans.
Qed.

Lemma msg_len_timeout (s s1 : modem) (len : Z) :
  msg_len s = Some (len, s1) ->
  TA1_running s1 = TA1_running s /\
  (uart_rx_timeout s <> 1 -> s1 = s) /\
  (uart_rx_timeout s = 1 -> uart_rx_timeout s1 = 0).
Proof.
  unfold msg_len. intros H.
  destruct (Z.eqb_spec (uart_rx_timeout s) 1).
  - injection H as _ <-. by repeat split.
  - destruct (find_newline _ _ _); cbn [mbind option_bind] in H; [|done].
    injection H as _ <-. by repeat split.
Qed.

(** The dispatch stops no timer, and clears the timeout flag only. *)
Lemma send_next_msg_timer (s s' : modem) (r : Z) :
  send_next_msg s = Some (r, s') ->
  TA1_running s' = TA1_running s /\
  (uart_rx_timeout s <> 1 -> uart_rx_timeout s' = uart_rx_timeout s) /\
  (uart_rx_timeout s = 1 -> uart_rx_timeout s' = 0).
Proof.
  unfold send_next_msg. intros H.
  destruct (msg_len s) as [[len s1]|] eqn:Hm; cbn [mbind option_bind] in H;
    [|done].
  apply msg_len_timeout in Hm as (T1 & U1 & U1').
  assert (TA1_running s' = TA1_running s1 /\
          uart_rx_timeout s' = uart_rx_timeout s1) as [T U].
  { destruct ((len =? 0) || (len =? -1)).
    - by injection H as _ <-.
    - destruct (encode _ _ _) as [tx|]; cbn [mbind option_bind] in H;
        [|done].
      destruct (consume _ _) as [s2|] eqn:E2; cbn [mbind option_bind] in H;
        [|done].
      apply consume_inv in E2 as (_ & _ & U2 & T2 & _).
      destruct (load _ 0) as [n|]; cbn [mbind option_bind] in H; [|done].
      destruct (RfTransmit _ _) as [f|]; cbn [mbind option_bind] in H;
        [|done].
      injection H as _ <-. fields.
      destruct (negb (rf_receiving s2 =? 0)); fields; by rewrite T2, U2. }
  rewrite T, U. split; [done|]. split.
  - intros Hne. by rewrite (U1 Hne).
  - done.
Qed.

(** The dispatch of a terminated message at the front of the buffer. *)
Lemma dispatch_terminated (m rest : list Z) (s : modem) :
  wf s ->
  uart_rx_timeout s <> 1 -> rf_transmitting s = 0 ->
  0 <= UartRxBuffer_i s <= UART_BUF_LEN ->
  ingress s = m ++ [ch_nl] ++ rest ->
  Forall (λ b, b <> ch_nl) m ->
  Z.of_nat (length m) < data_to_send s ->
  Z.of_nat (length m) + 2 <= PACKET_LEN ->
  exists s',
    step Dispatch s = Some s' /\ wf s' /\
    TXFIFO_log s'
      = TXFIFO_log s ++ [(Z.of_nat (length m) + 1) :: m ++ [ch_nl]] /\
    ingress s' = rest /\
    UartRxBuffer_i s' = Z.of_nat (length rest) /\
    rf_transmitting s' = 1 /\ rf_receiving s' = 0 /\
    uart_rx_timeout s' = uart_rx_timeout s /\
    TA1_running s' = TA1_running s /\
    (rest = [] -> data_to_send s' = 0) /\
    (rest <> [] -> data_to_send s' = data_to_send s) /\
    egress_side_kept s s'.
Proof.
  intros Hwf Hto Htx Hi Hin Hnl Hwin Hfit.
  pose proof Hwf as (Hrx & _).
  unfold UART_BUF_LEN, PACKET_LEN, PAYLOAD_LEN in *.
  set (k := length m) in *.
  assert (length (ingress s) = Z.to_nat (UartRxBuffer_i s)) as Li
    by (unfold ingress; rewrite length_take; lia).
  assert (Z.to_nat (UartRxBuffer_i s) = (k + 1 + length rest)%nat) as Ei.
  { rewrite <- Li, Hin, !length_app. cbn [length]. lia. }
  assert (forall j, (j <= k)%nat ->
            UartRxBuffer s !! j = (m ++ [ch_nl] ++ rest) !! j) as Hlook.
  { intros j Hj. rewrite <- Hin. unfold ingress.
    rewrite lookup_take_lt by lia. done. }
  assert (fst <$> msg_len s = Some (Z.of_nat (k + 1))) as Hm.
  { unfold msg_len. destruct (Z.eqb_spec (uart_rx_timeout s) 1); [done|].
    assert (find_newline (Z.to_nat (data_to_send s)) 0 (UartRxBuffer s)
            = Some (Z.of_nat k + 1)) as ->.
    2:{ cbn [mbind option_bind fmap option_fmap option_map fst].
        f_equal. lia. }
    change 0 with (Z.of_nat 0).
    apply (find_newline_first (UartRxBuffer s) k); [| |lia|lia].
    - rewrite Hlook by lia. rewrite lookup_app_r by (fold k; lia).
      fold k. by replace (k - k)%nat with 0%nat by lia.
    - intros j Hj Hc. rewrite Hlook in Hc by lia.
      rewrite lookup_app_l in Hc by (fold k; lia).
      apply (Forall_lookup_1 _ _ _ _ Hnl) in Hc. done. }
  destruct (send_next_msg_sends (k + 1) s Hwf Hm)
    as (s' & Es & G & In & I' & Dk & D0).
  { lia. }
  { unfold UART_BUF_LEN, PAYLOAD_LEN. lia. }
  pose proof (send_next_msg_returns _ _ _ Hwf Es) as (K & W & _).
  pose proof (send_next_msg_timer _ _ _ Es) as (T & U & _).
  destruct (send_next_msg_flags _ _ _ Es) as [(? & _)|(_ & F1 & F2)];
    [done|].
  exists s'. cbn [step]. unfold main_dispatch.
  rewrite Htx. destruct (Z.eqb_spec (data_to_send s) 0); [lia|].
  cbn [Z.eqb andb negb]. rewrite Es.
  cbn [fmap option_fmap option_map snd].
  split; [done|]. split; [done|].
  split.
  { rewrite G, Hin. do 3 f_equal; [lia|].
    rewrite (app_assoc m). apply take_app_length'.
    rewrite length_app. cbn [length]. fold k. lia. }
  split.
  { rewrite In, Hin, (app_assoc m). apply drop_app_length'.
    rewrite length_app. cbn [length]. fold k. lia. }
  split; [lia|]. split; [done|]. split; [done|].
  split; [by apply U|]. split; [done|]. split; [|split; [|done]].
  - intros ->. apply D0. cbn [length] in Ei. lia.
  - intros Hr. apply Dk. destruct rest; [done|]. cbn [length] in Ei. lia.
Qed.

(** The dispatch after a timeout: the whole buffer goes out as one frame. *)
Lemma dispatch_timeout (s : modem) :
  wf s ->
  uart_rx_timeout s = 1 -> rf_transmitting s = 0 -> data_to_send s <> 0 ->
  1 <= UartRxBuffer_i s <= 34 ->
  exists s',
    step Dispatch s = Some s' /\ wf s' /\
    TXFIFO_log s' = TXFIFO_log s ++ [UartRxBuffer_i s :: ingress s] /\
    UartRxBuffer_i s' = 0 /\ data_to_send s' = 0 /\
    uart_rx_timeout s' = 0 /\ TA1_running s' = TA1_running s /\
    rf_transmitting s' = 1 /\ rf_receiving s' = 0 /\
    egress_side_kept s s'.
Proof.
  intros Hwf Hto Htx Hd Hi.
  assert (fst <$> msg_len s = Some (Z.of_nat (Z.to_nat (UartRxBuffer_i s))))
    as Hm.
  { unfold msg_len. rewrite Hto. cbn [Z.eqb Pos.eqb].
    cbn [fmap option_fmap option_map fst]. f_equal.
    unfold schar. rewrite Z.mod_small by lia.
    destruct (Z.ltb_spec (UartRxBuffer_i s) 128); lia. }
  destruct (send_next_msg_sends _ s Hwf Hm)
    as (s' & Es & G & In & I' & _ & D0).
  { lia. }
  { unfold UART_BUF_LEN, PAYLOAD_LEN. lia. }
  pose proof (send_next_msg_returns _ _ _ Hwf Es) as (K & W & _).
  pose proof (send_next_msg_timer _ _ _ Es) as (T & _ & U).
  destruct (send_next_msg_flags _ _ _ Es) as [(? & _)|(_ & F1 & F2)];
    [done|].
  exists s'. cbn [step]. unfold main_dispatch.
  rewrite Htx. destruct (Z.eqb_spec (data_to_send s) 0); [done|].
  cbn [Z.eqb andb negb]. rewrite Es.
  cbn [fmap option_fmap option_map snd].
  split; [done|]. split; [done|].
  split.
  { rewrite G. do 3 f_equal; [lia|].
    unfold ingress. rewrite take_take. f_equal. lia. }
  split; [lia|]. split; [apply D0; lia|].
  split; [by apply U|]. done.
Qed.

(** The interrupt at the end of a transmission only clears the flag. *)
Lemma tx_complete_step (st : Z) (fifo : list Z) (s : modem) :
  rf_receiving s = 0 -> rf_transmitting s = 1 ->
  step (RadioIrq st fifo) s = Some (set_rf_transmitting 0 s).
Proof.
  intros Hr Ht. cbn [step]. unfold CC1101_ISR. cbn [Z.eqb Pos.eqb].
  rewrite Hr. cbn [Z.eqb negb mbind option_bind]. by rewrite Ht.
Qed.

(** X12: a message typed on the serial line goes out as one radio frame.
    On a modem whose receive buffer is empty and whose radio does not
    transmit, the bytes of a message without terminator (at most 33 of
    them), the terminator and one pass of the main loop put exactly one
    frame in the TX FIFO: the length byte, the message, the terminator.
    The buffer is empty again, nothing is pending, the flush timer is
    stopped, and the radio is marked transmitting and no longer listening;
    the radio-to-serial side is as before. *)
Theorem serial_to_radio (msg : list Z) (s : modem) :
  wf s -> UartRxBuffer_i s = 0 -> rf_transmitting s = 0 ->
  Forall (λ b, b <> ch_nl) msg ->
  Z.of_nat (length msg) + 2 <= PACKET_LEN ->
  exists s',
    run (map UartRx (msg ++ [ch_nl]) ++ [Dispatch]) s = Some s' /\
    TXFIFO_log s'
      = TXFIFO_log s ++ [(Z.of_nat (length msg) + 1) :: msg ++ [ch_nl]] /\
    UartRxBuffer_i s' = 0 /\ data_to_send s' = 0 /\
    TA1_running s' = false /\ uart_rx_timeout s' = 0 /\
    rf_transmitting s' = 1 /\ rf_receiving s' = 0 /\
    egress_side_kept s s'.
Proof.
  intros Hwf Hi Htx Hnl Hfit.
  unfold PACKET_LEN, PAYLOAD_LEN in Hfit.
  destruct (rx_bytes_accumulate msg s)
    as (s1 & E1 & W1 & G1 & I1 & D1 & _ & _ & K1 & R1);
    [done|lia|unfold UART_BUF_LEN, PAYLOAD_LEN; lia|done|].
  destruct (rx_newline_step s1)
    as (s2 & E2 & W2 & G2 & I2 & D2 & T2 & U2 & K2 & R2);
    [done|unfold UART_BUF_LEN, PAYLOAD_LEN; lia|].
  assert (ingress s = []) as G0 by (unfold ingress; by rewrite Hi).
  destruct (dispatch_terminated msg [] s2)
    as (s3 & E3 & W3 & G3 & I3 & L3 & F3 & F3' & U3 & T3 & D3 & _ & K3).
  { done. }
  { lia. }
  { destruct R1 as (_ & _ & Ha & _), R2 as (_ & _ & Hb & _). congruence. }
  { unfold UART_BUF_LEN, PAYLOAD_LEN. lia. }
  { rewrite G2, G1, G0. done. }
  { done. }
  { lia. }
  { unfold PACKET_LEN, PAYLOAD_LEN. lia. }
  exists s3. rewrite map_app, <- app_assoc, run_app, E1.
  cbn [mbind option_bind map app run]. rewrite E2.
  cbn [mbind option_bind]. rewrite E3. cbn [mbind option_bind].
  split; [done|].
  split.
  { rewrite G3. destruct R1 as (_ & Ha & _), R2 as (_ & Hb & _).
    by rewrite Hb, Ha. }
  split; [by rewrite L3|]. split; [by apply D3|].
  split; [congruence|]. split; [congruence|]. split; [done|].
  split; [done|].
  eauto using egress_side_kept_trans.
Qed.

Lemma serial_to_radio_witness :
  exists s',
    run (map UartRx ([72; 105] ++ [ch_nl]) ++ [Dispatch]) init = Some s' /\
    TXFIFO_log s' = TXFIFO_log init ++ [3 :: [72; 105] ++ [ch_nl]] /\
    UartRxBuffer_i s' = 0 /\ data_to_send s' = 0 /\
    TA1_running s' = false /\ uart_rx_timeout s' = 0 /\
    rf_transmitting s' = 1 /\ rf_receiving s' = 0 /\
    egress_side_kept init s'.
Proof.
  apply (serial_to_radio [72; 105] init).
  - by vm_compute.
  - reflexivity.
  - reflexivity.
  - repeat constructor; discriminate.
  - vm_compute; discriminate.
Defined.

(** X13: a message without terminator leaves on the flush timeout.
    On a modem whose receive buffer is empty and whose radio does not
    transmit, 1 to 34 bytes without terminator, the expiry of the flush
    timer and one pass of the main loop put one frame in the TX FIFO: the
    number of bytes, then the bytes, with no terminator added.  The buffer
    is empty again and the timeout flag is cleared. *)
Theorem timeout_flush (msg : list Z) (s : modem) :
  wf s -> UartRxBuffer_i s = 0 -> rf_transmitting s = 0 ->
  Forall (λ b, b <> ch_nl) msg ->
  (1 <= length msg <= 34)%nat ->
  exists s',
    run (map UartRx msg ++ [TimerFire; Dispatch]) s = Some s' /\
    TXFIFO_log s' = TXFIFO_log s ++ [Z.of_nat (length msg) :: msg] /\
    UartRxBuffer_i s' = 0 /\ data_to_send s' = 0 /\
    TA1_running s' = false /\ uart_rx_timeout s' = 0 /\
    rf_transmitting s' = 1 /\ rf_receiving s' = 0 /\
    egress_side_kept s s'.
Proof.
  intros Hwf Hi Htx Hnl Hlen.
  destruct (rx_bytes_accumulate msg s)
    as (s1 & E1 & W1 & G1 & I1 & D1 & T1 & _ & K1 & R1);
    [done|lia|unfold UART_BUF_LEN, PAYLOAD_LEN; lia|done|].
  destruct T1 as [T1 U1]; [by destruct msg; cbn [length] in Hlen; [lia|]|].
  assert (ingress s = []) as G0 by (unfold ingress; by rewrite Hi).
  set (s2 := set_uart_rx_timeout 1 (set_data_to_send 1 (timer_clear s1))).
  assert (step TimerFire s1 = Some s2) as E2.
  { cbn [step]. rewrite T1. unfold TIMER1_A0_ISR, timer_clear. fields.
    destruct (Z.gtb_spec (UartRxBuffer_i s1) 0); [done|lia]. }
  destruct (dispatch_timeout s2)
    as (s3 & E3 & W3 & G3 & I3 & D3 & U3 & T3 & F3 & F3' & K3).
  { apply (wf_of_lengths s1); done. }
  { done. }
  { subst s2. unfold timer_clear. fields.
    destruct R1 as (_ & _ & Ha & _). congruence. }
  { done. }
  { subst s2. unfold timer_clear. fields. lia. }
  exists s3. rewrite run_app, E1. cbn [mbind option_bind run].
  rewrite E2. cbn [mbind option_bind]. rewrite E3.
  cbn [mbind option_bind].
  split; [done|].
  split.
  { rewrite G3. subst s2. unfold ingress, timer_clear in *. fields.
    rewrite G1, G0, I1, Hi. destruct R1 as (_ & Ha & _). rewrite Ha.
    do 3 f_equal. }
  split; [done|]. split; [done|].
  split; [rewrite T3; subst s2; unfold timer_clear; by fields|].
  split; [done|]. split; [done|]. split; [done|].
  apply (egress_side_kept_trans _ s1); [done|].
  apply (egress_side_kept_trans _ s2); [|done].
  subst s2. unfold egress_side_kept, timer_clear. by fields.
Qed.

Lemma timeout_flush_witness :
  exists s',
    run (map UartRx [72; 105] ++ [TimerFire; Dispatch]) init = Some s' /\
    TXFIFO_log s' = TXFIFO_log init ++ [2 :: [72; 105]] /\
    UartRxBuffer_i s' = 0 /\ data_to_send s' = 0 /\
    TA1_running s' = false /\ uart_rx_timeout s' = 0 /\
    rf_transmitting s' = 1 /\ rf_receiving s' = 0 /\
    egress_side_kept init s'.
Proof.
  apply (timeout_flush [72; 105] init).
  - by vm_compute.
  - reflexivity.
  - reflexivity.
  - repeat constructor; discriminate.
  - cbn [length]. lia.
Defined.

(** X14: two messages typed back to back go out as two frames, in order.
    Both are in the receive buffer before the main loop runs.  The first
    pass sends the first message and moves the second to the front of the
    buffer; the interrupt at the end of the transmission (whatever the
    radio reports with it) frees the radio; the second pass sends the
    second message and leaves the buffer empty. *)
Theorem two_messages_in_order
    (m1 m2 : list Z) (st : Z) (fifo : list Z) (s : modem) :
  wf s -> UartRxBuffer_i s = 0 -> rf_transmitting s = 0 ->
  Forall (λ b, b <> ch_nl) m1 -> Forall (λ b, b <> ch_nl) m2 ->
  Z.of_nat (length m1) + 2 <= PACKET_LEN ->
  Z.of_nat (length m2) + 2 <= PACKET_LEN ->
  exists s',
    run (map UartRx (m1 ++ [ch_nl] ++ m2 ++ [ch_nl])
           ++ [Dispatch; RadioIrq st fifo; Dispatch]) s = Some s' /\
    TXFIFO_log s'
      = TXFIFO_log s ++ [(Z.of_nat (length m1) + 1) :: m1 ++ [ch_nl];
                         (Z.of_nat (length m2) + 1) :: m2 ++ [ch_nl]] /\
    UartRxBuffer_i s' = 0 /\ data_to_send s' = 0 /\
    rf_transmitting s' = 1 /\ rf_receiving s' = 0 /\
    egress_side_kept s s'.
Proof.
  intros Hwf Hi Htx Hn1 Hn2 Hf1 Hf2.
  unfold PACKET_LEN, PAYLOAD_LEN in Hf1, Hf2.
  assert (ingress s = []) as G0 by (unfold ingress; by rewrite Hi).
  destruct (rx_bytes_accumulate m1 s)
    as (s1 & E1 & W1 & G1 & I1 & D1 & _ & _ & K1 & R1);
    [done|lia|unfold UART_BUF_LEN, PAYLOAD_LEN; lia|done|].
  destruct (rx_newline_step s1)
    as (s2 & E2 & W2 & G2 & I2 & D2 & T2 & U2 & K2 & R2);
    [done|unfold UART_BUF_LEN, PAYLOAD_LEN; lia|].
  destruct (rx_bytes_accumulate m2 s2)
    as (s3 & E3 & W3 & G3 & I3 & D3 & _ & _ & K3 & R3);
    [done|lia|unfold UART_BUF_LEN, PAYLOAD_LEN; lia|done|].
  destruct (rx_newline_step s3)
    as (s4 & E4 & W4 & G4 & I4 & D4 & T4 & U4 & K4 & R4);
    [done|unfold UART_BUF_LEN, PAYLOAD_LEN; lia|].
  assert (radio_tx_kept s s4) as R
    by eauto using radio_tx_kept_trans.
  assert (egress_side_kept s s4) as K
    by eauto using egress_side_kept_trans.
  destruct R as (_ & RL & RT & _).
  destruct (dispatch_terminated m1 (m2 ++ [ch_nl]) s4)
    as (s5 & E5 & W5 & G5 & In5 & I5 & F5 & F5' & U5 & _ & _ & D5 & K5).
  { done. }
  { lia. }
  { congruence. }
  { unfold UART_BUF_LEN, PAYLOAD_LEN. lia. }
  { rewrite G4, G3, G2, G1, G0. cbn [app]. by rewrite <- !app_assoc. }
  { done. }
  { lia. }
  { unfold PACKET_LEN, PAYLOAD_LEN. lia. }
  pose proof (tx_complete_step st fifo s5 F5' F5) as E6.
  set (s6 := set_rf_transmitting 0 s5) in E6.
  destruct (dispatch_terminated m2 [] s6)
    as (s7 & E7 & W7 & G7 & _ & I7 & F7 & F7' & _ & _ & D7 & _ & K7).
  { apply (wf_of_lengths s5); done. }
  { subst s6. fields. lia. }
  { done. }
  { subst s6. fields. rewrite I5, length_app. cbn [length].
    unfold UART_BUF_LEN, PAYLOAD_LEN. lia. }
  { done. }
  { done. }
  { subst s6. fields. rewrite D5 by (by destruct m2). lia. }
  { unfold PACKET_LEN, PAYLOAD_LEN. lia. }
  exists s7. rewrite !map_app, <- !app_assoc, run_app, E1.
  cbn [mbind option_bind map app run]. rewrite E2.
  cbn [mbind option_bind]. rewrite run_app, E3.
  cbn [mbind option_bind map app run]. rewrite E4.
  cbn [mbind option_bind]. rewrite E5. cbn [mbind option_bind].
  rewrite E6. cbn [mbind option_bind]. rewrite E7.
  cbn [mbind option_bind].
  split; [done|].
  split.
  { rewrite G7. subst s6. fields. rewrite G5, RL, <- app_assoc. done. }
  split; [done|]. split; [by apply D7|]. split; [done|]. split; [done|].
  apply (egress_side_kept_trans _ s4); [done|].
  apply (egress_side_kept_trans _ s5); [done|].
  apply (egress_side_kept_trans _ s6); [|done].
  subst s6. unfold egress_side_kept. by fields.
Qed.

Lemma two_messages_in_order_witness :
  exists s',
    run (map UartRx ([65] ++ [ch_nl] ++ [66; 67] ++ [ch_nl])
           ++ [Dispatch; RadioIrq 0 []; Dispatch]) init = Some s' /\
    TXFIFO_log s'
      = TXFIFO_log init ++ [2 :: [65] ++ [ch_nl];
                            3 :: [66; 67] ++ [ch_nl]] /\
    UartRxBuffer_i s' = 0 /\ data_to_send s' = 0 /\
    rf_transmitting s' = 1 /\ rf_receiving s' = 0 /\
    egress_side_kept init s'.
Proof.
  apply (two_messages_in_order [65] [66; 67] 0 [] init).
  - by vm_compute.
  - reflexivity.
  - reflexivity.
  - repeat constructor; discriminate.
  - repeat constructor; discriminate.
  - vm_compute; discriminate.
  - vm_compute; discriminate.
Defined.

(** ** The radio interrupt and the return to listening *)

(** X15: every radio interrupt hands the radio back to the main loop.
    Whenever CC1101_ISR returns it has asked for the wake-up of the main
    loop.  For the RFIFG9 vector it leaves the modem neither transmitting
    nor receiving, with the serial-to-radio side untouched, so that the
    next pass of the main loop starts listening again with the error flag
    cleared; for any other vector it changes nothing. *)
Theorem radio_irq_hands_back
    (vector st : Z) (fifo : list Z) (s s' : modem) (w : bool) :
  CC1101_ISR vector st fifo s = Some (s', w) ->
  w = true /\
  (vector <> 20 -> s' = s) /\
  (vector = 20 ->
   rf_transmitting s' = 0 /\ rf_receiving s' = 0 /\
   UartRxBuffer s' = UartRxBuffer s /\
   UartRxBuffer_i s' = UartRxBuffer_i s /\
   data_to_send s' = data_to_send s /\
   TXFIFO_log s' = TXFIFO_log s /\
   rf_transmitting (main_listen s') = 0 /\
   rf_receiving (main_listen s') = 1 /\
   rf_error (main_listen s') = 0).
Proof.
  unfold CC1101_ISR. intros H.
  destruct (Z.eqb_spec vector 20) as [->|Hv].
  2:{ injection H as <- <-. by repeat split. }
  split; [|split; [done|intros _]].
  { destruct (if negb (rf_receiving s =? 0) then _ else _);
      cbn [mbind option_bind] in H; [|done].
    by injection H as _ <-. }
  assert (exists s1,
            rf_receiving s1 = 0 /\
            UartRxBuffer s1 = UartRxBuffer s /\
            UartRxBuffer_i s1 = UartRxBuffer_i s /\
            data_to_send s1 = data_to_send s /\
            TXFIFO_log s1 = TXFIFO_log s /\
            s' = if negb (rf_transmitting s1 =? 0)
                 then set_rf_transmitting 0 s1 else s1)
    as (s1 & Hr & B & I & D & L & ->).
  { destruct (Z.eqb_spec (rf_receiving s) 0) as [Hr|Hr]; cbn [negb] in H.
    - cbn [mbind option_bind] in H. injection H as <- _.
      exists s. by repeat split.
    - destruct (handle_rf_rx_packet st fifo s) as [[o s1]|] eqn:E;
        cbn [fmap option_fmap option_map snd mbind option_bind] in H;
        [|done].
      injection H as <- _.
      apply handle_rf_rx_packet_inv in E
        as ((B & I & D & _ & _ & _ & L & _ & R & _) & _).
      exists s1. by repeat split. }
  assert (forall t, rf_transmitting t = 0 -> rf_receiving t = 0 ->
            rf_transmitting (main_listen t) = 0 /\
            rf_receiving (main_listen t) = 1 /\
            rf_error (main_listen t) = 0) as Hl.
  { intros t Ht Hr'. unfold main_listen. rewrite Ht, Hr'.
    cbn [Z.eqb andb].
    destruct (Z.eqb_spec (rf_error t) 0); cbn [negb]; by fields. }
  destruct (Z.eqb_spec (rf_transmitting s1) 0) as [Ht|Ht]; cbn [negb].
  - destruct (Hl s1) as (? & ? & ?); [done|done|]. by repeat split.
  - destruct (Hl (set_rf_transmitting 0 s1)) as (? & ? & ?);
      [by fields|by fields|].
    fields. by repeat split.
Qed.

Lemma radio_irq_hands_back_witness :
  true = true /\
  (20 <> 20 -> set_rf_transmitting 0 after_dispatch = after_dispatch) /\
  (20 = 20 ->
   rf_transmitting (set_rf_transmitting 0 after_dispatch) = 0 /\
   rf_receiving (set_rf_transmitting 0 after_dispatch) = 0 /\
   UartRxBuffer (set_rf_transmitting 0 after_dispatch)
     = UartRxBuffer after_dispatch /\
   UartRxBuffer_i (set_rf_transmitting 0 after_dispatch)
     = UartRxBuffer_i after_dispatch /\
   data_to_send (set_rf_transmitting 0 after_dispatch)
     = data_to_send after_dispatch /\
   TXFIFO_log (set_rf_transmitting 0 after_dispatch)
     = TXFIFO_log after_dispatch /\
   rf_transmitting (main_listen (set_rf_transmitting 0 after_dispatch)) = 0 /\
   rf_receiving (main_listen (set_rf_transmitting 0 after_dispatch)) = 1 /\
   rf_error (main_listen (set_rf_transmitting 0 after_dispatch)) = 0).
Proof.
  apply (radio_irq_hands_back 20 0 [] after_dispatch).
  vm_compute; reflexivity.
Defined.

(** ** Flush timer *)

(** X16: the compare value of the flush timer never overflows.  The clamp
    of timer_set keeps the shifted value, 128 ticks per millisecond, at
    128 * min(ms, 195) <= 24960, inside the positive range of the 16-bit
    int the shift is computed in; the timer is left running and the
    timeout flag is left alone. *)
Theorem timer_set_bounded (ms : Z) (s : modem) :
  0 <= ms ->
  TA1CCR0 (timer_set ms s) = 128 * Z.min ms 195 /\
  0 <= TA1CCR0 (timer_set ms s) <= 24960 /\
  TA1_running (timer_set ms s) = true /\
  uart_rx_timeout (timer_set ms s) = uart_rx_timeout s.
Proof.
  intros Hms. unfold timer_set. fields.
  rewrite Z.shiftl_mul_pow2 by lia. change (2 ^ 7) with 128.
  destruct (Z.gtb_spec ms 195); repeat split; lia.
Qed.

Lemma timer_set_bounded_witness :
  TA1CCR0 (timer_set 300 init) = 128 * Z.min 300 195 /\
  0 <= TA1CCR0 (timer_set 300 init) <= 24960 /\
  TA1_running (timer_set 300 init) = true /\
  uart_rx_timeout (timer_set 300 init) = uart_rx_timeout init.
Proof. apply (timer_set_bounded 300 init). lia. Defined.

(** X17: the flush timer is one-shot.  When it fires, TIMER1_A0_ISR stops
    it, so that it cannot fire again before a byte re-arms it; with bytes
    in the receive buffer it requests the dispatch of the whole buffer
    (one pending message, timeout flag set), with an empty buffer it
    requests nothing.  The buffers and both radio flags are untouched. *)
Theorem flush_timer_one_shot (s s' : modem) :
  step TimerFire s = Some s' ->
  TA1_running s' = false /\
  step TimerFire s' = None /\
  (0 < UartRxBuffer_i s -> data_to_send s' = 1 /\ uart_rx_timeout s' = 1) /\
  (UartRxBuffer_i s <= 0 ->
   data_to_send s' = data_to_send s /\ uart_rx_timeout s' = 0) /\
  ingress s' = ingress s /\
  egress_side_kept s s' /\ radio_tx_kept s s'.
Proof.
  cbn [step]. intros H. destruct (TA1_running s); [|done].
  injection H as <-. unfold TIMER1_A0_ISR, timer_clear, ingress. fields.
  cbn [fst].
  destruct (Z.gtb_spec (UartRxBuffer_i s) 0); fields.
  - repeat split; try done; lia.
  - repeat split; try done; lia.
Qed.

Lemma flush_timer_one_shot_witness :
  TA1_running (fst (TIMER1_A0_ISR after_A)) = false /\
  step TimerFire (fst (TIMER1_A0_ISR after_A)) = None /\
  (0 < UartRxBuffer_i after_A ->
   data_to_send (fst (TIMER1_A0_ISR after_A)) = 1 /\
   uart_rx_timeout (fst (TIMER1_A0_ISR after_A)) = 1) /\
  (UartRxBuffer_i after_A <= 0 ->
   data_to_send (fst (TIMER1_A0_ISR after_A)) = data_to_send after_A /\
   uart_rx_timeout (fst (TIMER1_A0_ISR after_A)) = 0) /\
  ingress (fst (TIMER1_A0_ISR after_A)) = ingress after_A /\
  egress_side_kept after_A (fst (TIMER1_A0_ISR after_A)) /\
  radio_tx_kept after_A (fst (TIMER1_A0_ISR after_A)).
Proof.
  apply (flush_timer_one_shot after_A). vm_compute; reflexivity.
Defined.

(** ** Messages longer than a radio frame *)

(** A loop whose body fails at one of its indices fails. *)
Lemma for_loop_fails {S : Type} (P : S -> Prop)
    (body : Z -> S -> option S) (j : Z) (n : nat) :
  forall (x : Z) (s : S),
    x <= j < x + Z.of_nat n ->
    (forall y t t', body y t = Some t' -> P t -> P t') ->
    (forall t, P t -> body j t = None) ->
    P s -> for_loop n x body s = None.
Proof.
  induction n as [|n IH]; intros x s Hj Hstep Hfail Hs; [lia|].
  cbn [for_loop]. destruct (Z.eq_dec x j) as [->|Hne].
  - by rewrite Hfail.
  - destruct (body x s) as [t|] eqn:E; cbn [mbind option_bind]; [|done].
    apply IH; [lia|done|done|]. by apply (Hstep x s t).
Qed.

(** Lines 171-176 check the length of the message against nothing: from
    35 bytes on the copy leaves RfTxBuffer. *)
Lemma encode_overrun (len : Z) (msg tx : list Z) :
  length tx = Z.to_nat PACKET_LEN -> PACKET_LEN <= len ->
  encode len msg tx = None.
Proof.
  unfold PACKET_LEN, PAYLOAD_LEN. intros Htx Hlen. unfold encode.
  destruct (store tx 0 (uchar len)) as [t0|] eqn:E0;
    cbn [mbind option_bind]; [|done].
  apply store_length in E0.
  apply (for_loop_fails (λ t, length t = 35%nat) _ 34).
  - lia.
  - intros y t t' Hb Ht. cbn beta in Hb.
    destruct (load msg y); cbn [mbind option_bind] in Hb; [|done].
    apply store_length in Hb. congruence.
  - intros t Ht. destruct (load msg 34); cbn [mbind option_bind]; [|done].
    unfold store. rewrite Ht.
    destruct (Z.ltb_spec (34 + 1) (Z.of_nat 35)); [lia|].
    by rewrite andb_false_r.
  - rewrite E0, Htx. done.
Qed.

(** X18: a message longer than a radio frame overruns RfTxBuffer.
    send_next_msg compares the length of the message with nothing.  When
    34 to 95 bytes are followed by a terminator, the message has at least
    35 bytes with it, and the copy of lines 174-176 writes past the last
    cell of RfTxBuffer (35 cells, one of them for the length): the pass of
    the main loop has no defined result. *)
Theorem oversized_message_overruns (msg : list Z) (s : modem) :
  wf s -> UartRxBuffer_i s = 0 -> rf_transmitting s = 0 ->
  Forall (λ b, b <> ch_nl) msg ->
  (34 <= length msg <= 95)%nat ->
  (exists s', run (map UartRx (msg ++ [ch_nl])) s = Some s' /\
              ingress s' = msg ++ [ch_nl] /\
              data_to_send s' = Z.of_nat (length msg) + 1) /\
  run (map UartRx (msg ++ [ch_nl]) ++ [Dispatch]) s = None.
Proof.
  intros Hwf Hi Htx Hnl Hlen.
  assert (ingress s = []) as G0 by (unfold ingress; by rewrite Hi).
  destruct (rx_bytes_accumulate msg s)
    as (s1 & E1 & W1 & G1 & I1 & D1 & _ & _ & K1 & R1);
    [done|lia|unfold UART_BUF_LEN, PAYLOAD_LEN; lia|done|].
  destruct (rx_newline_step s1)
    as (s2 & E2 & W2 & G2 & I2 & D2 & T2 & U2 & K2 & R2);
    [done|unfold UART_BUF_LEN, PAYLOAD_LEN; lia|].
  assert (run (map UartRx (msg ++ [ch_nl])) s = Some s2) as E12.
  { rewrite map_app, run_app, E1. cbn [mbind option_bind map run].
    by rewrite E2. }
  split.
  { exists s2. split; [done|]. split; [by rewrite G2, G1, G0|lia]. }
  rewrite run_app, E12. cbn [mbind option_bind run].
  assert (step Dispatch s2 = None) as ->; [|done].
  cbn [step]. unfold main_dispatch.
  replace (rf_transmitting s2) with 0
    by (destruct R1 as (_ & _ & Ha & _), R2 as (_ & _ & Hb & _);
        congruence).
  destruct (Z.eqb_spec (data_to_send s2) 0); [lia|].
  cbn [Z.eqb andb negb].
  assert (send_next_msg s2 = None) as ->; [|done].
  unfold send_next_msg.
  set (k := length msg) in *.
  assert (msg_len s2 = Some (Z.of_nat k + 1, s2)) as ->.
  { unfold msg_len. destruct (Z.eqb_spec (uart_rx_timeout s2) 1); [lia|].
    assert (find_newline (Z.to_nat (data_to_send s2)) 0 (UartRxBuffer s2)
            = Some (Z.of_nat k + 1)) as ->; [|done].
    assert (forall j, (j <= k)%nat ->
              UartRxBuffer s2 !! j = (msg ++ [ch_nl]) !! j) as Hlook.
    { intros j Hj.
      assert (ingress s2 = msg ++ [ch_nl]) as <- by (by rewrite G2, G1, G0).
      unfold ingress. rewrite lookup_take_lt by lia. done. }
    change 0 with (Z.of_nat 0).
    apply (find_newline_first (UartRxBuffer s2) k); [| |lia|lia].
    - rewrite Hlook by lia. rewrite lookup_app_r by (fold k; lia).
      fold k. by replace (k - k)%nat with 0%nat by lia.
    - intros j Hj Hc. rewrite Hlook in Hc by lia.
      rewrite lookup_app_l in Hc by (fold k; lia).
      apply (Forall_lookup_1 _ _ _ _ Hnl) in Hc. done. }
  cbn [mbind option_bind].
  destruct (Z.eqb_spec (Z.of_nat k + 1) 0); [lia|].
  destruct (Z.eqb_spec (Z.of_nat k + 1) (-1)); [lia|].
  cbn [orb]. rewrite encode_overrun; [done| |].
  - by destruct W2 as (_ & _ & _ & ?).
  - unfold PACKET_LEN, PAYLOAD_LEN. lia.
Qed.

Lemma oversized_message_overruns_witness :
  (exists s', run (map UartRx (replicate 34 65 ++ [ch_nl])) init = Some s' /\
              ingress s' = replicate 34 65 ++ [ch_nl] /\
              data_to_send s'
                = Z.of_nat (length (replicate 34 65 : list Z)) + 1) /\
  run (map UartRx (replicate 34 65 ++ [ch_nl]) ++ [Dispatch]) init = None.
Proof.
  apply (oversized_message_overruns (replicate 34 65) init).
  - by vm_compute.
  - reflexivity.
  - reflexivity.
  - apply Forall_forall. intros b Hb.
    apply elem_of_replicate in Hb as [-> _]. discriminate.
  - vm_compute. split; apply Nat.leb_le; reflexivity.
Defined.

(** ** Debug LEDs *)

Lemma testbit_led1 (n : Z) : 0 <= n -> Z.testbit DEBUG_LED1_BIT n = (n =? 0).
Proof.
  intros Hn. change DEBUG_LED1_BIT with (2 ^ 0).
  rewrite Z.pow2_bits_eqb by lia. apply Z.eqb_sym.
Qed.

Lemma testbit_led2 (n : Z) : 0 <= n -> Z.testbit DEBUG_LED2_BIT n = (n =? 4).
Proof.
  intros Hn. change DEBUG_LED2_BIT with (2 ^ 4).
  rewrite Z.pow2_bits_eqb by lia. apply Z.eqb_sym.
Qed.

(** X19: the LED functions touch the bit of their LED and no other.
    Bit by bit on the port register: led_on sets bit 0 for LED 1 and bit 4
    for LED 2, led_off clears it, led_toggle inverts it; every other bit,
    and the whole register for any other LED number, is left as it is. *)
Theorem led_bitwise (led P1OUT n : Z) :
  0 <= n ->
  let hit := ((led =? 1) || (led =? 2)) && (n =? led_bit led) in
  Z.testbit (led_on led P1OUT) n = hit || Z.testbit P1OUT n /\
  Z.testbit (led_off led P1OUT) n = negb hit && Z.testbit P1OUT n /\
  Z.testbit (led_toggle led P1OUT) n = xorb hit (Z.testbit P1OUT n).
Proof.
  intros Hn. unfold led_on, led_off, led_toggle, led_bit.
  destruct (Z.eqb_spec led 1) as [->|H1]; cbn [orb andb].
  - rewrite Z.lor_spec, Z.land_spec, Z.lxor_spec, Z.lnot_spec by done.
    rewrite testbit_led1 by done.
    destruct (n =? 0), (Z.testbit P1OUT n); done.
  - destruct (Z.eqb_spec led 2) as [->|H2]; cbn [orb andb].
    + rewrite Z.lor_spec, Z.land_spec, Z.lxor_spec, Z.lnot_spec by done.
      rewrite testbit_led2 by done.
      destruct (n =? 4), (Z.testbit P1OUT n); done.
    + by destruct (Z.testbit P1OUT n).
Qed.

Lemma led_bitwise_witness :
  Z.testbit (led_on 2 1) 4 = true || Z.testbit 1 4 /\
  Z.testbit (led_off 2 1) 4 = negb true && Z.testbit 1 4 /\
  Z.testbit (led_toggle 2 1) 4 = xorb true (Z.testbit 1 4).
Proof. apply (led_bitwise 2 1 4). lia. Defined.

(** X20: switching a LED is idempotent, toggling it is an involution.
    Toggling twice restores the port register; switching on (or off)
    twice is switching once; the last of an on and an off wins. *)
Theorem led_switching (led P1OUT : Z) :
  led_toggle led (led_toggle led P1OUT) = P1OUT /\
  led_on led (led_on led P1OUT) = led_on led P1OUT /\
  led_off led (led_off led P1OUT) = led_off led P1OUT /\
  led_off led (led_on led P1OUT) = led_off led P1OUT /\
  led_on led (led_off led P1OUT) = led_on led P1OUT.
Proof.
  unfold led_toggle, led_on, led_off.
  destruct (led =? 1); [|destruct (led =? 2); [|done]].
  all: cbv beta iota; repeat split; apply Z.bits_inj'; intros n Hn;
    repeat first [rewrite Z.lxor_spec | rewrite Z.lor_spec
                 | rewrite Z.land_spec | rewrite Z.lnot_spec by done];
    by destruct (Z.testbit P1OUT n), (Z.testbit DEBUG_LED1_BIT n),
         (Z.testbit DEBUG_LED2_BIT n).
Qed.
